(** * Recipe scaler: a shallow embedding of [recipe_scaler.py]

    The module scales the ingredient list of a recipe (a JSON dictionary) to a
    new number of servings and prints it.  Its functions [scale_recipe],
    [convert_units], [get_best_unit], [convert_cups_to_grams] and
    [display_recipe] are embedded here as Rocq functions, with the tables
    [INGREDIENT_DENSITY] and [CONVERSIONS]:

    - Python numbers are [int] (here [Z]) and [float].  The arithmetic the
      functions use is gathered in the class [PyFloat]; the instance
      [binary64] is IEEE 754 double precision as CPython computes it
      (primitive floats, [round] by exact integer arithmetic on mantissa and
      exponent), the instance [exact] is the same arithmetic over the
      rationals, without rounding error.
    - strings are ASCII text, and [new_servings] is an [int];
    - dictionaries and lists are objects of a heap, so that [dict.copy()]
      and the item assignments of [scale_recipe] act on shared objects;
    - a raised exception is a result of its own ([Raise]), [print] appends
      to the output of the state.

    The file reading ([load_recipes]) and the prompt loop ([main]) are
    embedded in the module [Console], with the file and the lines typed as
    arguments, and [format_measurement], which nothing calls, in the module
    [Format], for amounts that are floats. *)

From Stdlib Require Import ZArith QArith Qabs Lia Lqa Ascii String.
From Stdlib Require Import Floats.PrimFloat Floats.FloatOps Floats.SpecFloat.
From Stdlib Require Import Floats.FloatAxioms.
From stdpp Require Import gmap strings list pretty.

Set Warnings "-inexact-float".
Local Open Scope Z_scope.

(** ** Exceptions and results *)

(** The exceptions the embedded functions can raise.  [DanglingReference] is
    not a Python exception: it marks a run that met a reference outside the
    heap, which no Python state contains. *)
Inductive exn : Set :=
  | ZeroDivisionError
  | KeyError
  | TypeError
  | AttributeError
  | OverflowError
  | ValueError
  | DanglingReference.

Inductive result (A : Type) : Type :=
  | Ok (a : A)
  | Raise (e : exn).
Arguments Ok {A} a.
Arguments Raise {A} e.

#[global] Instance result_ret : MRet result := λ A a, Ok a.
#[global] Instance result_bind : MBind result := λ A B f r,
  match r with
  | Ok a => f a
  | Raise e => Raise e
  end.

(** ** Strings *)

(** [str.lower()] on ASCII text: the letters A..Z move to a..z. *)
Definition lower_ascii (c : ascii) : ascii :=
  let n := nat_of_ascii c in
  if (Nat.leb 65 n && Nat.leb n 90)%bool then ascii_of_nat (n + 32) else c.

Fixpoint lower (s : string) : string :=
  match s with
  | EmptyString => EmptyString
  | String c r => String (lower_ascii c) (lower r)
  end.

Fixpoint starts_with (p s : string) : bool :=
  match p, s with
  | EmptyString, _ => true
  | String a p', String b s' => if decide (a = b) then starts_with p' s' else false
  | String _ _, EmptyString => false
  end.

(** [sub in s] for two strings. *)
Fixpoint contains (sub s : string) : bool :=
  starts_with sub s ||
  match s with
  | EmptyString => false
  | String _ r => contains sub r
  end.

(** [x in l] for a list of strings. *)
Definition str_in (x : string) (l : list string) : bool :=
  bool_decide (x ∈ l).

(** ** Numbers *)

(** A numeric literal of the source: an [int] literal, or a [float] one
    (also the constant quotient of two [int] literals, such as [1/16]), given
    by its exact decimal value. *)
Inductive lit : Set :=
  | LInt (z : Z)
  | LFloat (q : Q).

Definition lit_value (c : lit) : Q :=
  match c with
  | LInt z => inject_Z z
  | LFloat q => q
  end.

(** [half_even num den] is the integer nearest to [num/den] ([den > 0]), the
    even one of the two when [num/den] lies halfway: the rounding of Python's
    [round]. *)
Definition half_even (num den : Z) : Z :=
  let q := num / den in
  let r := num mod den in
  match 2 * r ?= den with
  | Lt => q
  | Gt => q + 1
  | Eq => if Z.even q then q else q + 1
  end.

(** The arithmetic of Python's [float] that the module uses. *)
Class PyFloat (F : Type) := {
  (** the float a literal of value [q] denotes *)
  of_Q : Q → F;
  (** [float(z)], as in [z * x] for an int [z] and a float [x] *)
  float_of_int : Z → result F;
  (** [a / b] on two ints *)
  int_truediv : Z → Z → result F;
  fmul : F → F → F;
  (** [x / y] on two floats *)
  fdiv : F → F → result F;
  flt : F → F → bool;
  fle : F → F → bool;
  feq : F → F → bool;
  (** [round(x)], an int *)
  round_int : F → result Z;
  (** [round(x, n)], a float *)
  round_nd : nat → F → F;
  (** the exact value of a finite float *)
  exact_value : F → option Q
}.

(** *** IEEE 754 binary64, as CPython has it *)
Module Binary64.

Definition prec : Z := 53.
Definition emax : Z := 1024.

(** The integer [±k] ([k >= 0]) as an unrounded float: mantissa [k],
    exponent 0. *)
Definition SFint (neg : bool) (k : Z) : spec_float :=
  match k with
  | Z0 => S754_zero neg
  | Zpos p => S754_finite neg p 0
  | Zneg _ => S754_nan
  end.

(** The float nearest to [num/den], ties to the even mantissa; [den > 0].
    This is the value of a decimal literal, of [int / int] and of
    [float(int)]. *)
Definition nearest (neg : bool) (num den : Z) : float :=
  SF2Prim (SFdiv prec emax (SFint neg num) (SFint false den)).

Definition nearest_Z (num den : Z) : float :=
  nearest (num <? 0) (Z.abs num) den.

Definition of_Q (q : Q) : float := nearest_Z (Qnum q) (Zpos (Qden q)).

Definition is_infinite (x : float) : bool :=
  match Prim2SF x with
  | S754_infinity _ => true
  | _ => false
  end.

Definition float_of_int (z : Z) : result float :=
  let x := nearest_Z z 1 in
  if is_infinite x then Raise OverflowError else Ok x.

Definition int_truediv (a b : Z) : result float :=
  if decide (b = 0) then Raise ZeroDivisionError
  else
    let x := nearest (xorb (a <? 0) (b <? 0)) (Z.abs a) (Z.abs b) in
    if is_infinite x then Raise OverflowError else Ok x.

Definition fdiv (x y : float) : result float :=
  if PrimFloat.eqb y 0%float then Raise ZeroDivisionError
  else Ok (PrimFloat.div x y).

(** [m * 2^e * 10^n] as a fraction. *)
Definition scaled_fraction (m : positive) (e : Z) (n : nat) : Z * Z :=
  (Zpos m * 2 ^ Z.max e 0 * 10 ^ Z.of_nat n, 2 ^ Z.max (- e) 0).

Definition round_int (x : float) : result Z :=
  match Prim2SF x with
  | S754_zero _ => Ok 0
  | S754_infinity _ => Raise OverflowError
  | S754_nan => Raise ValueError
  | S754_finite neg m e =>
      let '(num, den) := scaled_fraction m e 0 in
      let k := half_even num den in
      Ok (if neg then - k else k)
  end.

(** [round(x, n)]: the exact value of [x] is rounded to [n] decimals, ties
    to even, and the decimal obtained is read back as a float.  Zeros,
    infinities and nan round to themselves, and the sign is kept. *)
Definition round_nd (n : nat) (x : float) : float :=
  match Prim2SF x with
  | S754_finite neg m e =>
      let '(num, den) := scaled_fraction m e n in
      nearest neg (half_even num den) (10 ^ Z.of_nat n)
  | _ => x
  end.

Definition exact_value (x : float) : option Q :=
  match Prim2SF x with
  | S754_zero _ => Some 0%Q
  | S754_finite neg m e =>
      let '(num, den) := scaled_fraction m e 0 in
      Some (Qmake (if neg then - num else num) (Z.to_pos den))
  | _ => None
  end.

End Binary64.

#[global] Instance binary64 : PyFloat float := {|
  of_Q := Binary64.of_Q;
  float_of_int := Binary64.float_of_int;
  int_truediv := Binary64.int_truediv;
  fmul := PrimFloat.mul;
  fdiv := Binary64.fdiv;
  flt := PrimFloat.ltb;
  fle := PrimFloat.leb;
  feq := PrimFloat.eqb;
  round_int := Binary64.round_int;
  round_nd := Binary64.round_nd;
  exact_value := Binary64.exact_value
|}.

(** *** Exact rational arithmetic *)
Module Exact.

Definition int_truediv (a b : Z) : result Q :=
  if decide (b = 0) then Raise ZeroDivisionError
  else Ok (inject_Z a / inject_Z b)%Q.

Definition fdiv (x y : Q) : result Q :=
  if Qeq_bool y 0 then Raise ZeroDivisionError else Ok (x / y)%Q.

Definition flt (x y : Q) : bool := negb (Qle_bool y x).

Definition round_int (x : Q) : Z := half_even (Qnum x) (Zpos (Qden x)).

Definition round_nd (n : nat) (x : Q) : Q :=
  (inject_Z (round_int (x * inject_Z (10 ^ Z.of_nat n))) / inject_Z (10 ^ Z.of_nat n))%Q.

End Exact.

Definition exact : PyFloat Q := {|
  of_Q := λ q, q;
  float_of_int := λ z, Ok (inject_Z z);
  int_truediv := Exact.int_truediv;
  fmul := Qmult;
  fdiv := Exact.fdiv;
  flt := Exact.flt;
  fle := Qle_bool;
  feq := Qeq_bool;
  round_int := λ x, Ok (Exact.round_int x);
  round_nd := Exact.round_nd;
  exact_value := λ x, Some x
|}.

(** ** Values, objects and the heap *)

Definition loc : Set := positive.

Section Scaler.

Context {F : Type} {A : PyFloat F}.

(** The values a loaded JSON document holds, booleans left out; lists and
    dictionaries are references to objects of the heap. *)
Inductive val : Type :=
  | VNone
  | VInt (z : Z)
  | VFloat (x : F)
  | VStr (s : string)
  | VRef (l : loc).

Inductive obj : Type :=
  | ODict (d : gmap string val)
  | OList (l : list val).

Record state : Type := State {
  heap : gmap loc obj;
  stdout : list string
}.

(** A statement runs on a state and returns a value or raises; the state
    it leaves is kept in both cases. *)
Definition M (T : Type) : Type := state → result T * state.

#[global] Instance M_ret : MRet M := λ T a σ, (Ok a, σ).
#[global] Instance M_bind : MBind M := λ T U f m σ,
  match m σ with
  | (Ok a, σ') => f a σ'
  | (Raise e, σ') => (Raise e, σ')
  end.

Definition lift {T} (r : result T) : M T := λ σ, (r, σ).

Definition print (line : string) : M unit := λ σ,
  (Ok (), State (heap σ) (stdout σ ++ [line])).

Definition load (l : loc) : M obj := λ σ,
  match heap σ !! l with
  | Some o => (Ok o, σ)
  | None => (Raise DanglingReference, σ)
  end.

Definition store (l : loc) (o : obj) : M unit := λ σ,
  (Ok (), State (<[l := o]> (heap σ)) (stdout σ)).

Definition alloc (o : obj) : M loc := λ σ,
  let l := fresh (dom (heap σ)) in
  (Ok l, State (<[l := o]> (heap σ)) (stdout σ)).

(** [v == s] for a string [s]. *)
Definition is_str (v : val) (s : string) : bool :=
  match v with
  | VStr t => bool_decide (t = s)
  | _ => false
  end.

(** [bool(v)]. *)
Definition truthy (v : val) : M bool :=
  match v with
  | VNone => mret false
  | VInt z => mret (negb (z =? 0))
  | VFloat x => mret (negb (feq x (of_Q 0)))
  | VStr s => mret (negb (bool_decide (s = "")))
  | VRef l =>
      o ← load l;
      match o with
      | ODict d => mret (negb (bool_decide (size d = 0%nat)))
      | OList xs => mret (negb (bool_decide (length xs = 0%nat)))
      end
  end.

(** [k in v] for a string [k]: a key of a dictionary, an element of a
    list, a substring of a string. *)
Definition py_in (k : string) (v : val) : M bool :=
  match v with
  | VRef l =>
      o ← load l;
      match o with
      | ODict d => mret (bool_decide (is_Some (d !! k)))
      | OList xs => mret (existsb (λ x, is_str x k) xs)
      end
  | VStr s => mret (contains k s)
  | _ => lift (Raise TypeError)
  end.

(** [v.copy()]: dictionaries and lists have the method, and the copy is
    shallow. *)
Definition copy (v : val) : M val :=
  match v with
  | VRef l => o ← load l; l' ← alloc o; mret (VRef l')
  | _ => lift (Raise AttributeError)
  end.

(** [v[k]] for a string [k]. *)
Definition getitem (v : val) (k : string) : M val :=
  match v with
  | VRef l =>
      o ← load l;
      match o with
      | ODict d =>
          match d !! k with
          | Some x => mret x
          | None => lift (Raise KeyError)
          end
      | OList _ => lift (Raise TypeError)
      end
  | _ => lift (Raise TypeError)
  end.

(** [v[k] = x] for a string [k]. *)
Definition setitem (v : val) (k : string) (x : val) : M unit :=
  match v with
  | VRef l =>
      o ← load l;
      match o with
      | ODict d => store l (ODict (<[k := x]> d))
      | OList _ => lift (Raise TypeError)
      end
  | _ => lift (Raise TypeError)
  end.

Fixpoint chars (s : string) : list val :=
  match s with
  | EmptyString => []
  | String c r => VStr (String c EmptyString) :: chars r
  end.

(** The elements [for x in v] runs through: the elements of a list, the
    keys of a dictionary, the characters of a string. *)
Definition iterate (v : val) : M (list val) :=
  match v with
  | VRef l =>
      o ← load l;
      match o with
      | ODict d => mret (VStr <$> (map_to_list d).*1)
      | OList xs => mret xs
      end
  | VStr s => mret (chars s)
  | _ => lift (Raise TypeError)
  end.

Fixpoint for_each {T} (body : T → M unit) (l : list T) : M unit :=
  match l with
  | [] => mret ()
  | x :: r => body x;; for_each body r
  end.

(** ** scale_recipe *)

(** [new_servings / servings]. *)
Definition true_divide (new_servings : Z) (servings : val) : result F :=
  match servings with
  | VInt s => int_truediv new_servings s
  | VFloat y => x ← float_of_int new_servings; fdiv x y
  | _ => Raise TypeError
  end.

(** [amount * scale_factor]. *)
Definition times (amount : val) (scale_factor : F) : result F :=
  match amount with
  | VInt z => x ← float_of_int z; Ok (fmul x scale_factor)
  | VFloat x => Ok (fmul x scale_factor)
  | _ => Raise TypeError
  end.

(** The chain "Handle different unit types" of the loop body: the amount
    to store for the scaled amount, and the unit to store when the branch
    assigns one. *)
Definition handle_unit (unit : val) (scaled_amount : F) : result (val * option string) :=
  if is_str unit "piece" then
    k ← round_int (fmul scaled_amount (of_Q 4));
    x ← int_truediv k 4;
    Ok (VFloat x, None)
  else if is_str unit "cup" || is_str unit "tbsp" || is_str unit "tsp" then
    if is_str unit "cup" && flt scaled_amount (of_Q 0.25) then
      let tbsp := fmul scaled_amount (of_Q 16) in
      if fle (of_Q 1) tbsp then
        Ok (VFloat (round_nd 1 tbsp), Some "tbsp")
      else
        let tsp := fmul tbsp (of_Q 3) in
        Ok (VFloat (round_nd 1 tsp), Some "tsp")
    else if is_str unit "tbsp" && flt scaled_amount (of_Q 0.5) then
      let tsp := fmul scaled_amount (of_Q 3) in
      Ok (VFloat (round_nd 1 tsp), Some "tsp")
    else
      Ok (VFloat (round_nd (if is_str unit "cup" then 2 else 1) scaled_amount), None)
  else if is_str unit "g" || is_str unit "ml" then
    k ← round_int scaled_amount;
    Ok (VInt k, None)
  else
    Ok (VFloat (round_nd 1 scaled_amount), None).

(** The body of the loop "Scale each ingredient". *)
Definition scale_ingredient (scale_factor : F) (ingredient : val) : M unit :=
  amount ← getitem ingredient "amount";
  scaled_amount ← lift (times amount scale_factor);
  unit ← getitem ingredient "unit";
  r ← lift (handle_unit unit scaled_amount);
  setitem ingredient "amount" r.1;;
  match r.2 with
  | Some u => setitem ingredient "unit" (VStr u)
  | None => mret ()
  end.

Definition scale_recipe (recipe : val) (new_servings : Z) : M val :=
  t ← truthy recipe;
  if negb t || (new_servings <=? 0) then
    print "Error: Invalid recipe or serving size.";;
    mret VNone
  else
    has_servings ← py_in "servings" recipe;
    has_ingredients ← (if has_servings then py_in "ingredients" recipe else mret false);
    if negb has_servings || negb has_ingredients then
      print "Error: Invalid recipe format.";;
      mret VNone
    else
      scaled_recipe ← copy recipe;
      source ← getitem recipe "ingredients";
      items ← iterate source;
      copies ← mapM copy items;
      fresh_list ← alloc (OList copies);
      setitem scaled_recipe "ingredients" (VRef fresh_list);;
      servings ← getitem recipe "servings";
      scale_factor ← lift (true_divide new_servings servings);
      setitem scaled_recipe "servings" (VInt new_servings);;
      ingredients ← getitem scaled_recipe "ingredients";
      scaled_items ← iterate ingredients;
      for_each (scale_ingredient scale_factor) scaled_items;;
      mret scaled_recipe.

(** ** The tables *)

(** [d[k]] on a table written as a list of items, in the order of the
    source; [None] stands for [KeyError]. *)
Fixpoint table_get {V} (k : string) (d : list (string * V)) : option V :=
  match d with
  | [] => None
  | (k', v) :: r => if bool_decide (k' = k) then Some v else table_get k r
  end.

(** The module binds [INGREDIENT_DENSITY] twice; the second binding (grams
    per cup) replaces the first, and is the table every function reads. *)
Definition INGREDIENT_DENSITY : list (string * lit) :=
  [ ("flour", LInt 125);
    ("sugar", LInt 200);
    ("brown sugar", LInt 220);
    ("butter", LInt 227);
    ("chocolate chips", LInt 175);
    ("milk", LInt 240);
    ("oil", LInt 215);
    ("honey", LInt 340);
    ("oats", LInt 90);
    ("rice", LInt 200);
    ("pasta", LInt 100);
    ("cheese", LInt 113);
    ("yogurt", LInt 245);
    ("cream", LInt 240);
    ("water", LFloat 236.588) ].

Definition CONVERSIONS : list (string * list (string * lit)) :=
  [ ("tbsp", [ ("tsp", LInt 3); ("cup", LFloat (1/16)); ("pint", LFloat (1/32));
               ("quart", LFloat (1/64)); ("liter", LFloat 0.0147868); ("ml", LFloat 14.7868) ]);
    ("tsp", [ ("tbsp", LFloat (1/3)); ("cup", LFloat (1/48)); ("pint", LFloat (1/96));
              ("quart", LFloat (1/192)); ("liter", LFloat 0.00492892); ("ml", LFloat 4.92892) ]);
    ("cup", [ ("tbsp", LInt 16); ("tsp", LInt 48); ("pint", LFloat 0.5);
              ("quart", LFloat 0.25); ("liter", LFloat 0.236588); ("ml", LFloat 236.588) ]);
    ("pint", [ ("tbsp", LInt 32); ("tsp", LInt 96); ("cup", LInt 2);
               ("quart", LFloat 0.5); ("liter", LFloat 0.473176); ("ml", LFloat 473.176) ]);
    ("quart", [ ("tbsp", LInt 64); ("tsp", LInt 192); ("cup", LInt 4);
                ("pint", LInt 2); ("liter", LFloat 0.946353); ("ml", LFloat 946.353) ]);
    ("liter", [ ("tbsp", LFloat 67.628); ("tsp", LFloat 202.884); ("cup", LFloat 4.22675);
                ("pint", LFloat 2.11338); ("quart", LFloat 1.05669); ("ml", LInt 1000) ]);
    ("ml", [ ("tbsp", LFloat 0.067628); ("tsp", LFloat 0.202884); ("cup", LFloat 0.00422675);
             ("pint", LFloat 0.00211338); ("quart", LFloat 0.00105669); ("liter", LFloat 0.001) ]);
    ("g", [ ("kg", LFloat 0.001); ("oz", LFloat 0.035274); ("lb", LFloat 0.00220462) ]);
    ("kg", [ ("g", LInt 1000); ("oz", LFloat 35.274); ("lb", LFloat 2.20462) ]);
    ("oz", [ ("g", LFloat 28.3495); ("kg", LFloat 0.0283495); ("lb", LFloat 0.0625) ]);
    ("lb", [ ("g", LFloat 453.592); ("kg", LFloat 0.453592); ("oz", LInt 16) ]) ]%Q.

(** [CONVERSIONS[unit][target_unit]]. *)
Definition conversion (unit target_unit : string) : option lit :=
  table_get unit CONVERSIONS ≫= table_get target_unit.

(** ** convert_units *)

Definition volume_units : list string :=
  ["tbsp"; "tsp"; "cup"; "pint"; "quart"; "liter"; "ml"].
Definition weight_units : list string := ["g"; "kg"; "oz"; "lb"].

(** The pair the function returns; [None] is the pair [(None, None)].
    A [KeyError] of the table is caught by the function and leads to that
    pair too. *)
Definition convert_units (amount : F) (unit target_unit : string) : option (F * string) :=
  if bool_decide (unit = target_unit) then Some (amount, target_unit)
  else
    let unit := lower unit in
    let target_unit := lower target_unit in
    if (str_in unit volume_units && str_in target_unit volume_units)
       || (str_in unit weight_units && str_in target_unit weight_units)
    then
      match conversion unit target_unit with
      | Some c => Some (round_nd 2 (fmul amount (of_Q (lit_value c))), target_unit)
      | None => None
      end
    else None.

(** ** get_best_unit *)

Definition skip_conversion : list string :=
  ["garlic"; "ginger"; "onion"; "pepper"; "salt"; "baking powder";
   "baking soda"; "yeast"; "spices"; "herbs"; "vanilla extract"; "extract"].

(** [any(skip in ingredient_lower for skip in skip_conversion)]. *)
Definition skipped (ingredient_lower : string) : bool :=
  existsb (λ skip, contains skip ingredient_lower) skip_conversion.

(** The density of the first key of [INGREDIENT_DENSITY], in the order of
    the table, that occurs in the name. *)
Definition density_match (ingredient_lower : string) : option lit :=
  snd <$> List.find (λ item, contains item.1 ingredient_lower) INGREDIENT_DENSITY.

(** The end of [get_best_unit], reached when no amount in grams is
    returned: "try to use the most appropriate volume unit". *)
Definition appropriate_volume_unit (amount : F) (current_unit : string) : F * string :=
  let after_cup :=
    if bool_decide (current_unit = "cup") && flt amount (of_Q 0.25) then
      let tbsp := fmul amount (of_Q 16) in
      if fle (of_Q 1) tbsp then Some (round_nd 1 tbsp, "tbsp") else None
    else None in
  match after_cup with
  | Some r => r
  | None =>
      let after_tbsp :=
        if bool_decide (current_unit = "tbsp") && flt amount (of_Q 1) then
          let tsp := fmul amount (of_Q 3) in
          if fle (of_Q 1) tsp then Some (round_nd 1 tsp, "tsp") else None
        else None in
      match after_tbsp with
      | Some r => r
      | None => (amount, current_unit)
      end
  end.

(** The volume in millilitres the function computes before it applies the
    density. *)
Definition to_ml (amount : F) (current_unit : string) : F :=
  if bool_decide (current_unit = "cup") then fmul amount (of_Q 236.588)
  else if bool_decide (current_unit = "tbsp") then fmul amount (of_Q 14.7868)
  else if bool_decide (current_unit = "tsp") then fmul amount (of_Q 4.92892)
  else amount.

Definition get_best_unit (ingredient_name : string) (amount : F) (current_unit : string)
  : F * string :=
  let ingredient_lower := lower ingredient_name in
  if skipped ingredient_lower then (amount, current_unit)
  else
    let found :=
      if str_in current_unit ["cup"; "tbsp"; "tsp"; "pint"; "quart"; "liter"; "ml"]
      then density_match ingredient_lower else None in
    match found with
    | Some density =>
        let ml := to_ml amount current_unit in
        let grams := round_nd 1 (fmul ml (of_Q (lit_value density))) in
        if fle (of_Q 1) grams then (grams, "g")
        else appropriate_volume_unit amount current_unit
    | None => appropriate_volume_unit amount current_unit
    end.

End Scaler.

Arguments val : clear implicits.
Arguments obj : clear implicits.
Arguments state : clear implicits.

(** ** Text of numbers

    How CPython writes a float: [str(x)] is the shortest decimal that reads
    back as [x], [format(x, ".1f")] the exact value rounded to one decimal. *)
Module Text.

Definition lt_pow10 (num den p : Z) : bool :=
  if 0 <=? p then num <? den * 10 ^ p else num * 10 ^ (- p) <? den.

Fixpoint find_decpt (fuel : nat) (num den p : Z) : Z :=
  match fuel with
  | O => p
  | S f => if lt_pow10 num den p then p else find_decpt f num den (p + 1)
  end.

(** The [p] with [10^(p-1) <= num/den < 10^p], searched upwards from a
    lower estimate. *)
Definition decpt_of (num den : Z) : Z :=
  let b := Z.log2 num - Z.log2 den in
  find_decpt 8 num den ((b - 1) * 30103 / 100000 - 1).

(** [k * 10^(-a)] read as a float. *)
Definition read_back (k a : Z) : float :=
  if 0 <=? a then Binary64.nearest false k (10 ^ a)
  else Binary64.nearest false (k * 10 ^ (- a)) 1.

(** The shortest run of digits [k], of [n] digits at most 17, such that
    [k * 10^(p-n)] reads back as [x]; of the two neighbours of the value
    with [n] digits, the nearer one when both read back as [x]. *)
Fixpoint shortest (fuel : nat) (x : float) (num den p n : Z) : Z * Z :=
  match fuel with
  | O => (0, n)
  | S f =>
      let a := n - p in
      let N := if 0 <=? a then num * 10 ^ a else num in
      let D := if 0 <=? a then den else den * 10 ^ (- a) in
      let L := N / D in
      let r := N mod D in
      let okL := PrimFloat.eqb (read_back L a) x in
      let okU := PrimFloat.eqb (read_back (L + 1) a) x in
      if okL && ((2 * r <=? D) || negb okU) then (L, n)
      else if okU then (L + 1, n)
      else shortest f x num den p (n + 1)
  end.

Fixpoint rstrip (c : ascii) (s : string) : string :=
  match s with
  | EmptyString => EmptyString
  | String a r =>
      let r' := rstrip c r in
      if bool_decide (r' = EmptyString) && bool_decide (a = c) then EmptyString
      else String a r'
  end.

Fixpoint zeros (n : nat) : string :=
  match n with
  | O => EmptyString
  | S k => String "0" (zeros k)
  end.

(** The digits and the position of the decimal point ([0.d1d2... * 10^decpt])
    of the shortest decimal of a positive float. *)
Definition digits_of (x : float) (num den : Z) : string * Z :=
  let p := decpt_of num den in
  let '(k, n) := shortest 17 x num den p 1 in
  let all := pretty k in
  (rstrip "0" all, p + (Z.of_nat (String.length all) - n)).

Definition exponent_text (e : Z) : string :=
  let d := pretty (Z.abs e) in
  ((if e <? 0 then "-" else "+") +:+ (if Z.abs e <? 10 then "0" else "") +:+ d).

Definition format_short (digits : string) (decpt : Z) : string :=
  let n := String.length digits in
  if (decpt <=? -4) || (16 <? decpt) then
    (String.substring 0 1 digits
     +:+ (if Nat.ltb 1 n then "." +:+ String.substring 1 (n - 1) digits else "")
     +:+ "e" +:+ exponent_text (decpt - 1))
  else if decpt <=? 0 then
    ("0." +:+ zeros (Z.to_nat (- decpt)) +:+ digits)
  else if Z.of_nat n <=? decpt then
    (digits +:+ zeros (Z.to_nat decpt - n) +:+ ".0")
  else
    (String.substring 0 (Z.to_nat decpt) digits +:+ "."
     +:+ String.substring (Z.to_nat decpt) (n - Z.to_nat decpt) digits).

Definition sign_text (neg : bool) : string := if neg then "-" else "".

(** [str(x)] and [repr(x)] of a float. *)
Definition repr (x : float) : string :=
  match Prim2SF x with
  | S754_nan => "nan"
  | S754_infinity neg => (sign_text neg +:+ "inf")
  | S754_zero neg => (sign_text neg +:+ "0.0")
  | S754_finite neg m e =>
      let '(num, den) := Binary64.scaled_fraction m e 0 in
      let '(digits, decpt) := digits_of (PrimFloat.abs x) num den in
      (sign_text neg +:+ format_short digits decpt)
  end.

(** [format(x, ".1f")] of a float. *)
Definition format_1f (x : float) : string :=
  match Prim2SF x with
  | S754_nan => "nan"
  | S754_infinity neg => (sign_text neg +:+ "inf")
  | S754_zero neg => (sign_text neg +:+ "0.0")
  | S754_finite neg m e =>
      let '(num, den) := Binary64.scaled_fraction m e 1 in
      let k := half_even num den in
      (sign_text neg +:+ pretty (k / 10) +:+ "." +:+ pretty (k mod 10))
  end.

(** [s.split('.')]. *)
Fixpoint split_dot (s : string) : list string :=
  match s with
  | EmptyString => [EmptyString]
  | String a r =>
      let parts := split_dot r in
      if bool_decide (a = "."%char) then EmptyString :: parts
      else
        match parts with
        | h :: t => String a h :: t
        | [] => [String a EmptyString]
        end
  end.

(** [int(x)] of a float: towards zero. *)
Definition int_of_float (x : float) : result Z :=
  match Prim2SF x with
  | S754_zero _ => Ok 0
  | S754_infinity _ => Raise OverflowError
  | S754_nan => Raise ValueError
  | S754_finite neg m e =>
      let '(num, den) := Binary64.scaled_fraction m e 0 in
      Ok (if neg then - (num / den) else num / den)
  end.

(** [x == k] for a float and an int: the values are compared exactly. *)
Definition float_eq_int (x : float) (k : Z) : bool :=
  match Binary64.exact_value x with
  | Some q => Qeq_bool q (inject_Z k)
  | None => false
  end.

End Text.

(** ** display_recipe

    The function reads a recipe and prints it.  It is embedded on recipes of
    the shape [scale_recipe] returns for a loaded recipe: a name, a number of
    servings and ingredients with a name, an amount ([int] or [float]) and a
    unit.  The result is the list of the lines printed, one per call of
    [print], and the exception that ended the run, if one did. *)
Module Display.

Inductive number : Set :=
  | NInt (z : Z)
  | NFloat (x : float).

Record ingredient : Set := Ingredient {
  ing_name : string;
  ing_amount : number;
  ing_unit : string
}.

Record recipe : Set := Recipe {
  rec_name : string;
  rec_servings : number;
  rec_ingredients : list ingredient
}.

(** [str(a)]. *)
Definition str_number (a : number) : string :=
  match a with
  | NInt z => pretty z
  | NFloat x => Text.repr x
  end.

(** [a < c] for a literal [c]; an int and a float are compared exactly. *)
Definition number_lt (a : number) (c : lit) : bool :=
  match a, c with
  | NInt z, LInt k => z <? k
  | NInt z, LFloat q =>
      match Binary64.exact_value (Binary64.of_Q q) with
      | Some v => negb (Qle_bool v (inject_Z z))
      | None => false
      end
  | NFloat x, _ => PrimFloat.ltb x (Binary64.of_Q (lit_value c))
  end.

(** [a * c] for a literal [c]. *)
Definition number_times (a : number) (c : lit) : result number :=
  match a, c with
  | NInt z, LInt k => Ok (NInt (z * k))
  | NInt z, LFloat q =>
      x ← Binary64.float_of_int z;
      Ok (NFloat (PrimFloat.mul x (Binary64.of_Q q)))
  | NFloat x, _ => Ok (NFloat (PrimFloat.mul x (Binary64.of_Q (lit_value c))))
  end.

(** [round(a)]. *)
Definition number_round (a : number) : result Z :=
  match a with
  | NInt z => Ok z
  | NFloat x => Binary64.round_int x
  end.

(** [round(a, 1)]: an int stays an int. *)
Definition number_round_1 (a : number) : number :=
  match a with
  | NInt z => NInt z
  | NFloat x => NFloat (Binary64.round_nd 1 x)
  end.

Definition frac_map : list (string * string) :=
  [("25", "1/4"); ("5", "1/2"); ("75", "3/4")].

(** The text of the fraction, when the lines "Convert to fraction" find
    one: [round(amount * 4) / 4] is written out, split at the point, and
    the first two characters after it are looked up in [frac_map]. *)
Definition fraction_text (amount : number) : result (option string) :=
  quarters ← number_times amount (LInt 4);
  k ← number_round quarters;
  fraction ← Binary64.int_truediv k 4;
  match Text.split_dot (Text.repr fraction) with
  | _ :: after :: _ =>
      if bool_decide (after = "0") then Ok None
      else Ok (table_get (String.substring 0 2 after) frac_map)
  | _ => Ok None
  end.

(** [f"{int(amount) if amount == int(amount) else amount}"]. *)
Definition whole_or_float (amount : number) : result string :=
  match amount with
  | NInt z => Ok (pretty z)
  | NFloat x =>
      k ← Text.int_of_float x;
      Ok (if Text.float_eq_int x k then pretty k else Text.repr x)
  end.

(** [f"{amount:.1f}"]. *)
Definition one_decimal (amount : number) : result string :=
  match amount with
  | NInt z => x ← Binary64.float_of_int z; Ok (Text.format_1f x)
  | NFloat x => Ok (Text.format_1f x)
  end.

Definition convert_cups_to_grams (ingredient_name : string) (amount : number) : result Z :=
  let ingredient_name := lower ingredient_name in
  match density_match ingredient_name with
  | Some density => number_times amount density ≫= number_round
  | None => number_times amount (LInt 125) ≫= number_round
  end.

(** The body of the loop of [display_recipe]: the line printed for an
    ingredient, if the body prints one. *)
Definition display_ingredient (ingredient : ingredient) : result (option string) :=
  let amount := ing_amount ingredient in
  let unit := ing_unit ingredient in
  let name := ing_name ingredient in
  if bool_decide (unit = "piece") then
    frac_part ← (if number_lt amount (LInt 1) then fraction_text amount else Ok None);
    match frac_part with
    | Some frac => Ok (Some ("- " +:+ frac +:+ " " +:+ name))
    | None =>
        shown ← whole_or_float amount;
        Ok (Some ("- " +:+ shown +:+ " " +:+ name))
    end
  else if bool_decide (unit = "cup") then
    grams ← convert_cups_to_grams name amount;
    Ok (Some ("- " +:+ pretty grams +:+ "g " +:+ name))
  else if str_in unit ["tsp"; "tbsp"] then
    if bool_decide (unit = "tbsp") && number_lt amount (LFloat 0.5) then
      tripled ← number_times amount (LInt 3);
      let tsp := number_round_1 tripled in
      Ok (Some ("- " +:+ str_number tsp +:+ " tsp " +:+ name))
    else if bool_decide (unit = "tsp") && number_lt amount (LInt 1) then
      frac_part ← fraction_text amount;
      Ok (match frac_part with
          | Some frac => Some ("- " +:+ frac +:+ " tsp " +:+ name)
          | None => None
          end)
    else
      text ← one_decimal amount;
      let formatted := Text.rstrip "." (Text.rstrip "0" text) in
      Ok (Some ("- " +:+ formatted +:+ " " +:+ unit +:+ " " +:+ name))
  else
    formatted ← whole_or_float amount;
    Ok (Some ("- " +:+ formatted +:+ " " +:+ unit +:+ " " +:+ name)).

Fixpoint display_ingredients (l : list ingredient) : list string * option exn :=
  match l with
  | [] => ([], None)
  | i :: r =>
      match display_ingredient i with
      | Raise e => ([], Some e)
      | Ok line =>
          let '(lines, e) := display_ingredients r in
          (option_list line ++ lines, e)
      end
  end.

Definition newline : string := String (ascii_of_nat 10) EmptyString.

Fixpoint dashes (n : nat) : string :=
  match n with
  | O => EmptyString
  | S k => String "-" (dashes k)
  end.

Definition display_recipe (recipe : option recipe) : list string * option exn :=
  match recipe with
  | None => ([], None)
  | Some r =>
      let header :=
        newline +:+ rec_name r +:+ " (Serves " +:+ str_number (rec_servings r) +:+ ")" in
      let '(lines, e) := display_ingredients (rec_ingredients r) in
      (header :: dashes 40 :: lines, e)
  end.

End Display.

(** ** Shapes of the heap, for the statements below *)

Section Shapes.

Context {F : Type} {A : PyFloat F}.

(** The object at [l] is an ingredient with this amount and unit. *)
Definition ingredient_at (h : gmap loc (obj F)) (l : loc) (amount unit : val F) : Prop :=
  ∃ d, h !! l = Some (ODict d) ∧ d !! "amount" = Some amount ∧ d !! "unit" = Some unit.

(** The object at [l] is a recipe with this number of servings, whose
    ingredients are the list of the objects at [locs]. *)
Definition recipe_at (h : gmap loc (obj F)) (l : loc) (servings : val F) (locs : list loc) : Prop :=
  ∃ d li, h !! l = Some (ODict d) ∧ d !! "servings" = Some servings
          ∧ d !! "ingredients" = Some (VRef li) ∧ h !! li = Some (OList (VRef <$> locs)).

(** What [scale_ingredient] stores in a dictionary [d]. *)
Definition scaled_dict (scale_factor : F) (d : gmap string (val F)) : result (gmap string (val F)) :=
  match d !! "amount" with
  | None => Raise KeyError
  | Some amount =>
      scaled_amount ← times amount scale_factor;
      match d !! "unit" with
      | None => Raise KeyError
      | Some unit =>
          r ← handle_unit unit scaled_amount;
          Ok (match r.2 with
              | Some u => <["unit" := VStr u]> (<["amount" := r.1]> d)
              | None => <["amount" := r.1]> d
              end)
      end
  end.

(** The unit of an ingredient after [handle_unit] returned [r]. *)
Definition unit_after (unit : val F) (r : val F * option string) : val F :=
  match r.2 with
  | Some u => VStr u
  | None => unit
  end.

(** The units [u'] an ingredient of unit [u] can have after scaling: the
    unit it had, or a smaller volume unit of the chain cup, tbsp, tsp. *)
Definition kept_or_downshifted (u u' : val F) : Prop :=
  u' = u
  ∨ (u = VStr "cup" ∧ (u' = VStr "tbsp" ∨ u' = VStr "tsp"))
  ∨ (u = VStr "tbsp" ∧ u' = VStr "tsp").

End Shapes.

(** ** Recipes that can be scaled *)

Section WellFormed.

Context {F : Type} {A : PyFloat F}.

(** An [int] or a [float]. *)
Definition numeric (v : val F) : Prop :=
  (∃ z, v = VInt z) ∨ (∃ x, v = VFloat x).

(** The object at [l] is a recipe for a number of servings that is an [int]
    other than 0, and every ingredient of its list is a dictionary with a
    number as amount and with a unit. *)
Definition well_formed (h : gmap loc (obj F)) (l : loc) (servings : Z) (locs : list loc)
  : Prop :=
  recipe_at h l (VInt servings) locs
  ∧ servings ≠ 0
  ∧ Forall (λ i, ∃ a u, ingredient_at h i a u ∧ numeric a) locs.

(** The exceptions of the arithmetic: a number too large for a float
    ([OverflowError]) and the rounding of a nan ([ValueError]). *)
Definition arithmetic_error (e : exn) : Prop :=
  e = OverflowError ∨ e = ValueError.

End WellFormed.

(** ** The console

    [load_recipes] and [main] read a file and the keyboard and write to the
    screen; [display_recipe] is called by [main] on the value that
    [scale_recipe] returned.  They are embedded here on the heap, in
    binary64, with the file and the lines typed as arguments:

    - the file is missing, is not JSON, or holds a document that
      [json.load] has put on the heap; the other failures of [open] (no
      permission, a directory, bytes that are no text) are left out, and so
      are the booleans of JSON, which the values of the heap do not have;
    - [input] writes its prompt and takes the next of the lines typed, and
      raises [EOFError] when none is left;
    - the screen is the list of the lines printed and of the prompts.

    The text of a list or of a dictionary is not modelled (that of a
    dictionary depends on the order in which its keys were inserted, which
    the heap does not record): a run that formats one stops as
    [Unmodelled].  The ints of a document have at most 4300 digits, the
    limit of [json.load], so that their text exists. *)
Module Console.

(** What appears on the screen: a line that [print] wrote, or the prompt
    of an [input]. *)
Inductive event : Set :=
  | Printed (line : string)
  | Prompted (text : string).

(** How a run ends: it returns, it raises an exception of [exn], [input]
    raises [EOFError], or it leaves the model. *)
Inductive outcome (T : Type) : Type :=
  | Done (a : T)
  | Raised (e : exn)
  | EOFError
  | Unmodelled.
Arguments Done {T} a.
Arguments Raised {T} e.
Arguments EOFError {T}.
Arguments Unmodelled {T}.

Record world : Type := World {
  objects : gmap loc (obj float);
  screen : list event
}.

Definition IO (T : Type) : Type := world → outcome T * world.

#[global] Instance IO_ret : MRet IO := λ T a w, (Done a, w).
#[global] Instance IO_bind : MBind IO := λ T U f m w,
  match m w with
  | (Done a, w') => f a w'
  | (Raised e, w') => (Raised e, w')
  | (EOFError, w') => (EOFError, w')
  | (Unmodelled, w') => (Unmodelled, w')
  end.

Definition stop {T} (o : outcome T) : IO T := λ w, (o, w).

Definition pure {T} (r : result T) : IO T :=
  stop (match r with
        | Ok a => Done a
        | Raise e => Raised e
        end).

(** [print(line)]. *)
Definition say (line : string) : IO unit := λ w,
  (Done (), World (objects w) (screen w ++ [Printed line])).

(** The prompt of [input(text)]. *)
Definition prompt (text : string) : IO unit := λ w,
  (Done (), World (objects w) (screen w ++ [Prompted text])).

(** A statement of the heap model, run on the objects of the world; what it
    prints goes to the screen. *)
Definition run {T} (m : M (F := float) T) : IO T := λ w,
  let '(r, σ) := m (State (objects w) []) in
  (match r with
   | Ok a => Done a
   | Raise e => Raised e
   end,
   World (heap σ) (screen w ++ (Printed <$> stdout σ))).

Fixpoint each {T} (body : T → IO unit) (l : list T) : IO unit :=
  match l with
  | [] => mret ()
  | x :: r => body x;; each body r
  end.

(** *** Texts and numbers *)

(** [str(v)] for a value that is no list and no dictionary. *)
Definition text_of (v : val float) : option string :=
  match v with
  | VNone => Some "None"
  | VInt z => Some (pretty z)
  | VFloat x => Some (Text.repr x)
  | VStr s => Some s
  | VRef _ => None
  end.

(** [str(v)], as a replacement field of an f-string formats [v]. *)
Definition str_of (v : val float) : IO string :=
  match text_of v with
  | Some text => mret text
  | None => stop Unmodelled
  end.

Definition is_space (c : ascii) : bool :=
  let n := nat_of_ascii c in
  (Nat.leb 9 n && Nat.leb n 13) || Nat.eqb n 32.

Definition digit_of (c : ascii) : option Z :=
  let n := nat_of_ascii c in
  if Nat.leb 48 n && Nat.leb n 57 then Some (Z.of_nat (n - 48)) else None.

Fixpoint lstrip (s : string) : string :=
  match s with
  | String c r => if is_space c then lstrip r else s
  | EmptyString => EmptyString
  end.

Fixpoint rstrip (s : string) : string :=
  match s with
  | EmptyString => EmptyString
  | String c r =>
      let r' := rstrip r in
      if bool_decide (r' = EmptyString) && is_space c then EmptyString else String c r'
  end.

(** The digits of an int literal, which single underscores may separate:
    their value and their number. *)
Fixpoint digits (s : string) (value : Z) (count : nat) (after_digit : bool)
  : option (Z * nat) :=
  match s with
  | EmptyString => if after_digit then Some (value, count) else None
  | String c r =>
      match digit_of c with
      | Some d => digits r (value * 10 + d) (S count) true
      | None =>
          if bool_decide (c = "_"%char) && after_digit then digits r value count false
          else None
      end
  end.

(** [int(s)] for a text [s]: blanks around, a sign and decimal digits, at
    most 4300 of them; [None] stands for [ValueError]. *)
Definition int_of_text (s : string) : option Z :=
  let t := rstrip (lstrip s) in
  let '(negative, body) :=
    match t with
    | String "-" r => (true, r)
    | String "+" r => (false, r)
    | _ => (false, t)
    end in
  match digits body 0 0 false with
  | Some (value, count) =>
      if Nat.ltb 4300 count then None
      else Some (if negative then - value else value)
  | None => None
  end.

(** The number a value is, for [<], [*] and [round]; the other values
    raise [TypeError] there. *)
Definition as_number (v : val float) : result Display.number :=
  match v with
  | VInt z => Ok (Display.NInt z)
  | VFloat x => Ok (Display.NFloat x)
  | _ => Raise TypeError
  end.

(** [f"{int(amount) if amount == int(amount) else amount}"].  A text that
    reads as an int is not equal to that int, and is shown as it is. *)
Definition whole_or_value (amount : val float) : IO string :=
  match amount with
  | VInt z => pure (Display.whole_or_float (Display.NInt z))
  | VFloat x => pure (Display.whole_or_float (Display.NFloat x))
  | VStr s =>
      match int_of_text s with
      | Some _ => mret s
      | None => stop (Raised ValueError)
      end
  | VNone | VRef _ => stop (Raised TypeError)
  end.

(** [f"{amount:.1f}"]. *)
Definition one_decimal (amount : val float) : result string :=
  match amount with
  | VInt z => Display.one_decimal (Display.NInt z)
  | VFloat x => Display.one_decimal (Display.NFloat x)
  | VStr _ => Raise ValueError
  | VNone | VRef _ => Raise TypeError
  end.

(** *** display_recipe *)

Definition convert_cups_to_grams (ingredient_name amount : val float) : result Z :=
  match ingredient_name with
  | VStr name =>
      a ← as_number amount;
      Display.convert_cups_to_grams name a
  | _ => Raise AttributeError
  end.

(** The body of the loop of [display_recipe]. *)
Definition display_ingredient (ingredient : val float) : IO unit :=
  amount ← run (getitem ingredient "amount");
  unit ← run (getitem ingredient "unit");
  name ← run (getitem ingredient "name");
  if is_str unit "piece" then
    a ← pure (as_number amount);
    frac_part ← pure (if Display.number_lt a (LInt 1) then Display.fraction_text a
                      else Ok None);
    match frac_part with
    | Some frac =>
        name_text ← str_of name;
        say ("- " +:+ frac +:+ " " +:+ name_text)
    | None =>
        shown ← whole_or_value amount;
        name_text ← str_of name;
        say ("- " +:+ shown +:+ " " +:+ name_text)
    end
  else if is_str unit "cup" then
    grams ← pure (convert_cups_to_grams name amount);
    name_text ← str_of name;
    say ("- " +:+ pretty grams +:+ "g " +:+ name_text)
  else if is_str unit "tsp" || is_str unit "tbsp" then
    small_tbsp ← pure (if is_str unit "tbsp"
                       then a ← as_number amount; Ok (Display.number_lt a (LFloat 0.5))
                       else Ok false);
    if small_tbsp : bool then
      a ← pure (as_number amount);
      tripled ← pure (Display.number_times a (LInt 3));
      name_text ← str_of name;
      say ("- " +:+ Display.str_number (Display.number_round_1 tripled)
           +:+ " tsp " +:+ name_text)
    else
      small_tsp ← pure (if is_str unit "tsp"
                        then a ← as_number amount; Ok (Display.number_lt a (LInt 1))
                        else Ok false);
      if small_tsp : bool then
        a ← pure (as_number amount);
        frac_part ← pure (Display.fraction_text a);
        match frac_part with
        | Some frac =>
            name_text ← str_of name;
            say ("- " +:+ frac +:+ " tsp " +:+ name_text)
        | None => mret ()
        end
      else
        text ← pure (one_decimal amount);
        unit_text ← str_of unit;
        name_text ← str_of name;
        say ("- " +:+ Text.rstrip "." (Text.rstrip "0" text)
             +:+ " " +:+ unit_text +:+ " " +:+ name_text)
  else
    formatted ← whole_or_value amount;
    unit_text ← str_of unit;
    name_text ← str_of name;
    say ("- " +:+ formatted +:+ " " +:+ unit_text +:+ " " +:+ name_text).

Definition display_recipe (recipe : val float) : IO unit :=
  t ← run (truthy recipe);
  if negb t then mret ()
  else
    name ← run (getitem recipe "name");
    name_text ← str_of name;
    servings ← run (getitem recipe "servings");
    servings_text ← str_of servings;
    say (Display.newline +:+ name_text +:+ " (Serves " +:+ servings_text +:+ ")");;
    say (Display.dashes 40);;
    ingredients ← run (getitem recipe "ingredients");
    items ← run (iterate ingredients);
    each display_ingredient items.

(** *** load_recipes *)

(** What [open] and [json.load] find: no file, a file that is not JSON, or
    a document, whose lists and dictionaries are on the heap. *)
Inductive file : Type :=
  | Missing
  | Malformed
  | Document (recipes : val float).

Definition load_recipes (f : file) : IO (val float) :=
  match f with
  | Document recipes => mret recipes
  | Missing =>
      say "Error: recipes.json file not found.";;
      l ← run (alloc (OList []));
      mret (VRef l)
  | Malformed =>
      say "Error: Invalid JSON format in recipes.json.";;
      l ← run (alloc (OList []));
      mret (VRef l)
  end.

(** *** main *)

(** The loop that lists the recipes, from the number [i]. *)
Fixpoint menu (i : Z) (recipes : list (val float)) : IO unit :=
  match recipes with
  | [] => mret ()
  | recipe :: rest =>
      name ← run (getitem recipe "name");
      name_text ← str_of name;
      servings ← run (getitem recipe "servings");
      servings_text ← str_of servings;
      say (pretty i +:+ ". " +:+ name_text +:+ " (Serves " +:+ servings_text +:+ ")");;
      menu (i + 1) rest
  end.

(** [len(v)]. *)
Definition len (v : val float) : M (F := float) Z :=
  match v with
  | VStr s => mret (Z.of_nat (String.length s))
  | VRef l =>
      o ← load l;
      match o with
      | ODict d => mret (Z.of_nat (size d))
      | OList xs => mret (Z.of_nat (length xs))
      end
  | _ => lift (Raise TypeError)
  end.

(** The lines [if 0 <= choice < len(recipes): selected_recipe =
    recipes[choice]]: the element chosen, when the test holds.  A
    dictionary has no int among its keys. *)
Definition choose (recipes : val float) (choice : Z)
  : M (F := float) (option (val float)) :=
  n ← len recipes;
  if (0 <=? choice) && (choice <? n) then
    match recipes with
    | VStr s =>
        match String.get (Z.to_nat choice) s with
        | Some c => mret (Some (VStr (String c EmptyString)))
        | None => mret None
        end
    | VRef l =>
        o ← load l;
        match o with
        | ODict _ => lift (Raise KeyError)
        | OList xs => mret (xs !! Z.to_nat choice)
        end
    | _ => lift (Raise TypeError)
    end
  else mret None.

(** The loop "Get recipe selection", on the lines typed: the recipe
    selected and the lines left. *)
Fixpoint select_recipe (recipes : val float) (typed : list string)
  : IO (val float * list string) :=
  prompt (Display.newline +:+ "Select a recipe (number): ");;
  match typed with
  | [] => stop EOFError
  | line :: rest =>
      match int_of_text line with
      | None =>
          say "Please enter a valid number.";;
          select_recipe recipes rest
      | Some number =>
          selected ← run (choose recipes (number - 1));
          match selected with
          | Some selected_recipe => mret (selected_recipe, rest)
          | None =>
              say "Invalid selection. Please try again.";;
              select_recipe recipes rest
          end
      end
  end.

(** The loop "Get desired number of servings". *)
Fixpoint ask_servings (selected_recipe : val float) (typed : list string)
  : IO (Z * list string) :=
  servings ← run (getitem selected_recipe "servings");
  servings_text ← str_of servings;
  prompt (Display.newline +:+ "Current servings: " +:+ servings_text +:+ Display.newline
          +:+ "Enter new number of servings: ");;
  match typed with
  | [] => stop EOFError
  | line :: rest =>
      match int_of_text line with
      | None =>
          say "Please enter a valid number.";;
          ask_servings selected_recipe rest
      | Some new_servings =>
          if 0 <? new_servings then mret (new_servings, rest)
          else
            say "Please enter a positive number.";;
            ask_servings selected_recipe rest
      end
  end.

Definition main (f : file) (typed : list string) : IO unit :=
  recipes ← load_recipes f;
  t ← run (truthy recipes);
  if negb t then say "No recipes found. Please check your recipes.json file."
  else
    say (Display.newline +:+ "=== Recipe Scaling Utility ===" +:+ Display.newline);;
    say "Available recipes:";;
    items ← run (iterate recipes);
    menu 1 items;;
    selection ← select_recipe recipes typed;
    answer ← ask_servings selection.1 selection.2;
    scaled_recipe ← run (scale_recipe selection.1 answer.1);
    t ← run (truthy scaled_recipe);
    if t : bool then
      say (Display.newline +:+ "=== Scaled Recipe ===");;
      display_recipe scaled_recipe
    else mret ().

End Console.

(** ** Documents of strings and numbers *)

(** The value of a number of the record model. *)
Definition number_value (a : Display.number) : val float :=
  match a with
  | Display.NInt z => VInt z
  | Display.NFloat x => VFloat x
  end.

(** The dictionary [d] has the fields of the ingredient [i]: its name and
    its unit are strings, its amount is a number. *)
Definition ingredient_fields (d : gmap string (val float)) (i : Display.ingredient)
  : Prop :=
  d !! "amount" = Some (number_value (Display.ing_amount i))
  ∧ d !! "unit" = Some (VStr (Display.ing_unit i))
  ∧ d !! "name" = Some (VStr (Display.ing_name i)).

(** The value [v] is a dictionary of the heap that holds the ingredient
    [i]. *)
Definition holds_ingredient (h : gmap loc (obj float)) (v : val float)
    (i : Display.ingredient) : Prop :=
  ∃ l d, v = VRef l ∧ h !! l = Some (ODict d) ∧ ingredient_fields d i.









(** What [display_recipe] can do to the world: print lines. *)
Definition prints (w w' : Console.world) : Prop :=
  Console.objects w' = Console.objects w
  ∧ ∃ lines, Console.screen w' = Console.screen w ++ (Console.Printed <$> lines).

(** ** format_measurement

    Nothing calls the function.  It is embedded for an amount that is a
    float: [amount.is_integer()] is a method of the floats, and of the ints
    from Python 3.12 only.  The name of the ingredient is not used. *)
Module Format.

(** [x.is_integer()]: [x] is finite and has no fractional part. *)
Definition is_integer (x : float) : bool :=
  match Text.int_of_float x with
  | Ok k => Text.float_eq_int x k
  | Raise _ => false
  end.

(** [f"{int(amount) if amount.is_integer() else amount:.1f}"]: the format
    [.1f] applies to the int as it does to the float. *)
Definition one_decimal (amount : float) : result string :=
  if is_integer amount then
    k ← Text.int_of_float amount;
    Display.one_decimal (Display.NInt k)
  else Display.one_decimal (Display.NFloat amount).

(** [s.strip()]. *)
Definition strip (s : string) : string := Console.rstrip (Console.lstrip s).

(** [int(s)]. *)
Definition int_of (s : string) : result Z :=
  match Console.int_of_text s with
  | Some n => Ok n
  | None => Raise ValueError
  end.

(** The lines "Convert to fraction": the text returned, when they return
    one. *)
Definition fraction_text (amount : float) : result (option string) :=
  quarters ← Display.number_times (Display.NFloat amount) (LInt 4);
  k ← Display.number_round quarters;
  fraction ← Binary64.int_truediv k 4;
  match Text.split_dot (Text.repr fraction) with
  | whole :: after :: _ =>
      if bool_decide (after = "0") then Ok None
      else
        let frac_part := default "" (table_get (String.substring 0 2 after) Display.frac_map) in
        if bool_decide (frac_part = "") then Ok None
        else
          whole_text ← (if bool_decide (whole = "0") then Ok ""
                        else n ← int_of whole; Ok (pretty n));
          Ok (Some (strip (whole_text +:+ " " +:+ frac_part)))
  | _ => Ok None
  end.

Definition format_measurement (amount : float) (unit name : string) : result string :=
  if bool_decide (unit = "piece") then
    found ← (if Display.number_lt (Display.NFloat amount) (LInt 1) then fraction_text amount
             else Ok None);
    match found with
    | Some text => Ok text
    | None => one_decimal amount
    end
  else if str_in unit ["g"; "ml"] then one_decimal amount
  else
    found ← (if bool_decide (unit = "tsp")
                && Display.number_lt (Display.NFloat amount) (LInt 1)
                && negb (is_integer amount)
             then fraction_text amount
             else Ok None);
    match found with
    | Some text => Ok text
    | None => one_decimal amount
    end.

End Format.

(** ** Sample recipes *)

Module Examples.

Local Open Scope float_scope.

Definition ingredient (name : string) (amount : val float) (unit : string)
  : gmap string (val float) :=
  <["name" := VStr name]> (<["amount" := amount]> (<["unit" := VStr unit]> ∅)).

Definition recipe (name : string) (servings : val float) (ingredients : loc)
  : gmap string (val float) :=
  <["name" := VStr name]>
    (<["servings" := servings]> (<["ingredients" := VRef ingredients]> ∅)).

(** Cookies for 12: 2 cups of flour, 0.5 tsp of salt, 2 eggs, 0.4 cups of
    oil. *)
Definition flour : gmap string (val float) := ingredient "flour" (VInt 2) "cup".
Definition salt : gmap string (val float) := ingredient "salt" (VFloat 0.5) "tsp".
Definition eggs : gmap string (val float) := ingredient "eggs" (VInt 2) "piece".
Definition oil : gmap string (val float) := ingredient "oil" (VFloat 0.4) "cup".
Definition cookies : gmap string (val float) := recipe "Cookies" (VInt 12) 2%positive.

Definition cookies_heap : gmap loc (obj float) :=
  <[1%positive := ODict cookies]>
    (<[2%positive := OList [VRef 3%positive; VRef 4%positive; VRef 5%positive;
                            VRef 6%positive]]>
       (<[3%positive := ODict flour]>
          (<[4%positive := ODict salt]>
             (<[5%positive := ODict eggs]> (<[6%positive := ODict oil]> ∅))))).

Definition cookies_state : state float := State cookies_heap [].

(** A recipe with no ingredient. *)
Definition bare_state : state float :=
  State (<[1%positive := ODict (recipe "Water" (VInt 4) 2%positive)]>
           (<[2%positive := OList []]> ∅)) [].

(** A recipe for no serving. *)
Definition no_serving_state : state float :=
  State (<[1%positive := ODict (recipe "Cookies" (VInt 0) 2%positive)]>
           (<[2%positive := OList [VRef 3%positive]]>
              (<[3%positive := ODict flour]> ∅))) [].

(** A recipe with an ingredient that has no amount. *)
Definition no_amount_state : state float :=
  State (<[1%positive := ODict (recipe "Cookies" (VInt 12) 2%positive)]>
           (<[2%positive := OList [VRef 3%positive]]>
              (<[3%positive := ODict (<["name" := VStr "flour"]> (<["unit" := VStr "cup"]> ∅))]>
                 ∅))) [].


End Examples.

(** Pancakes for 4, with amounts in exact arithmetic: 1.5 cups of milk and
    2 eggs. *)
Module ExactExamples.

Definition eggs : gmap string (val Q) :=
  <["name" := VStr "eggs"]> (<["amount" := VInt 2]> (<["unit" := VStr "piece"]> ∅)).


End ExactExamples.

(** A book of two recipes, as [json.load] leaves it on the heap: the
    cookies of [Examples] and water for 4, without ingredients. *)
Module ConsoleExamples.

Import Examples.
Local Open Scope float_scope.



Definition water : gmap string (val float) := recipe "Water" (VInt 4) 9%positive.

Definition book : list (val float) := [VRef 1%positive; VRef 8%positive].

Definition kitchen : Console.world :=
  Console.World
    (<[7%positive := OList book]>
       (<[8%positive := ODict water]> (<[9%positive := OList []]> cookies_heap)))
    [].

End ConsoleExamples.

(** * Properties *)

Section RunFacts.

Context {F : Type} {A : PyFloat F}.

Lemma bind_run {T U} (m : M T) (f : T → M U) (σ : state F) :
  (m ≫= f) σ = match m σ with
               | (Ok a, σ') => f a σ'
               | (Raise e, σ') => (Raise e, σ')
               end.
Proof. reflexivity. Qed.

Lemma lift_run {T} (r : result T) (σ : state F) : lift r σ = (r, σ).
Proof. reflexivity. Qed.

Lemma fresh_loc_none (h : gmap loc (obj F)) : h !! fresh (dom h) = None.
Proof. apply not_elem_of_dom, is_fresh. Qed.

End RunFacts.

(** The first steps of a run of [scale_recipe] on a reference: [not recipe]
    and the tests [key in recipe] load the object [H] puts at the reference. *)
Ltac run_truthy H :=
  unfold scale_recipe; rewrite bind_run; simpl truthy; rewrite bind_run;
  unfold load at 1; rewrite H; cbn [mret M_ret].

Ltac run_py_in H :=
  rewrite bind_run; simpl py_in; rewrite bind_run;
  unfold load at 1; rewrite H; cbn [mret M_ret].

Section HeapFacts.

Context {F : Type} {A : PyFloat F}.

Implicit Types (σ : state F) (v : val F) (d : gmap string (val F)).

Lemma truthy_reads v σ : (truthy v σ).2 = σ.
Proof.
  destruct v; try reflexivity. simpl.
  rewrite bind_run. unfold load. destruct (heap σ !! l) as [[?|?]|]; reflexivity.
Qed.

Lemma py_in_reads k v σ : (py_in k v σ).2 = σ.
Proof.
  destruct v; try reflexivity. simpl.
  rewrite bind_run. unfold load. destruct (heap σ !! l) as [[?|?]|]; reflexivity.
Qed.

Lemma getitem_reads v k σ : (getitem v k σ).2 = σ.
Proof.
  destruct v; try reflexivity. simpl.
  rewrite bind_run. unfold load. destruct (heap σ !! l) as [[d|?]|]; try reflexivity.
  destruct (d !! k); reflexivity.
Qed.

Lemma iterate_reads v σ : (iterate v σ).2 = σ.
Proof.
  destruct v; try reflexivity. simpl.
  rewrite bind_run. unfold load. destruct (heap σ !! l) as [[?|?]|]; reflexivity.
Qed.

Lemma getitem_dict σ l d k :
  heap σ !! l = Some (ODict d) →
  getitem (VRef l) k σ
  = (match d !! k with Some x => Ok x | None => Raise KeyError end, σ).
Proof.
  intros H. simpl. rewrite bind_run. unfold load. rewrite H.
  destruct (d !! k); reflexivity.
Qed.

Lemma setitem_dict σ l d k x :
  heap σ !! l = Some (ODict d) →
  setitem (VRef l) k x σ
  = (Ok (), State (<[l := ODict (<[k := x]> d)]> (heap σ)) (stdout σ)).
Proof. intros H. simpl. rewrite bind_run. unfold load. rewrite H. reflexivity. Qed.

Lemma copy_ref σ l o :
  heap σ !! l = Some o →
  copy (VRef l) σ
  = (Ok (VRef (fresh (dom (heap σ)))),
     State (<[fresh (dom (heap σ)) := o]> (heap σ)) (stdout σ)).
Proof. intros H. simpl. rewrite bind_run. unfold load. rewrite H. reflexivity. Qed.

(** A copy either raises and leaves the state as it is, or allocates one
    object at a location that was free. *)
Lemma copy_effect v σ :
  match copy v σ with
  | (Ok c, σ') => ∃ l o, c = VRef l ∧ heap σ !! l = None
                         ∧ σ' = State (<[l := o]> (heap σ)) (stdout σ)
  | (Raise _, σ') => σ' = σ
  end.
Proof.
  destruct v; try reflexivity. simpl. rewrite bind_run. unfold load.
  destruct (heap σ !! l) as [o|] eqn:E; [|reflexivity].
  simpl. eexists _, o. split; [reflexivity|]. split; [apply fresh_loc_none|reflexivity].
Qed.

Lemma mapM_cons {T U} (f : T → M U) (x : T) (l : list T) σ :
  mapM f (x :: l) σ
  = match f x σ with
    | (Ok y, σ1) =>
        match mapM f l σ1 with
        | (Ok k, σ2) => (Ok (y :: k), σ2)
        | (Raise e, σ2) => (Raise e, σ2)
        end
    | (Raise e, σ1) => (Raise e, σ1)
    end.
Proof.
  simpl. rewrite bind_run. destruct (f x σ) as [[y|e] σ1]; [|reflexivity].
  rewrite bind_run. destruct (mapM f l σ1) as [[k|e] σ2]; reflexivity.
Qed.

(** The list comprehension [[x.copy() for x in items]] only allocates:
    the heap grows, and the copies are references to locations that were
    free before. *)
Lemma mapM_copy_grows (items : list (val F)) σ :
  match mapM copy items σ with
  | (r, σ') =>
      heap σ ⊆ heap σ' ∧ stdout σ' = stdout σ
      ∧ ∀ copies, r = Ok copies →
          Forall (λ c, ∃ l, c = VRef l ∧ heap σ !! l = None ∧ is_Some (heap σ' !! l)) copies
  end.
Proof.
  revert σ. induction items as [|x items IH]; intros σ.
  - simpl. split; [done|]. split; [done|]. intros ? [= <-]. constructor.
  - rewrite mapM_cons. pose proof (copy_effect x σ) as Hc.
    destruct (copy x σ) as [[c|e] σ1].
    + destruct Hc as (l & o & -> & Hl & ->).
      specialize (IH (State (<[l := o]> (heap σ)) (stdout σ))).
      destruct (mapM copy items _) as [[k|e] σ2]; simpl in IH;
        destruct IH as (Hsub & Hout & Hk).
      * split; [etrans; [apply insert_subseteq; done|done]|].
        split; [done|]. intros ? [= <-]. constructor.
        -- exists l. split; [done|]. split; [done|].
           exists o. eapply lookup_weaken; [|done]. apply lookup_insert_eq.
        -- eapply Forall_impl; [apply Hk; reflexivity|].
           intros c (l' & -> & Hn & Hs). exists l'. split; [done|]. split; [|done].
           destruct (decide (l = l')) as [->|Hne]; [by rewrite lookup_insert_eq in Hn|].
           by rewrite lookup_insert_ne in Hn.
      * split; [etrans; [apply insert_subseteq; done|done]|].
        split; [done|]. intros ? [=].
    + subst σ1. split; [done|]. split; [done|]. intros ? [=].
Qed.

Lemma scale_ingredient_dict σ sf l d :
  heap σ !! l = Some (ODict d) →
  scale_ingredient sf (VRef l) σ
  = match scaled_dict sf d with
    | Ok d' => (Ok (), State (<[l := ODict d']> (heap σ)) (stdout σ))
    | Raise e => (Raise e, σ)
    end.
Proof.
  intros H. unfold scale_ingredient, scaled_dict.
  rewrite bind_run, (getitem_dict _ _ _ _ H).
  destruct (d !! "amount") as [a|]; [|reflexivity].
  rewrite bind_run, lift_run.
  destruct (times a sf) as [x|e]; [|reflexivity].
  cbn [mbind result_bind].
  rewrite bind_run, (getitem_dict _ _ _ _ H).
  destruct (d !! "unit") as [u|]; [|reflexivity].
  rewrite bind_run, lift_run.
  destruct (handle_unit u x) as [r|e]; [|reflexivity].
  cbn [mbind result_bind].
  rewrite bind_run, (setitem_dict _ _ _ _ _ H).
  destruct r as [amt [u'|]]; cbn [fst snd].
  - erewrite setitem_dict; [|cbn [heap]; apply lookup_insert_eq].
    cbn [heap stdout]. rewrite insert_insert_eq. reflexivity.
  - reflexivity.
Qed.

Lemma scale_ingredient_effect sf v σ :
  match scale_ingredient sf v σ with
  | (_, σ') =>
      stdout σ' = stdout σ
      ∧ (heap σ' = heap σ
         ∨ ∃ l o', v = VRef l ∧ is_Some (heap σ !! l) ∧ heap σ' = <[l := o']> (heap σ))
  end.
Proof.
  destruct v as [| | | |l]; try (split; [reflexivity|left; reflexivity]).
  destruct (heap σ !! l) as [[d|xs]|] eqn:E.
  - rewrite (scale_ingredient_dict _ _ _ _ E).
    destruct (scaled_dict sf d) as [d'|e].
    + split; [reflexivity|]. right. exists l, (ODict d'). rewrite E. eauto.
    + split; [reflexivity|left; reflexivity].
  - unfold scale_ingredient. rewrite bind_run. simpl. rewrite bind_run.
    unfold load. rewrite E. split; [reflexivity|left; reflexivity].
  - unfold scale_ingredient. rewrite bind_run. simpl. rewrite bind_run.
    unfold load. rewrite E. split; [reflexivity|left; reflexivity].
Qed.

Lemma for_each_cons {T} (body : T → M unit) (x : T) (l : list T) σ :
  for_each body (x :: l) σ
  = match body x σ with
    | (Ok _, σ1) => for_each body l σ1
    | (Raise e, σ1) => (Raise e, σ1)
    end.
Proof. reflexivity. Qed.

(** The loop over the copies stores only at the copies. *)
Lemma for_each_frame (h0 : gmap loc (obj F)) sf (vs : list (val F)) σ :
  h0 ⊆ heap σ →
  Forall (λ c, ∀ l, c = VRef l → h0 !! l = None) vs →
  match for_each (scale_ingredient sf) vs σ with
  | (_, σ') => h0 ⊆ heap σ' ∧ stdout σ' = stdout σ
  end.
Proof.
  revert σ. induction vs as [|c vs IH]; intros σ Hsub Hall.
  - simpl. done.
  - rewrite for_each_cons. inversion Hall as [|? ? Hc Hvs]; subst.
    pose proof (scale_ingredient_effect sf c σ) as He.
    destruct (scale_ingredient sf c σ) as [[[]|e] σ1]; destruct He as [Hout Hheap].
    + assert (h0 ⊆ heap σ1) as Hsub1.
      { destruct Hheap as [->|(l & o' & -> & _ & ->)]; [done|].
        apply insert_subseteq_r; [by apply Hc|done]. }
      specialize (IH σ1 Hsub1 Hvs).
      destruct (for_each _ vs σ1) as [r σ2]. destruct IH. split; [done|congruence].
    + split; [|done].
      destruct Hheap as [->|(l & o' & -> & _ & ->)]; [done|].
      apply insert_subseteq_r; [by apply Hc|done].
Qed.

Lemma size_nonzero d k x : d !! k = Some x → bool_decide (size d = 0%nat) = false.
Proof.
  intros H. apply bool_decide_eq_false. intros Hs.
  apply map_size_empty_inv in Hs. subst d. by rewrite lookup_empty in H.
Qed.

(** The run of [scale_recipe] on a dictionary that has both keys, for a
    positive number of servings. *)
Lemma scale_recipe_dict σ lr d sv src n :
  heap σ !! lr = Some (ODict d) →
  d !! "servings" = Some sv →
  d !! "ingredients" = Some src →
  0 < n →
  scale_recipe (VRef lr) n σ
  = let ls := fresh (dom (heap σ)) in
    let σ1 := State (<[ls := ODict d]> (heap σ)) (stdout σ) in
    match iterate src σ1 with
    | (Raise e, _) => (Raise e, σ1)
    | (Ok items, _) =>
        match mapM copy items σ1 with
        | (Raise e, σ2) => (Raise e, σ2)
        | (Ok copies, σ2) =>
            let lf := fresh (dom (heap σ2)) in
            let h3 := <[lf := OList copies]> (heap σ2) in
            match true_divide n sv with
            | Raise e =>
                (Raise e,
                 State (<[ls := ODict (<["ingredients" := VRef lf]> d)]> h3) (stdout σ2))
            | Ok scale_factor =>
                let scaled :=
                  <["servings" := VInt n]> (<["ingredients" := VRef lf]> d) in
                match for_each (scale_ingredient scale_factor) copies
                        (State (<[ls := ODict scaled]> h3) (stdout σ2)) with
                | (Ok _, σ6) => (Ok (VRef ls), σ6)
                | (Raise e, σ6) => (Raise e, σ6)
                end
            end
        end
    end.
Proof.
  intros Hr Hs Hi Hn. cbv zeta.
  set (ls := fresh (dom (heap σ))).
  assert (heap σ !! ls = None) as Hls by apply fresh_loc_none.
  assert (lr ≠ ls) as Hne by congruence.
  run_truthy Hr. rewrite (size_nonzero _ _ _ Hs).
  replace (n <=? 0) with false by lia. cbn [negb orb].
  run_py_in Hr. rewrite Hs. rewrite bool_decide_eq_true_2 by eauto.
  run_py_in Hr. rewrite Hi. rewrite bool_decide_eq_true_2 by eauto.
  cbn [negb orb].
  rewrite bind_run, (copy_ref _ _ _ Hr). fold ls.
  set (σ1 := State (<[ls := ODict d]> (heap σ)) (stdout σ)).
  assert (heap σ1 !! lr = Some (ODict d)) as Hr1.
  { subst σ1. cbn [heap]. by rewrite lookup_insert_ne. }
  assert (heap σ1 !! ls = Some (ODict d)) as Hls1.
  { subst σ1. cbn [heap]. by rewrite lookup_insert_eq. }
  rewrite bind_run, (getitem_dict _ _ _ _ Hr1), Hi.
  rewrite bind_run. pose proof (iterate_reads src σ1) as Hit.
  destruct (iterate src σ1) as [[items|e] σ1']; simpl in Hit; subst σ1'; [|reflexivity].
  rewrite bind_run. pose proof (mapM_copy_grows items σ1) as Hm.
  destruct (mapM copy items σ1) as [[copies|e] σ2]; [|reflexivity].
  destruct Hm as (Hsub & _ & _).
  set (lf := fresh (dom (heap σ2))).
  assert (heap σ2 !! lf = None) as Hlf by apply fresh_loc_none.
  assert (heap σ2 !! ls = Some (ODict d)) as Hls2 by (eapply lookup_weaken; done).
  assert (heap σ2 !! lr = Some (ODict d)) as Hr2 by (eapply lookup_weaken; done).
  assert (ls ≠ lf) as Hne2 by congruence.
  assert (lr ≠ lf) as Hne3 by congruence.
  rewrite bind_run. unfold alloc at 1. fold lf.
  rewrite bind_run.
  erewrite setitem_dict; [|cbn [heap]; rewrite lookup_insert_ne by done; exact Hls2].
  cbn [heap stdout].
  rewrite bind_run.
  erewrite getitem_dict;
    [|cbn [heap]; rewrite lookup_insert_ne by done; rewrite lookup_insert_ne by done; exact Hr2].
  rewrite Hs. rewrite bind_run, lift_run.
  destruct (true_divide n sv) as [sf|e]; [|reflexivity].
  rewrite bind_run.
  erewrite setitem_dict; [|cbn [heap]; apply lookup_insert_eq].
  cbn [heap stdout]. rewrite insert_insert_eq.
  rewrite bind_run.
  erewrite getitem_dict; [|cbn [heap]; apply lookup_insert_eq].
  rewrite lookup_insert_ne by done. rewrite lookup_insert_eq.
  rewrite bind_run. simpl iterate. rewrite bind_run. unfold load at 1. cbn [heap].
  rewrite lookup_insert_ne by done. rewrite lookup_insert_eq.
  cbn [mret M_ret].
  rewrite bind_run.
  destruct (for_each _ copies _) as [[[]|e] σ6]; reflexivity.
Qed.

Lemma for_each_keeps sf (vs : list (val F)) σ l :
  is_Some (heap σ !! l) →
  match for_each (scale_ingredient sf) vs σ with
  | (_, σ') => is_Some (heap σ' !! l)
  end.
Proof.
  revert σ. induction vs as [|c vs IH]; intros σ Hl; [done|].
  rewrite for_each_cons.
  pose proof (scale_ingredient_effect sf c σ) as He.
  destruct (scale_ingredient sf c σ) as [[[]|e] σ1]; destruct He as [_ Hheap].
  - apply IH. destruct Hheap as [->|(l' & o' & _ & _ & ->)]; [done|].
    rewrite lookup_insert. case_decide; [by eexists|done].
  - destruct Hheap as [->|(l' & o' & _ & _ & ->)]; [done|].
    rewrite lookup_insert. case_decide; [by eexists|done].
Qed.

Lemma scale_recipe_frame_run (recipe : val F) (n : Z) σ :
  match scale_recipe recipe n σ with
  | (r, σ') =>
      heap σ ⊆ heap σ'
      ∧ ∀ l, r = Ok (VRef l) → heap σ !! l = None ∧ is_Some (heap σ' !! l)
  end.
Proof.
  assert (∀ (r : result (val F)) σ', heap σ' = heap σ → (∀ l, r ≠ Ok (VRef l)) →
            heap σ ⊆ heap σ'
            ∧ ∀ l, r = Ok (VRef l) → heap σ !! l = None ∧ is_Some (heap σ' !! l)) as Hsame.
  { intros r σ' -> Hr. split; [done|]. intros l ->. by destruct (Hr l). }
  destruct recipe as [|z|x|s|lr].
  - apply Hsame; done.
  - unfold scale_recipe. rewrite bind_run. cbn [truthy mret M_ret].
    destruct (negb (negb (z =? 0)) || (n <=? 0)); [apply Hsame; done|].
    apply Hsame; done.
  - unfold scale_recipe. rewrite bind_run. cbn [truthy mret M_ret].
    destruct (negb (negb (feq x (of_Q 0))) || (n <=? 0)); [apply Hsame; done|].
    apply Hsame; done.
  - unfold scale_recipe. rewrite bind_run. cbn [truthy mret M_ret].
    destruct (negb (negb (bool_decide (s = ""))) || (n <=? 0)); [apply Hsame; done|].
    rewrite bind_run. cbn [py_in mret M_ret].
    destruct (contains "servings" s); [|apply Hsame; done].
    rewrite bind_run. cbn [py_in mret M_ret].
    destruct (contains "ingredients" s); apply Hsame; done.
  - destruct (heap σ !! lr) as [[d|xs]|] eqn:Hr.
    + destruct (decide (0 < n)) as [Hn|Hn].
      2:{ run_truthy Hr.
          replace (n <=? 0) with true by lia. rewrite orb_true_r.
          apply Hsame; done. }
      destruct (d !! "servings") as [sv|] eqn:Hs.
      2:{ run_truthy Hr.
          destruct (negb _ || _); [apply Hsame; done|].
          run_py_in Hr. rewrite Hs.
          rewrite bool_decide_eq_false_2 by (by intros [? ?]).
          apply Hsame; done. }
      destruct (d !! "ingredients") as [src|] eqn:Hi.
      2:{ run_truthy Hr.
          destruct (negb _ || _); [apply Hsame; done|].
          run_py_in Hr. rewrite Hs. rewrite bool_decide_eq_true_2 by eauto.
          run_py_in Hr. rewrite Hi.
          rewrite bool_decide_eq_false_2 by (by intros [? ?]).
          apply Hsame; done. }
      rewrite (scale_recipe_dict _ _ _ _ _ _ Hr Hs Hi Hn). cbv zeta.
      set (ls := fresh (dom (heap σ))).
      assert (heap σ !! ls = None) as Hls by apply fresh_loc_none.
      set (σ1 := State (<[ls := ODict d]> (heap σ)) (stdout σ)).
      assert (heap σ ⊆ heap σ1) as Hsub1 by (by apply insert_subseteq).
      destruct (iterate src σ1) as [[items|e] σ1'].
      2:{ split; [done|]. intros ? [=]. }
      pose proof (mapM_copy_grows items σ1) as Hm.
      destruct (mapM copy items σ1) as [[copies|e] σ2]; destruct Hm as (Hsub2 & _ & Hcopies).
      2:{ split; [by etrans|]. intros ? [=]. }
      set (lf := fresh (dom (heap σ2))).
      assert (heap σ2 !! lf = None) as Hlf by apply fresh_loc_none.
      assert (heap σ ⊆ heap σ2) as Hsub by (by etrans).
      assert (heap σ !! lf = None) as Hlf0.
      { destruct (heap σ !! lf) eqn:E; [|done].
        eapply lookup_weaken in E; [|exact Hsub]. congruence. }
      assert (∀ o1 o2, heap σ ⊆ <[ls := o1]> (<[lf := o2]> (heap σ2))) as Hsub3.
      { intros. apply insert_subseteq_r; [done|]. apply insert_subseteq_r; done. }
      destruct (true_divide n sv) as [sf|e].
      2:{ split; [apply Hsub3|]. intros ? [=]. }
      assert (Forall (λ c, ∀ l, c = VRef l → heap σ !! l = None) copies) as Hnew.
      { eapply Forall_impl; [apply Hcopies; reflexivity|].
        intros c (l' & -> & Hn' & _) l [= <-].
        destruct (heap σ !! l') eqn:E; [|done].
        eapply lookup_weaken in E; [|exact Hsub1]. congruence. }
      match goal with |- context [for_each ?b copies ?s] =>
        pose proof (for_each_frame (heap σ) sf copies s (Hsub3 _ _) Hnew) as Hloop;
        pose proof (for_each_keeps sf copies s ls) as Hkeep
      end.
      cbn [heap] in Hkeep. rewrite lookup_insert_eq in Hkeep.
      specialize (Hkeep ltac:(eauto)).
      destruct (for_each _ copies _) as [[[]|e] σ6]; destruct Hloop as [Hsub6 _].
      * split; [done|]. intros l [= <-]. done.
      * split; [done|]. intros ? [=].
    + run_truthy Hr.
      destruct (negb _ || _); [apply Hsame; done|].
      run_py_in Hr.
      destruct (existsb _ xs); [|apply Hsame; done].
      run_py_in Hr.
      destruct (existsb _ xs); [|apply Hsame; done].
      cbn [negb orb].
      rewrite bind_run, (copy_ref _ _ _ Hr).
      rewrite bind_run. simpl getitem. rewrite bind_run. unfold load at 1. cbn [heap].
      assert (heap σ !! fresh (dom (heap σ)) = None) as Hls by apply fresh_loc_none.
      rewrite lookup_insert_ne by congruence. rewrite Hr.
      split; [by apply insert_subseteq|]. intros ? [=].
    + unfold scale_recipe. rewrite bind_run. simpl truthy. rewrite bind_run.
      unfold load at 1. rewrite Hr. apply Hsame; done.
Qed.

(** The comprehension on a list of references to objects: one new object
    per element, with the same content. *)
Lemma mapM_copy_refs (locs : list loc) (objs : list (obj F)) σ :
  Forall2 (λ l o, heap σ !! l = Some o) locs objs →
  ∃ locs' σ',
    mapM copy (VRef <$> locs) σ = (Ok (VRef <$> locs'), σ')
    ∧ heap σ ⊆ heap σ' ∧ stdout σ' = stdout σ
    ∧ NoDup locs'
    ∧ Forall (λ l', heap σ !! l' = None) locs'
    ∧ Forall2 (λ l' o, heap σ' !! l' = Some o) locs' objs.
Proof.
  intros H. revert σ H. revert objs.
  induction locs as [|l locs IH]; intros objs σ H.
  - inversion H; subst. exists [], σ. simpl.
    repeat split; try done; constructor.
  - inversion H as [|? o ? objs' Hl Hrest]; subst.
    rewrite fmap_cons, mapM_cons, (copy_ref _ _ _ Hl).
    set (l' := fresh (dom (heap σ))).
    assert (heap σ !! l' = None) as Hl' by apply fresh_loc_none.
    set (σ1 := State (<[l' := o]> (heap σ)) (stdout σ)).
    assert (heap σ ⊆ heap σ1) as Hsub1 by (by apply insert_subseteq).
    destruct (IH objs' σ1) as (locs' & σ' & Hrun & Hsub & Hout & Hnd & Hfree & Hobjs).
    { eapply Forall2_impl; [exact Hrest|]. intros l2 o2 H2. eapply lookup_weaken; [exact H2|exact Hsub1]. }
    rewrite Hrun. exists (l' :: locs'), σ'. split; [reflexivity|].
    split; [by etrans|]. split; [done|].
    assert (l' ∉ locs') as Hnotin.
    { intros Hin. rewrite Forall_forall in Hfree. specialize (Hfree _ Hin).
      subst σ1. cbn [heap] in Hfree. by rewrite lookup_insert_eq in Hfree. }
    split; [by constructor|]. split.
    + constructor; [done|]. eapply Forall_impl; [exact Hfree|].
      intros l2 Hn. destruct (heap σ !! l2) eqn:E; [|done].
      eapply lookup_weaken in E; [|exact Hsub1]. congruence.
    + constructor; [|done]. eapply lookup_weaken; [|exact Hsub].
      subst σ1. cbn [heap]. apply lookup_insert_eq.
Qed.

(** The loop on distinct dictionaries, when every body succeeds. *)
Lemma for_each_scaled sf (locs : list loc) (ds ds' : list (gmap string (val F))) σ :
  NoDup locs →
  Forall2 (λ l d, heap σ !! l = Some (ODict d)) locs ds →
  Forall2 (λ d d', scaled_dict sf d = Ok d') ds ds' →
  ∃ σ',
    for_each (scale_ingredient sf) (VRef <$> locs) σ = (Ok (), σ')
    ∧ stdout σ' = stdout σ
    ∧ Forall2 (λ l d', heap σ' !! l = Some (ODict d')) locs ds'
    ∧ ∀ l, l ∉ locs → heap σ' !! l = heap σ !! l.
Proof.
  intros Hnd Hds. revert ds' σ Hds Hnd. revert ds.
  induction locs as [|l locs IH]; intros ds ds' σ Hds Hnd Hsc.
  - inversion Hds; subst. inversion Hsc; subst. exists σ. simpl.
    repeat split; try done; constructor.
  - inversion Hds as [|? d ? ds0 Hl Hrest]; subst.
    inversion Hsc as [|? d' ? ds0' Hd Hrest']; subst.
    inversion Hnd as [|? ? Hnotin Hnd']; subst.
    rewrite fmap_cons, for_each_cons, (scale_ingredient_dict _ _ _ _ Hl), Hd.
    set (σ1 := State (<[l := ODict d']> (heap σ)) (stdout σ)).
    destruct (IH ds0 ds0' σ1) as (σ' & Hrun & Hout & Hnew & Hsame); [|done|done|].
    { eapply Forall2_impl; [|]; [|intros l2 d2 Hl2; exact Hl2].
      clear -Hrest Hnotin. induction Hrest as [|l2 d2 ls2 ds2 H2 Hr IH2]; [constructor|].
      apply not_elem_of_cons in Hnotin as [Hne Hnotin].
      constructor; [|by apply IH2].
      subst σ1. cbn [heap]. by rewrite lookup_insert_ne. }
    exists σ'. split; [done|]. split; [done|]. split.
    + constructor; [|done]. rewrite (Hsame _ Hnotin). subst σ1. cbn [heap].
      apply lookup_insert_eq.
    + intros l2 Hl2. apply not_elem_of_cons in Hl2 as [Hne Hl2].
      rewrite (Hsame _ Hl2). subst σ1. cbn [heap]. by rewrite lookup_insert_ne.
Qed.

(** The run of [scale_recipe] on a recipe whose ingredients are
    dictionaries that the loop body scales without raising. *)
Lemma scale_recipe_run σ lr d sv n li locs ds ds' sf :
  heap σ !! lr = Some (ODict d) →
  d !! "servings" = Some sv →
  d !! "ingredients" = Some (VRef li) →
  heap σ !! li = Some (OList (VRef <$> locs)) →
  Forall2 (λ l di, heap σ !! l = Some (ODict di)) locs ds →
  0 < n →
  true_divide n sv = Ok sf →
  Forall2 (λ di di', scaled_dict sf di = Ok di') ds ds' →
  ∃ ls lf locs' σ',
    scale_recipe (VRef lr) n σ = (Ok (VRef ls), σ')
    ∧ heap σ !! ls = None
    ∧ stdout σ' = stdout σ
    ∧ heap σ' !! ls
      = Some (ODict (<["servings" := VInt n]> (<["ingredients" := VRef lf]> d)))
    ∧ heap σ' !! lf = Some (OList (VRef <$> locs'))
    ∧ Forall2 (λ l' di', heap σ' !! l' = Some (ODict di')) locs' ds'.
Proof.
  intros Hr Hs Hi Hli Hds Hn Hsf Hsc.
  rewrite (scale_recipe_dict _ _ _ _ _ _ Hr Hs Hi Hn). cbv zeta.
  set (ls := fresh (dom (heap σ))).
  assert (heap σ !! ls = None) as Hls by apply fresh_loc_none.
  set (σ1 := State (<[ls := ODict d]> (heap σ)) (stdout σ)).
  assert (heap σ ⊆ heap σ1) as Hsub1 by (by apply insert_subseteq).
  assert (heap σ1 !! li = Some (OList (VRef <$> locs))) as Hli1
    by (eapply lookup_weaken; [exact Hli|exact Hsub1]).
  simpl iterate. rewrite bind_run. unfold load at 1. rewrite Hli1. cbn [mret M_ret].
  destruct (mapM_copy_refs locs (ODict <$> ds) σ1)
    as (locs' & σ2 & Hrun & Hsub2 & Hout2 & Hnd & Hfree & Hobjs).
  { apply Forall2_fmap_r. eapply Forall2_impl; [exact Hds|].
    intros l2 d2 H2. eapply lookup_weaken; [exact H2|exact Hsub1]. }
  rewrite Hrun, Hsf.
  set (lf := fresh (dom (heap σ2))).
  assert (heap σ2 !! lf = None) as Hlf by apply fresh_loc_none.
  assert (heap σ2 !! ls = Some (ODict d)) as Hls2.
  { eapply lookup_weaken; [|exact Hsub2]. subst σ1. cbn [heap]. apply lookup_insert_eq. }
  assert (ls ≠ lf) as Hne by congruence.
  apply Forall2_fmap_r in Hobjs.
  assert (ls ∉ locs') as Hls_notin.
  { intros Hin. rewrite Forall_forall in Hfree. specialize (Hfree _ Hin).
    subst σ1. cbn [heap] in Hfree. by rewrite lookup_insert_eq in Hfree. }
  assert (lf ∉ locs') as Hlf_notin.
  { intros Hin. apply list_elem_of_lookup in Hin as [i Hi'].
    destruct (Forall2_lookup_l _ _ _ _ _ Hobjs Hi') as (d2 & _ & Hd2). congruence. }
  match goal with |- context [for_each ?b ?c ?s] =>
    destruct (for_each_scaled sf locs' ds ds' s Hnd) as (σ6 & Hloop & Hout6 & Hnew & Hsame)
  end.
  { apply Forall2_same_length_lookup. split; [apply (Forall2_length _ _ _ Hobjs)|].
    intros i l2 d2 Hl2 Hd2. cbn [heap].
    assert (l2 ∈ locs') as Hin by (apply list_elem_of_lookup; eauto).
    rewrite lookup_insert_ne by (intros ->; done).
    rewrite lookup_insert_ne by (intros ->; done).
    apply (Forall2_lookup_lr _ _ _ _ _ _ Hobjs Hl2 Hd2). }
  { done. }
  rewrite Hloop. exists ls, lf, locs', σ6.
  split; [reflexivity|]. split; [done|]. split; [by rewrite Hout6|].
  split; [|split; [|done]].
  - rewrite (Hsame _ Hls_notin). cbn [heap]. apply lookup_insert_eq.
  - rewrite (Hsame _ Hlf_notin). cbn [heap].
    rewrite lookup_insert_ne by done. apply lookup_insert_eq.
Qed.

Lemma scaled_dict_fields sf (d d' : gmap string (val F)) a u x r :
  d !! "amount" = Some a → d !! "unit" = Some u →
  times a sf = Ok x → handle_unit u x = Ok r →
  scaled_dict sf d
  = Ok (match r.2 with
        | Some u' => <["unit" := VStr u']> (<["amount" := r.1]> d)
        | None => <["amount" := r.1]> d
        end).
Proof.
  intros Ha Hu Hx Hr. unfold scaled_dict. rewrite Ha, Hx. cbn [mbind result_bind].
  rewrite Hu, Hr. reflexivity.
Qed.

(** The run of [scale_recipe] on a recipe whose ingredients have an amount
    and a unit that the loop body accepts. *)
Lemma scale_recipe_scaled σ lr sv n sf locs :
  recipe_at (heap σ) lr sv locs →
  0 < n →
  true_divide n sv = Ok sf →
  Forall (λ l, ∃ a u x r, ingredient_at (heap σ) l a u
                          ∧ times a sf = Ok x ∧ handle_unit u x = Ok r) locs →
  ∃ lr' locs' σ',
    scale_recipe (VRef lr) n σ = (Ok (VRef lr'), σ')
    ∧ heap σ !! lr' = None
    ∧ stdout σ' = stdout σ
    ∧ recipe_at (heap σ') lr' (VInt n) locs'
    ∧ Forall2 (λ l l', ∀ a u, ingredient_at (heap σ) l a u →
                 ∃ x r, times a sf = Ok x ∧ handle_unit u x = Ok r
                        ∧ ingredient_at (heap σ') l' r.1 (unit_after u r))
        locs locs'.
Proof.
  intros (d & li & Hr & Hs & Hi & Hli) Hn Hsf Hall.
  assert (Forall (λ l, ∃ p : gmap string (val F) * gmap string (val F),
            heap σ !! l = Some (ODict p.1) ∧ scaled_dict sf p.1 = Ok p.2
            ∧ ∀ a u, p.1 !! "amount" = Some a → p.1 !! "unit" = Some u →
                ∃ x r, times a sf = Ok x ∧ handle_unit u x = Ok r
                       ∧ p.2 !! "amount" = Some r.1
                       ∧ p.2 !! "unit" = Some (unit_after u r)) locs) as Hpairs.
  { eapply Forall_impl; [exact Hall|].
    intros l (a & u & x & r & (d0 & Hd0 & Ha & Hu) & Hx & Hhr).
    eexists (d0, _). cbn [fst snd]. split; [exact Hd0|].
    split; [eapply scaled_dict_fields; eauto|].
    intros a2 u2 Ha2 Hu2. rewrite Ha in Ha2. rewrite Hu in Hu2.
    injection Ha2 as <-. injection Hu2 as <-.
    exists x, r. split; [done|]. split; [done|].
    unfold unit_after. destruct r as [amt [u'|]]; cbn [fst snd].
    - rewrite lookup_insert_ne by done. rewrite !lookup_insert_eq. done.
    - rewrite lookup_insert_eq. by rewrite lookup_insert_ne. }
  apply Forall_exists_Forall2_l in Hpairs as [pairs Hpairs].
  destruct (scale_recipe_run σ lr d sv n li locs (fst <$> pairs) (snd <$> pairs) sf)
    as (ls & lf & locs' & σ' & Hrun & Hfresh & Hout & Hls & Hlf & Hnew); try done.
  { apply Forall2_fmap_r. eapply Forall2_impl; [exact Hpairs|]. by intros ? ? (? & _). }
  { apply Forall2_fmap. apply Forall_Forall2_diag.
    eapply Forall2_Forall_r; [exact Hpairs|].
    apply Forall_forall. by intros ? _ ? (_ & ? & _). }
  exists ls, locs', σ'. split; [done|]. split; [done|]. split; [done|]. split.
  - exists (<["servings" := VInt n]> (<["ingredients" := VRef lf]> d)), lf.
    split; [done|]. split; [apply lookup_insert_eq|]. split; [|done].
    rewrite lookup_insert_ne by done. apply lookup_insert_eq.
  - apply Forall2_fmap_r in Hnew.
    apply Forall2_same_length_lookup. split.
    { rewrite (Forall2_length _ _ _ Hpairs). symmetry. apply (Forall2_length _ _ _ Hnew). }
    intros i l l' Hl Hl' a u (d0 & Hd0 & Ha & Hu).
    destruct (Forall2_lookup_l _ _ _ _ _ Hpairs Hl) as (p & Hp & Hp1 & Hp2 & Hp3).
    destruct (Forall2_lookup_l _ _ _ _ _ Hnew Hl') as (p' & Hp' & Hq).
    rewrite Hp in Hp'. injection Hp' as <-.
    rewrite Hd0 in Hp1. injection Hp1 as ->.
    destruct (Hp3 a u Ha Hu) as (x & r & Hx & Hhr & Ha' & Hu').
    exists x, r. split; [done|]. split; [done|]. exists p.2. done.
Qed.
End HeapFacts.

Section ScaleRecipe.

Context {F : Type} {A : PyFloat F}.
Implicit Types (σ : state F) (v : val F) (d : gmap string (val F)).

(** C3.  [scale_recipe] leaves every object of the heap it is called on
    as it was: the recipe, its list of ingredients and every ingredient
    (name, amount, unit) are the same before and after the call, whatever
    the arguments and also when the call raises.  A recipe it returns is a
    new object. *)
Theorem scale_recipe_leaves_original_unchanged (recipe : val F) (new_servings : Z) σ :
  let '(r, σ') := scale_recipe recipe new_servings σ in
  (∀ l o, heap σ !! l = Some o → heap σ' !! l = Some o)
  ∧ (∀ l, r = Ok (VRef l) → heap σ !! l = None ∧ is_Some (heap σ' !! l)).
Proof.
  pose proof (scale_recipe_frame_run recipe new_servings σ) as H.
  destruct (scale_recipe recipe new_servings σ) as [r σ'].
  destruct H as [Hsub Hnew]. split; [|exact Hnew].
  intros l o Hl. eapply lookup_weaken; [exact Hl|exact Hsub].
Qed.



Lemma is_str_true v s : is_str v s = true → v = VStr s.
Proof.
  destruct v; try discriminate. simpl. intros H.
  apply bool_decide_eq_true in H. by subst.
Qed.

Lemma handle_unit_units (u : val F) (x : F) r :
  handle_unit u x = Ok r → kept_or_downshifted u (unit_after u r).
Proof.
  unfold handle_unit, kept_or_downshifted, unit_after. intros H.
  destruct (is_str u "piece") eqn:Ep.
  { destruct (round_int _) as [k|]; [|discriminate]. cbn [mbind result_bind] in H.
    destruct (int_truediv k 4); [|discriminate]. cbn [mbind result_bind] in H.
    injection H as <-. by left. }
  destruct (is_str u "cup") eqn:Ec.
  { apply is_str_true in Ec. subst u. cbn [orb andb] in H.
    destruct (flt x (of_Q 0.25)).
    - destruct (fle (of_Q 1) _); injection H as <-; right; left; eauto.
    - cbn [is_str] in H. rewrite bool_decide_eq_false_2 in H by done.
      cbn [andb] in H. injection H as <-. by left. }
  destruct (is_str u "tbsp") eqn:Et.
  { apply is_str_true in Et. subst u. cbn [orb andb] in H.
    destruct (flt x (of_Q 0.5)); injection H as <-; [right; right; eauto|by left]. }
  cbn [orb andb] in H.
  destruct (is_str u "tsp"); [injection H as <-; by left|].
  destruct (is_str u "g" || is_str u "ml").
  - destruct (round_int x); [|discriminate]. cbn [mbind result_bind] in H.
    injection H as <-. by left.
  - injection H as <-. by left.
Qed.

(** C10.  Every ingredient of the recipe [scale_recipe] returns has the
    unit it had in the original, or a smaller volume unit (a cup became
    tbsp or tsp, a tbsp became tsp); a unit of weight in the result was
    the unit of the original.  [scale_recipe] calls no function of the
    density table. *)
Theorem scale_recipe_keeps_unit_family σ lr (servings : val F) (new_servings : Z)
    (scale_factor : F) (locs : list loc) :
  recipe_at (heap σ) lr servings locs →
  0 < new_servings →
  true_divide new_servings servings = Ok scale_factor →
  Forall (λ l, ∃ a u x r, ingredient_at (heap σ) l a u
                          ∧ times a scale_factor = Ok x ∧ handle_unit u x = Ok r) locs →
  ∃ lr' locs' σ',
    scale_recipe (VRef lr) new_servings σ = (Ok (VRef lr'), σ')
    ∧ recipe_at (heap σ') lr' (VInt new_servings) locs'
    ∧ Forall2 (λ l l', ∀ a u, ingredient_at (heap σ) l a u →
                 ∃ a' u', ingredient_at (heap σ') l' a' u'
                          ∧ kept_or_downshifted u u'
                          ∧ ∀ w, w ∈ weight_units → u' = VStr w → u = u')
        locs locs'.
Proof.
  intros Hrec Hn Hsf Hall.
  destruct (scale_recipe_scaled σ lr servings new_servings scale_factor locs)
    as (lr' & locs' & σ' & Hrun & _ & _ & Hrec' & Hings); try done.
  exists lr', locs', σ'. split; [done|]. split; [done|].
  eapply Forall2_impl; [exact Hings|].
  intros l l' H a u Hau. destruct (H a u Hau) as (x & r & _ & Hr & Hat).
  exists r.1, (unit_after u r). split; [done|].
  pose proof (handle_unit_units u x r Hr) as Hk. split; [done|].
  intros w Hw Hu'. rewrite Hu' in Hk.
  destruct Hk as [Hk|[(_ & [Hk|Hk])|(_ & Hk)]]; [congruence| | |];
    injection Hk as ->; exfalso; revert Hw; unfold weight_units;
    rewrite !elem_of_cons, elem_of_nil;
    intros [?|[?|[?|[?|[]]]]]; discriminate.
Qed.

(** C2, as the code has it.  [scale_recipe] returns [None], prints an
    error and changes nothing when the recipe is [None] or an empty
    dictionary, when [new_servings <= 0], or when the recipe has no key
    "servings" or no key "ingredients".  It does not ask for a non-empty
    list of ingredients: a recipe with an empty list is scaled, to a recipe
    with an empty list. *)
Theorem scale_recipe_rejects_invalid_input σ (new_servings : Z) :
  scale_recipe VNone new_servings σ
  = (Ok VNone, State (heap σ) (stdout σ ++ ["Error: Invalid recipe or serving size."]))
  ∧ (∀ lr d, heap σ !! lr = Some (ODict d) →
       d = ∅ ∨ new_servings ≤ 0 →
       scale_recipe (VRef lr) new_servings σ
       = (Ok VNone,
          State (heap σ) (stdout σ ++ ["Error: Invalid recipe or serving size."])))
  ∧ (∀ lr d, heap σ !! lr = Some (ODict d) →
       d ≠ ∅ → 0 < new_servings →
       d !! "servings" = None ∨ d !! "ingredients" = None →
       scale_recipe (VRef lr) new_servings σ
       = (Ok VNone, State (heap σ) (stdout σ ++ ["Error: Invalid recipe format."])))
  ∧ (∀ lr servings scale_factor,
       recipe_at (heap σ) lr servings [] →
       0 < new_servings →
       true_divide new_servings servings = Ok scale_factor →
       ∃ lr' σ',
         scale_recipe (VRef lr) new_servings σ = (Ok (VRef lr'), σ')
         ∧ recipe_at (heap σ') lr' (VInt new_servings) []
         ∧ stdout σ' = stdout σ).
Proof.
  split; [reflexivity|]. split; [|split].
  - intros lr d Hr Hbad.
    run_truthy Hr.
    assert (negb (negb (bool_decide (size d = 0%nat))) || (new_servings <=? 0) = true)
      as ->; [|reflexivity].
    destruct Hbad as [->|Hn].
    + rewrite map_size_empty. reflexivity.
    + replace (new_servings <=? 0) with true by lia. apply orb_true_r.
  - intros lr d Hr Hne Hn Hmiss.
    run_truthy Hr.
    rewrite bool_decide_eq_false_2 by (by intros ?%map_size_empty_inv).
    replace (new_servings <=? 0) with false by lia. cbn [negb orb].
    run_py_in Hr.
    destruct (d !! "servings") as [sv|] eqn:Hs.
    + destruct Hmiss as [?|Hi]; [done|].
      rewrite bool_decide_eq_true_2 by eauto.
      run_py_in Hr. rewrite Hi.
      rewrite bool_decide_eq_false_2 by (by intros [? ?]). reflexivity.
    + rewrite bool_decide_eq_false_2 by (by intros [? ?]). reflexivity.
  - intros lr servings sf Hrec Hn Hsf.
    destruct (scale_recipe_scaled σ lr servings new_servings sf [])
      as (lr' & locs' & σ' & Hrun & _ & Hout & Hrec' & Hings); try done.
    inversion Hings; subst. exists lr', σ'. done.
Qed.

End ScaleRecipe.

(** ** Comparisons of binary64 products *)








Section Units.

Context {F : Type} {A : PyFloat F}.

Lemma appropriate_volume_unit_unit (amount : F) (current_unit : string) :
  (appropriate_volume_unit amount current_unit).2 = current_unit
  ∨ (appropriate_volume_unit amount current_unit).2 = "tbsp"
  ∨ (appropriate_volume_unit amount current_unit).2 = "tsp".
Proof.
  unfold appropriate_volume_unit.
  destruct (bool_decide (current_unit = "cup") && flt amount (of_Q 0.25)).
  { destruct (fle (of_Q 1) (fmul amount (of_Q 16))); [by right; left|].
    destruct (bool_decide (current_unit = "tbsp") && flt amount (of_Q 1)); [|by left].
    destruct (fle (of_Q 1) (fmul amount (of_Q 3))); [by right; right|by left]. }
  destruct (bool_decide (current_unit = "tbsp") && flt amount (of_Q 1)); [|by left].
  destruct (fle (of_Q 1) (fmul amount (of_Q 3))); [by right; right|by left].
Qed.

(** C7.  In [get_best_unit], for a volume unit and a name that has a
    density: the grams are the volume in millilitres times the density,
    rounded to one decimal; for a name that is not skipped the result is
    that amount in "g" when it is at least 1, and otherwise the grams are
    dropped and the result is the one of the volume-unit lines at the end of
    the function.  A skipped name is returned as it came.  So the unit
    returned is "g" only when the grams are at least 1. *)
Theorem get_best_unit_density_floor (ingredient_name : string) (amount : F)
    (current_unit : string) (density : lit) :
  let grams :=
    round_nd 1 (fmul (to_ml amount current_unit) (of_Q (lit_value density))) in
  str_in current_unit ["cup"; "tbsp"; "tsp"; "pint"; "quart"; "liter"; "ml"] = true →
  density_match (lower ingredient_name) = Some density →
  get_best_unit ingredient_name amount current_unit
  = (if skipped (lower ingredient_name) then (amount, current_unit)
     else if fle (of_Q 1) grams then (grams, "g")
     else appropriate_volume_unit amount current_unit)
  ∧ ((get_best_unit ingredient_name amount current_unit).2 = "g" →
     skipped (lower ingredient_name) = false ∧ fle (of_Q 1) grams = true).
Proof.
  intros grams Hvol Hd.
  assert (get_best_unit ingredient_name amount current_unit
          = (if skipped (lower ingredient_name) then (amount, current_unit)
             else if fle (of_Q 1) grams then (grams, "g")
             else appropriate_volume_unit amount current_unit)) as Heq.
  { unfold get_best_unit. rewrite Hvol, Hd. reflexivity. }
  split; [exact Heq|]. rewrite Heq.
  assert (current_unit ≠ "g") as Hg by (intros ->; discriminate Hvol).
  destruct (skipped (lower ingredient_name)); [done|].
  destruct (fle (of_Q 1) grams); [done|].
  intros Hu.
  destruct (appropriate_volume_unit_unit amount current_unit) as [Hk|[Hk|Hk]];
    rewrite Hk in Hu; [done|discriminate|discriminate].
Qed.


End Units.

(** ** Rounding to the nearest integer *)

Lemma half_even_nearest (num den : Z) :
  0 < den → 2 * Z.abs (half_even num den * den - num) ≤ den.
Proof.
  intros Hden. unfold half_even.
  pose proof (Z.div_mod num den ltac:(lia)) as Hdm.
  pose proof (Z.mod_pos_bound num den Hden) as Hr.
  set (q := num / den) in *. set (r := num mod den) in *. clearbody q r.
  assert (q * den - num = - r) as Hlo by lia.
  assert ((q + 1) * den - num = den - r) as Hhi by lia.
  destruct (2 * r ?= den) eqn:E.
  - apply Z.compare_eq in E. destruct (Z.even q); [rewrite Hlo|rewrite Hhi]; lia.
  - rewrite Z.compare_lt_iff in E. rewrite Hlo. lia.
  - rewrite Z.compare_gt_iff in E. rewrite Hhi. lia.
Qed.

Lemma Qabs_int_minus_fraction (k n : Z) (d : positive) :
  2 * Z.abs (k * Zpos d - n) ≤ Zpos d →
  (Qabs (inject_Z k - (n # d)) <= 1 # 2)%Q.
Proof.
  intros H. unfold Qle, Qabs, Qminus, Qplus, Qopp, inject_Z. cbn [Qnum Qden].
  rewrite Pos.mul_1_l.
  replace (k * Z.pos d + - n * 1) with (k * Z.pos d - n) by lia. lia.
Qed.

(** In binary64, [round(x)] is an integer nearest to the exact value of
    [x]. *)
Lemma binary64_round_int_nearest (x : float) (k : Z) :
  Binary64.round_int x = Ok k →
  ∃ q, Binary64.exact_value x = Some q ∧ (Qabs (inject_Z k - q) <= 1 # 2)%Q.
Proof.
  unfold Binary64.round_int, Binary64.exact_value.
  destruct (Prim2SF x) as [s|s| |s m e]; try discriminate.
  - intros [= <-]. exists 0%Q. split; [reflexivity|]. vm_compute. discriminate.
  - unfold Binary64.scaled_fraction.
    set (num := Z.pos m * 2 ^ Z.max e 0 * 10 ^ Z.of_nat 0).
    set (den := 2 ^ Z.max (- e) 0).
    assert (0 < den) as Hden by (apply Z.pow_pos_nonneg; lia).
    intros [= <-]. eexists. split; [reflexivity|].
    apply Qabs_int_minus_fraction. rewrite Z2Pos.id by done.
    pose proof (half_even_nearest num den Hden) as Hn.
    destruct s; lia.
Qed.

Section Pieces.

Context {F : Type} {A : PyFloat F}.

(** C8.  For the unit "piece" the amount stored is
    [round(scaled_amount * 4) / 4] and no unit is assigned.  In binary64
    the rounded integer is one nearest to the exact value of
    [scaled_amount * 4], and 1.6 pieces give 1.5. *)
Theorem piece_rounds_to_quarter :
  (∀ s : F,
     handle_unit (VStr "piece") s
     = (k ← round_int (fmul s (of_Q 4)); x ← int_truediv k 4; Ok (VFloat x, None)))
  ∧ (∀ (s : float) r,
       handle_unit (A := binary64) (VStr "piece") s = Ok r →
       r.2 = None
       ∧ ∃ (k : Z) (q : Q) (x : float),
           exact_value (fmul s (of_Q 4)) = Some q
           ∧ (Qabs (inject_Z k - q) <= 1 # 2)%Q
           ∧ int_truediv k 4 = Ok x
           ∧ r.1 = VFloat x)
  ∧ handle_unit (A := binary64) (VStr "piece") 1.6%float = Ok (VFloat 1.5%float, None).
Proof.
  split; [reflexivity|]. split; [|vm_compute; reflexivity].
  intros s r. unfold handle_unit. cbn [is_str].
  rewrite bool_decide_eq_true_2 by done.
  destruct (round_int _) as [k|] eqn:Ek; [|discriminate]. cbn [mbind result_bind].
  destruct (int_truediv k 4) as [x|] eqn:Ex; [|discriminate]. cbn [mbind result_bind].
  intros [= <-]. split; [reflexivity|].
  destruct (binary64_round_int_nearest _ _ Ek) as (q & Hq & Hle).
  exists k, q, x. done.
Qed.

(** C9 (the code at the failing input).  The test [unit == target_unit]
    of [convert_units] comes before the names are lowered: a unit and
    itself are converted by identity only when they are spelled alike,
    and the name returned is the one passed.  When they differ in case,
    the table has no item from the unit to itself and the function
    returns the pair of [None]. *)
Theorem convert_units_identity_is_case_sensitive (x : F) :
  convert_units x "Cup" "cup" = None
  ∧ convert_units x "cup" "cup" = Some (x, "cup")
  ∧ convert_units x "CUP" "CUP" = Some (x, "CUP").
Proof. repeat split. Qed.

Lemma lower_ascii_idempotent (c : ascii) : lower_ascii (lower_ascii c) = lower_ascii c.
Proof. destruct c as [[] [] [] [] [] [] [] []]; reflexivity. Qed.

Lemma lower_idempotent (s : string) : lower (lower s) = lower s.
Proof.
  induction s as [|c s IH]; [reflexivity|].
  simpl. by rewrite lower_ascii_idempotent, IH.
Qed.

(** Apart from the identity test, the case of the names does not matter:
    when the lowered names differ, the names and their lowered forms are
    converted alike. *)
Lemma convert_units_lowers_names (x : F) (a b : string) :
  lower a ≠ lower b →
  convert_units x a b = convert_units x (lower a) (lower b).
Proof.
  intros Hne. unfold convert_units.
  rewrite !bool_decide_eq_false_2 by congruence.
  by rewrite !lower_idempotent.
Qed.

End Pieces.

(** ** Round trips of convert_units in exact arithmetic *)




Section Exempt.

Context {F : Type} {A : PyFloat F}.



End Exempt.

(** * The properties on the sample recipes *)

Section Samples.

Import Examples.
Local Open Scope float_scope.

Ltac sample_ingredient d :=
  split; [exists d; repeat split|]; split; vm_compute; reflexivity.

Ltac cookies_are_scalable :=
  repeat constructor;
  [ exists (VInt 2), (VStr "cup"), 1, (VFloat 1, None); sample_ingredient flour
  | exists (VFloat 0.5), (VStr "tsp"), 0.25, (VFloat 0.2, None); sample_ingredient salt
  | exists (VInt 2), (VStr "piece"), 1, (VFloat 1, None); sample_ingredient eggs
  | exists (VFloat 0.4), (VStr "cup"), 0.2, (VFloat 3.2, Some "tbsp");
    sample_ingredient oil ].

(** The true division of two ints is not their integer quotient. *)
Example scale_factor_is_a_ratio :
  int_truediv (PyFloat := binary64) 3 2 = Ok 1.5
  ∧ int_truediv (PyFloat := exact) 3 2 = Ok (inject_Z 3 / inject_Z 2)%Q.
Proof. split; vm_compute; reflexivity. Qed.


Lemma scale_recipe_keeps_unit_family_cookies :
  ∃ lr' locs' σ',
    scale_recipe (VRef 1%positive) 6 cookies_state = (Ok (VRef lr'), σ')
    ∧ recipe_at (heap σ') lr' (VInt 6) locs'
    ∧ Forall2 (λ l l', ∀ a u, ingredient_at (heap cookies_state) l a u →
                 ∃ a' u', ingredient_at (heap σ') l' a' u'
                          ∧ kept_or_downshifted u u'
                          ∧ ∀ w, w ∈ weight_units → u' = VStr w → u = u')
        [3%positive; 4%positive; 5%positive; 6%positive] locs'.
Proof.
  apply (scale_recipe_keeps_unit_family (A := binary64) cookies_state 1%positive
           (VInt 12) 6 0.5 [3%positive; 4%positive; 5%positive; 6%positive]).
  - exists cookies, 2%positive. repeat split.
  - lia.
  - vm_compute. reflexivity.
  - cookies_are_scalable.
Defined.

(** What the run on the cookies stores. *)
Example cookies_scaled_to_six :
  let '(r, σ') := scale_recipe (VRef 1%positive) 6 cookies_state in
  r = Ok (VRef 7%positive)
  ∧ heap σ' !! 1%positive = Some (ODict cookies)
  ∧ heap σ' !! 3%positive = Some (ODict flour)
  ∧ heap σ' !! 7%positive = Some (ODict (recipe "Cookies" (VInt 6) 12%positive))
  ∧ heap σ' !! 12%positive
    = Some (OList [VRef 8%positive; VRef 9%positive; VRef 10%positive; VRef 11%positive])
  ∧ heap σ' !! 8%positive = Some (ODict (ingredient "flour" (VFloat 1) "cup"))
  ∧ heap σ' !! 9%positive = Some (ODict (ingredient "salt" (VFloat 0.2) "tsp"))
  ∧ heap σ' !! 10%positive = Some (ODict (ingredient "eggs" (VFloat 1) "piece"))
  ∧ heap σ' !! 11%positive = Some (ODict (ingredient "oil" (VFloat 3.2) "tbsp")).
Proof. vm_compute. repeat split. Qed.

(** The volume-unit lines of [get_best_unit], which [scale_recipe] does not
    call, have thresholds of their own: a tbsp amount below 1 becomes tsp,
    and a cup amount below 1 tbsp stays in cups. *)
Example get_best_unit_has_other_thresholds :
  get_best_unit (A := binary64) "stock" 0.7 "tbsp" = (2.1, "tsp")
  ∧ handle_unit (A := binary64) (VStr "tbsp") 0.7 = Ok (VFloat 0.7, None)
  ∧ get_best_unit (A := binary64) "stock" 0.01 "cup" = (0.01, "cup")
  ∧ handle_unit (A := binary64) (VStr "cup") 0.01 = Ok (VFloat 0.5, Some "tsp").
Proof. vm_compute. repeat split. Qed.


(** 1.6 pieces: [1.6 * 4] is rounded to 6, within 1/2 of it, and 6 / 4 is
    1.5. *)
Lemma piece_rounds_to_quarter_eggs :
  ∃ (k : Z) (q : Q) (x : float),
    exact_value (fmul 1.6 (of_Q 4)) = Some q
    ∧ (Qabs (inject_Z k - q) <= 1 # 2)%Q
    ∧ int_truediv k 4 = Ok x
    ∧ VFloat 1.5 = VFloat x.
Proof.
  destruct (piece_rounds_to_quarter (A := binary64)) as (_ & Hnear & _).
  destruct (Hnear 1.6 (VFloat 1.5, None)) as [_ Hk]; [vm_compute; reflexivity|].
  exact Hk.
Defined.

(** The cookies and their ingredients are the same objects after the
    scaling to 6 servings. *)
Lemma scale_recipe_leaves_cookies_unchanged :
  let '(r, σ') := scale_recipe (VRef 1%positive) 6 cookies_state in
  (∀ l o, heap cookies_state !! l = Some o → heap σ' !! l = Some o)
  ∧ (∀ l, r = Ok (VRef l) → heap cookies_state !! l = None ∧ is_Some (heap σ' !! l)).
Proof.
  exact (scale_recipe_leaves_original_unchanged (A := binary64) (VRef 1%positive) 6
           cookies_state).
Defined.

(** The cookies are refused for 0 servings, and the recipe with no
    ingredient is scaled to 8 servings. *)
Lemma scale_recipe_rejects_invalid_input_samples :
  scale_recipe (VRef 1%positive) 0 cookies_state
  = (Ok VNone, State cookies_heap ["Error: Invalid recipe or serving size."])
  ∧ ∃ lr' σ',
      scale_recipe (VRef 1%positive) 8 bare_state = (Ok (VRef lr'), σ')
      ∧ recipe_at (heap σ') lr' (VInt 8) []
      ∧ stdout σ' = stdout bare_state.
Proof.
  split.
  - destruct (scale_recipe_rejects_invalid_input (A := binary64) cookies_state 0)
      as (_ & Hbad & _).
    apply (Hbad 1%positive cookies); [reflexivity|right; lia].
  - destruct (scale_recipe_rejects_invalid_input (A := binary64) bare_state 8)
      as (_ & _ & _ & Hbare).
    apply (Hbare 1%positive (VInt 4) 2%float); [|lia|vm_compute; reflexivity].
    exists (recipe "Water" (VInt 4) 2%positive), 2%positive. repeat split.
Defined.

(** C2, against the claim.  A recipe with an empty list of ingredients is
    not refused: it is scaled and nothing is printed.  A recipe for 0
    servings, and an ingredient without amount, are not refused either:
    the call raises. *)
Lemma scale_recipe_accepts_empty_ingredients :
  (scale_recipe (VRef 1%positive) 8 bare_state).1 = Ok (VRef 3%positive)
  ∧ stdout (scale_recipe (VRef 1%positive) 8 bare_state).2 = []
  ∧ (scale_recipe (VRef 1%positive) 6 no_serving_state).1 = Raise ZeroDivisionError
  ∧ (scale_recipe (VRef 1%positive) 6 no_amount_state).1 = Raise KeyError.
Proof. vm_compute. repeat split. Qed.





(** "CUP" to "TBSP" is converted as "cup" to "tbsp". *)
Lemma convert_units_lowers_names_cup_tbsp :
  convert_units (A := binary64) 1 "CUP" "TBSP"
  = convert_units (A := binary64) 1 (lower "CUP") (lower "TBSP").
Proof.
  apply (convert_units_lowers_names (A := binary64) 1 "CUP" "TBSP").
  vm_compute. discriminate.
Defined.

(** A pinch of oats weighs less than a gram and stays in tsp; half a cup
    of oats is returned in grams. *)
Lemma get_best_unit_density_floor_oats :
  (get_best_unit (A := binary64) "Rolled Oats" 0.001 "tsp" = (0.001, "tsp")
   ∧ get_best_unit (A := binary64) "Rolled Oats" 0.5 "cup" = (10646.5, "g"))
  ∧ skipped (lower "Rolled Oats") = false.
Proof.
  pose proof (get_best_unit_density_floor (A := binary64) "Rolled Oats" 0.001 "tsp"
                (LInt 90) eq_refl eq_refl) as [Hpinch _].
  pose proof (get_best_unit_density_floor (A := binary64) "Rolled Oats" 0.5 "cup"
                (LInt 90) eq_refl eq_refl) as [Hcup Honly].
  split; [split|].
  - rewrite Hpinch. vm_compute. reflexivity.
  - rewrite Hcup. vm_compute. reflexivity.
  - apply Honly. rewrite Hcup. vm_compute. reflexivity.
Defined.

End Samples.

(** * Further properties of scale_recipe *)

Section Refusals.

Context {F : Type} {A : PyFloat F}.
Implicit Types (σ : state F) (v : val F) (d : gmap string (val F)).

Lemma for_each_stdout sf (vs : list (val F)) σ :
  stdout (for_each (scale_ingredient sf) vs σ).2 = stdout σ.
Proof.
  pose proof (for_each_frame ∅ sf vs σ (map_empty_subseteq _)) as H.
  destruct (for_each (scale_ingredient sf) vs σ) as [r σ'].
  apply H. apply Forall_forall. intros c _ l _. apply lookup_empty.
Qed.

(** [scale_recipe] prints a line exactly when it returns [None], and then
    the heap is as it was; a run that returns a recipe, or that raises,
    prints nothing.  The value returned is [None] or a dictionary. *)
Theorem scale_recipe_prints_when_it_refuses (recipe : val F) (new_servings : Z) σ :
  let '(r, σ') := scale_recipe recipe new_servings σ in
  (r = Ok VNone
   ∧ heap σ' = heap σ
   ∧ (stdout σ' = stdout σ ++ ["Error: Invalid recipe or serving size."]
      ∨ stdout σ' = stdout σ ++ ["Error: Invalid recipe format."]))
  ∨ (stdout σ' = stdout σ
     ∧ ((∃ l, r = Ok (VRef l)) ∨ (∃ e, r = Raise e))).
Proof.
  set (P := λ p : result (val F) * state F,
         (p.1 = Ok VNone
          ∧ heap p.2 = heap σ
          ∧ (stdout p.2 = stdout σ ++ ["Error: Invalid recipe or serving size."]
             ∨ stdout p.2 = stdout σ ++ ["Error: Invalid recipe format."]))
         ∨ (stdout p.2 = stdout σ
            ∧ ((∃ l, p.1 = Ok (VRef l)) ∨ (∃ e, p.1 = Raise e)))).
  enough (P (scale_recipe recipe new_servings σ)) as H
    by (destruct (scale_recipe recipe new_servings σ); exact H).
  assert (P (Ok VNone, State (heap σ)
                         (stdout σ ++ ["Error: Invalid recipe or serving size."])))
    as Hsize by (left; split; [done|]; split; [done|]; by left).
  assert (P (Ok VNone, State (heap σ) (stdout σ ++ ["Error: Invalid recipe format."])))
    as Hformat by (left; split; [done|]; split; [done|]; by right).
  assert (∀ e σ', stdout σ' = stdout σ → P (Raise e, σ')) as Hraise
    by (intros e σ' Hout; right; split; [done|]; right; by exists e).
  destruct recipe as [|z|x|s|lr].
  - apply Hsize.
  - unfold scale_recipe. rewrite bind_run. cbn [truthy mret M_ret].
    destruct (negb (negb (z =? 0)) || (new_servings <=? 0)); [apply Hsize|].
    by apply Hraise.
  - unfold scale_recipe. rewrite bind_run. cbn [truthy mret M_ret].
    destruct (negb (negb (feq x (of_Q 0))) || (new_servings <=? 0)); [apply Hsize|].
    by apply Hraise.
  - unfold scale_recipe. rewrite bind_run. cbn [truthy mret M_ret].
    destruct (negb (negb (bool_decide (s = ""))) || (new_servings <=? 0)); [apply Hsize|].
    rewrite bind_run. cbn [py_in mret M_ret].
    destruct (contains "servings" s); [|apply Hformat].
    rewrite bind_run. cbn [py_in mret M_ret].
    destruct (contains "ingredients" s); [by apply Hraise|apply Hformat].
  - destruct (heap σ !! lr) as [[d|xs]|] eqn:Hr.
    + destruct (decide (0 < new_servings)) as [Hn|Hn].
      2:{ run_truthy Hr.
          replace (new_servings <=? 0) with true by lia. rewrite orb_true_r.
          apply Hsize. }
      destruct (d !! "servings") as [sv|] eqn:Hs.
      2:{ run_truthy Hr.
          destruct (negb _ || _); [apply Hsize|].
          run_py_in Hr. rewrite Hs.
          rewrite bool_decide_eq_false_2 by (by intros [? ?]).
          apply Hformat. }
      destruct (d !! "ingredients") as [src|] eqn:Hi.
      2:{ run_truthy Hr.
          destruct (negb _ || _); [apply Hsize|].
          run_py_in Hr. rewrite Hs. rewrite bool_decide_eq_true_2 by eauto.
          run_py_in Hr. rewrite Hi.
          rewrite bool_decide_eq_false_2 by (by intros [? ?]).
          apply Hformat. }
      rewrite (scale_recipe_dict _ _ _ _ _ _ Hr Hs Hi Hn). cbv zeta.
      destruct (iterate src _) as [[items|e] σ1']; [|by apply Hraise].
      match goal with |- context [mapM copy items ?s] =>
        pose proof (mapM_copy_grows items s) as Hm
      end.
      destruct (mapM copy items _) as [[copies|e] σ2]; destruct Hm as (_ & Hout2 & _);
        cbn [stdout] in Hout2; [|by apply Hraise].
      destruct (true_divide new_servings sv) as [sf|e]; [|by apply Hraise].
      match goal with |- context [for_each ?b copies ?s] =>
        pose proof (for_each_stdout sf copies s) as Hloop
      end.
      destruct (for_each _ copies _) as [[[]|e] σ6]; cbn [snd stdout] in Hloop.
      * right. split; [cbn [snd]; congruence|]. left. eauto.
      * apply Hraise. congruence.
    + run_truthy Hr.
      destruct (negb _ || _); [apply Hsize|].
      run_py_in Hr.
      destruct (existsb _ xs); [|apply Hformat].
      run_py_in Hr.
      destruct (existsb _ xs); [|apply Hformat].
      cbn [negb orb].
      rewrite bind_run, (copy_ref _ _ _ Hr).
      rewrite bind_run. simpl getitem. rewrite bind_run. unfold load at 1. cbn [heap].
      assert (heap σ !! fresh (dom (heap σ)) = None) as Hls by apply fresh_loc_none.
      rewrite lookup_insert_ne by congruence. rewrite Hr.
      by apply Hraise.
    + unfold scale_recipe. rewrite bind_run. simpl truthy. rewrite bind_run.
      unfold load at 1. rewrite Hr. by apply Hraise.
Qed.

End Refusals.
(** ** The run on a recipe whose ingredients are dictionaries *)

Section Runs.

Context {F : Type} {A : PyFloat F}.
Implicit Types (σ : state F) (v : val F) (d : gmap string (val F)).

Lemma result_mapM_cons {T U} (f : T → result U) (x : T) (l : list T) :
  mapM f (x :: l)
  = match f x with
    | Ok y => match mapM f l with
              | Ok k => Ok (y :: k)
              | Raise e => Raise e
              end
    | Raise e => Raise e
    end.
Proof.
  simpl. destruct (f x) as [y|e]; [|reflexivity]. simpl.
  destruct (mapM f l); reflexivity.
Qed.

Lemma result_mapM_Ok {T U} (f : T → result U) (l : list T) (k : list U) :
  mapM f l = Ok k → Forall2 (λ x y, f x = Ok y) l k.
Proof.
  revert k. induction l as [|x l IH]; intros k.
  - intros [= <-]. constructor.
  - rewrite result_mapM_cons. destruct (f x) as [y|e] eqn:E; [|discriminate].
    destruct (mapM f l) as [k'|e]; [|discriminate].
    intros [= <-]. constructor; [done|]. by apply IH.
Qed.

Lemma result_mapM_raises {T U} (f : T → result U) (pre post : list T) (x : T) (e : exn) :
  Forall (λ x, ∃ y, f x = Ok y) pre →
  f x = Raise e →
  mapM f (pre ++ x :: post) = Raise e.
Proof.
  intros Hpre Hx. induction Hpre as [|x0 pre [y Hy] _ IH].
  - simpl app. rewrite result_mapM_cons, Hx. reflexivity.
  - simpl app. rewrite result_mapM_cons, Hy, IH. reflexivity.
Qed.

Lemma result_mapM_Forall {T U} (f : T → result U) (Q : U → Prop) (R : exn → Prop)
    (l : list T) :
  Forall (λ x, match f x with Ok y => Q y | Raise e => R e end) l →
  match mapM f l with
  | Ok k => Forall Q k
  | Raise e => R e
  end.
Proof.
  induction 1 as [|x l Hx _ IH]; [constructor|].
  rewrite result_mapM_cons. destruct (f x) as [y|e]; [|done].
  destruct (mapM f l) as [k|e]; [by constructor|done].
Qed.

(** The loop on distinct dictionaries: it stores what [scaled_dict] gives
    for each of them, up to the first one for which the body raises. *)
Lemma for_each_outcome sf (locs : list loc) (ds : list (gmap string (val F))) σ :
  NoDup locs →
  Forall2 (λ l d, heap σ !! l = Some (ODict d)) locs ds →
  match mapM (scaled_dict sf) ds with
  | Ok ds' =>
      ∃ σ',
        for_each (scale_ingredient sf) (VRef <$> locs) σ = (Ok (), σ')
        ∧ stdout σ' = stdout σ
        ∧ Forall2 (λ l d', heap σ' !! l = Some (ODict d')) locs ds'
        ∧ ∀ l, l ∉ locs → heap σ' !! l = heap σ !! l
  | Raise e =>
      ∃ σ',
        for_each (scale_ingredient sf) (VRef <$> locs) σ = (Raise e, σ')
        ∧ stdout σ' = stdout σ
  end.
Proof.
  intros Hnd Hds. revert σ Hds Hnd. revert ds.
  induction locs as [|l locs IH]; intros ds σ Hds Hnd.
  - inversion Hds; subst. exists σ. simpl. repeat split; try done; constructor.
  - inversion Hds as [|? d ? ds0 Hl Hrest]; subst.
    inversion Hnd as [|? ? Hnotin Hnd']; subst.
    rewrite result_mapM_cons, fmap_cons, for_each_cons, (scale_ingredient_dict _ _ _ _ Hl).
    destruct (scaled_dict sf d) as [d'|e]; [|by exists σ].
    set (σ1 := State (<[l := ODict d']> (heap σ)) (stdout σ)).
    specialize (IH ds0 σ1).
    destruct (mapM (scaled_dict sf) ds0) as [ds0'|e].
    + destruct IH as (σ' & Hrun & Hout & Hnew & Hsame); [|done|].
      { clear -Hrest Hnotin. induction Hrest as [|l2 d2 ls2 ds2 H2 Hr IH2]; [constructor|].
        apply not_elem_of_cons in Hnotin as [Hne Hnotin].
        constructor; [|by apply IH2].
        subst σ1. cbn [heap]. by rewrite lookup_insert_ne. }
      exists σ'. split; [done|]. split; [done|]. split.
      * constructor; [|done]. rewrite (Hsame _ Hnotin). subst σ1. cbn [heap].
        apply lookup_insert_eq.
      * intros l2 Hl2. apply not_elem_of_cons in Hl2 as [Hne Hl2].
        rewrite (Hsame _ Hl2). subst σ1. cbn [heap]. by rewrite lookup_insert_ne.
    + destruct IH as (σ' & Hrun & Hout); [|done|].
      { clear -Hrest Hnotin. induction Hrest as [|l2 d2 ls2 ds2 H2 Hr IH2]; [constructor|].
        apply not_elem_of_cons in Hnotin as [Hne Hnotin].
        constructor; [|by apply IH2].
        subst σ1. cbn [heap]. by rewrite lookup_insert_ne. }
      exists σ'. done.
Qed.

(** The run of [scale_recipe] on a recipe whose list holds dictionaries:
    the division raises, or the loop body raises at some ingredient, or the
    copy is returned with every ingredient scaled. *)
Lemma scale_recipe_outcome σ lr d sv n li locs (ds : list (gmap string (val F))) :
  heap σ !! lr = Some (ODict d) →
  d !! "servings" = Some sv →
  d !! "ingredients" = Some (VRef li) →
  heap σ !! li = Some (OList (VRef <$> locs)) →
  Forall2 (λ l di, heap σ !! l = Some (ODict di)) locs ds →
  0 < n →
  match true_divide n sv with
  | Raise e =>
      ∃ σ', scale_recipe (VRef lr) n σ = (Raise e, σ') ∧ stdout σ' = stdout σ
  | Ok sf =>
      match mapM (scaled_dict sf) ds with
      | Raise e =>
          ∃ σ', scale_recipe (VRef lr) n σ = (Raise e, σ') ∧ stdout σ' = stdout σ
      | Ok ds' =>
          ∃ ls lf locs' σ',
            scale_recipe (VRef lr) n σ = (Ok (VRef ls), σ')
            ∧ heap σ !! ls = None
            ∧ stdout σ' = stdout σ
            ∧ heap σ' !! ls
              = Some (ODict (<["servings" := VInt n]> (<["ingredients" := VRef lf]> d)))
            ∧ heap σ' !! lf = Some (OList (VRef <$> locs'))
            ∧ Forall2 (λ l' di', heap σ' !! l' = Some (ODict di')) locs' ds'
      end
  end.
Proof.
  intros Hr Hs Hi Hli Hds Hn.
  pose proof (scale_recipe_dict _ _ _ _ _ _ Hr Hs Hi Hn) as Hdict. cbv zeta in Hdict.
  set (ls := fresh (dom (heap σ))) in *.
  assert (heap σ !! ls = None) as Hls by apply fresh_loc_none.
  set (σ1 := State (<[ls := ODict d]> (heap σ)) (stdout σ)) in *.
  assert (heap σ ⊆ heap σ1) as Hsub1 by (by apply insert_subseteq).
  assert (heap σ1 !! li = Some (OList (VRef <$> locs))) as Hli1
    by (eapply lookup_weaken; [exact Hli|exact Hsub1]).
  simpl iterate in Hdict. rewrite bind_run in Hdict. unfold load at 1 in Hdict.
  rewrite Hli1 in Hdict. cbn [mret M_ret] in Hdict.
  destruct (mapM_copy_refs locs (ODict <$> ds) σ1)
    as (locs' & σ2 & Hrun & Hsub2 & Hout2 & Hnd & Hfree & Hobjs).
  { apply Forall2_fmap_r. eapply Forall2_impl; [exact Hds|].
    intros l2 d2 H2. eapply lookup_weaken; [exact H2|exact Hsub1]. }
  rewrite Hrun in Hdict.
  destruct (true_divide n sv) as [sf|e]; [|eexists; split; [exact Hdict|done]].
  set (lf := fresh (dom (heap σ2))) in *.
  assert (heap σ2 !! lf = None) as Hlf by apply fresh_loc_none.
  assert (heap σ2 !! ls = Some (ODict d)) as Hls2.
  { eapply lookup_weaken; [|exact Hsub2]. subst σ1. cbn [heap]. apply lookup_insert_eq. }
  assert (ls ≠ lf) as Hne by congruence.
  apply Forall2_fmap_r in Hobjs.
  assert (ls ∉ locs') as Hls_notin.
  { intros Hin. rewrite Forall_forall in Hfree. specialize (Hfree _ Hin).
    subst σ1. cbn [heap] in Hfree. by rewrite lookup_insert_eq in Hfree. }
  assert (lf ∉ locs') as Hlf_notin.
  { intros Hin. apply list_elem_of_lookup in Hin as [i Hi'].
    destruct (Forall2_lookup_l _ _ _ _ _ Hobjs Hi') as (d2 & _ & Hd2). congruence. }
  match type of Hdict with context [for_each ?b ?c ?s] =>
    pose proof (for_each_outcome sf locs' ds s Hnd) as Hloop;
    assert (Forall2 (λ l di, heap s !! l = Some (ODict di)) locs' ds) as Hcopies
  end.
  { apply Forall2_same_length_lookup. split; [apply (Forall2_length _ _ _ Hobjs)|].
    intros i l2 d2 Hl2 Hd2. cbn [heap].
    assert (l2 ∈ locs') as Hin by (apply list_elem_of_lookup; eauto).
    rewrite lookup_insert_ne by (intros ->; done).
    rewrite lookup_insert_ne by (intros ->; done).
    apply (Forall2_lookup_lr _ _ _ _ _ _ Hobjs Hl2 Hd2). }
  specialize (Hloop Hcopies).
  destruct (mapM (scaled_dict sf) ds) as [ds'|e].
  - destruct Hloop as (σ6 & Hloop & Hout6 & Hnew & Hsame).
    rewrite Hloop in Hdict. exists ls, lf, locs', σ6.
    split; [exact Hdict|]. split; [done|]. split; [by rewrite Hout6|].
    split; [|split; [|done]].
    + rewrite (Hsame _ Hls_notin). cbn [heap]. apply lookup_insert_eq.
    + rewrite (Hsame _ Hlf_notin). cbn [heap].
      rewrite lookup_insert_ne by done. apply lookup_insert_eq.
  - destruct Hloop as (σ6 & Hloop & Hout6).
    rewrite Hloop in Hdict. exists σ6. split; [exact Hdict|]. by rewrite Hout6.
Qed.

End Runs.
Section Failures.

Context {F : Type} {A : PyFloat F}.
Implicit Types (σ : state F) (v : val F) (d : gmap string (val F)).

Lemma scale_recipe_nonpositive σ lr d n :
  heap σ !! lr = Some (ODict d) →
  n ≤ 0 →
  scale_recipe (VRef lr) n σ
  = (Ok VNone, State (heap σ) (stdout σ ++ ["Error: Invalid recipe or serving size."])).
Proof.
  intros Hr Hn. run_truthy Hr.
  replace (n <=? 0) with true by lia. rewrite orb_true_r. reflexivity.
Qed.

Lemma times_not_numeric (a : val F) (sf : F) :
  ¬ numeric a → times a sf = Raise TypeError.
Proof.
  intros Hna. destruct a; try reflexivity; exfalso; apply Hna; [left|right]; eauto.
Qed.

Lemma true_divide_not_numeric (n : Z) (servings : val F) :
  ¬ numeric servings → true_divide n servings = Raise TypeError.
Proof.
  intros Hna. destruct servings; try reflexivity; exfalso; apply Hna; [left|right]; eauto.
Qed.

(** A value that is not a dictionary is never scaled.  [None], 0, the empty
    string and the empty list are refused as invalid, and so is everything
    when [new_servings <= 0]; a number raises [TypeError] at the test
    ['servings' in recipe]; a string or a list that does not contain both
    words is refused for its format, and one that does raises at
    [recipe.copy()] (a string) or at [recipe['ingredients']] (a list). *)
Theorem scale_recipe_needs_a_dictionary (recipe : val F) (new_servings : Z) σ :
  (∀ l, recipe = VRef l → ∃ xs, heap σ !! l = Some (OList xs)) →
  (scale_recipe recipe new_servings σ).1 = Ok VNone
  ∨ (0 < new_servings
     ∧ ((scale_recipe recipe new_servings σ).1 = Raise TypeError
        ∧ ((∃ z, recipe = VInt z) ∨ (∃ x, recipe = VFloat x) ∨ (∃ l, recipe = VRef l))
        ∨ (scale_recipe recipe new_servings σ).1 = Raise AttributeError
          ∧ ∃ s, recipe = VStr s ∧ contains "servings" s = true
                 ∧ contains "ingredients" s = true)).
Proof.
  intros Hlist.
  set (r := scale_recipe recipe new_servings σ).
  assert (∀ σ', r = (Ok VNone, σ') → r.1 = Ok VNone) as Hnone by (by intros σ' ->).
  assert (∀ σ', 0 < new_servings → r = (Raise TypeError, σ') →
            0 < new_servings ∧ r.1 = Raise TypeError) as Htype by (by intros σ' ? ->).
  assert (∀ σ', 0 < new_servings → r = (Raise AttributeError, σ') →
            0 < new_servings ∧ r.1 = Raise AttributeError) as Hattr by (by intros σ' ? ->).
  destruct (decide (0 < new_servings)) as [Hn|Hn].
  2:{ left. eapply Hnone; unfold r. destruct recipe as [|z|x|s|lr].
      - reflexivity.
      - unfold scale_recipe. rewrite bind_run. cbn [truthy mret M_ret].
        replace (new_servings <=? 0) with true by lia. by rewrite orb_true_r.
      - unfold scale_recipe. rewrite bind_run. cbn [truthy mret M_ret].
        replace (new_servings <=? 0) with true by lia. by rewrite orb_true_r.
      - unfold scale_recipe. rewrite bind_run. cbn [truthy mret M_ret].
        replace (new_servings <=? 0) with true by lia. by rewrite orb_true_r.
      - destruct (Hlist lr eq_refl) as [xs Hr]. run_truthy Hr.
        replace (new_servings <=? 0) with true by lia. by rewrite orb_true_r. }
  assert ((new_servings <=? 0) = false) as Hpos by lia.
  destruct recipe as [|z|x|s|lr].
  - left. eapply Hnone; unfold r. reflexivity.
  - destruct (z =? 0) eqn:Ez.
    + left. eapply Hnone; unfold r. unfold scale_recipe. rewrite bind_run. cbn [truthy mret M_ret].
      rewrite Ez. reflexivity.
    + right. destruct (Htype σ Hn) as [_ Hrun].
      * unfold r, scale_recipe. rewrite bind_run. cbn [truthy mret M_ret].
        rewrite Ez, Hpos. reflexivity.
      * split; [done|]. left. split; [done|]. left. eauto.
  - destruct (feq x (of_Q 0)) eqn:Ex.
    + left. eapply Hnone; unfold r. unfold scale_recipe. rewrite bind_run. cbn [truthy mret M_ret].
      rewrite Ex. reflexivity.
    + right. destruct (Htype σ Hn) as [_ Hrun].
      * unfold r, scale_recipe. rewrite bind_run. cbn [truthy mret M_ret].
        rewrite Ex, Hpos. reflexivity.
      * split; [done|]. left. split; [done|]. right. left. eauto.
  - destruct (bool_decide (s = "")) eqn:Ee.
    { left. eapply Hnone; unfold r. unfold scale_recipe. rewrite bind_run. cbn [truthy mret M_ret].
      rewrite Ee. reflexivity. }
    destruct (contains "servings" s) eqn:Es.
    2:{ left. eapply Hnone; unfold r. unfold scale_recipe. rewrite bind_run. cbn [truthy mret M_ret].
        rewrite Ee, Hpos. cbn [negb orb]. rewrite bind_run. cbn [py_in mret M_ret].
        rewrite Es. reflexivity. }
    destruct (contains "ingredients" s) eqn:Ei.
    2:{ left. eapply Hnone; unfold r. unfold scale_recipe. rewrite bind_run. cbn [truthy mret M_ret].
        rewrite Ee, Hpos. cbn [negb orb]. rewrite bind_run. cbn [py_in mret M_ret].
        rewrite Es. rewrite bind_run. cbn [py_in mret M_ret]. rewrite Ei. reflexivity. }
    right. destruct (Hattr σ Hn) as [_ Hrun].
    + unfold r, scale_recipe. rewrite bind_run. cbn [truthy mret M_ret].
      rewrite Ee, Hpos. cbn [negb orb]. rewrite bind_run. cbn [py_in mret M_ret].
      rewrite Es. rewrite bind_run. cbn [py_in mret M_ret]. rewrite Ei. reflexivity.
    + split; [done|]. right. split; [done|]. exists s. done.
  - destruct (Hlist lr eq_refl) as [xs Hr].
    destruct (bool_decide (length xs = 0%nat)) eqn:Ee.
    { left. eapply Hnone; unfold r. run_truthy Hr. rewrite Ee. reflexivity. }
    destruct (existsb (λ x, is_str x "servings") xs) eqn:Es.
    2:{ left. eapply Hnone; unfold r. run_truthy Hr. rewrite Ee, Hpos. cbn [negb orb].
        run_py_in Hr. rewrite Es. reflexivity. }
    destruct (existsb (λ x, is_str x "ingredients") xs) eqn:Ei.
    2:{ left. eapply Hnone; unfold r. run_truthy Hr. rewrite Ee, Hpos. cbn [negb orb].
        run_py_in Hr. rewrite Es. run_py_in Hr. rewrite Ei. reflexivity. }
    right.
    destruct (Htype (State (<[fresh (dom (heap σ)) := OList xs]> (heap σ)) (stdout σ)) Hn)
      as [_ Hrun].
    + unfold r. run_truthy Hr. rewrite Ee, Hpos. cbn [negb orb].
      run_py_in Hr. rewrite Es. run_py_in Hr. rewrite Ei.
      cbn [negb orb].
      rewrite bind_run, (copy_ref _ _ _ Hr).
      rewrite bind_run. simpl getitem. rewrite bind_run. unfold load at 1. cbn [heap].
      assert (heap σ !! fresh (dom (heap σ)) = None) as Hls by apply fresh_loc_none.
      rewrite lookup_insert_ne by congruence. rewrite Hr. reflexivity.
    + split; [done|]. left. split; [done|]. right. right. eauto.
Qed.

Lemma scale_recipe_division_raises σ lr (servings : val F) (n : Z)
    (locs : list loc) (ds : list (gmap string (val F))) (e : exn) :
  recipe_at (heap σ) lr servings locs →
  Forall2 (λ l di, heap σ !! l = Some (ODict di)) locs ds →
  0 < n →
  true_divide n servings = Raise e →
  ∃ σ', scale_recipe (VRef lr) n σ = (Raise e, σ') ∧ stdout σ' = stdout σ.
Proof.
  intros (d & li & Hr & Hs & Hi & Hli) Hds Hn He.
  pose proof (scale_recipe_outcome σ lr d servings n li locs ds Hr Hs Hi Hli Hds Hn) as H.
  by rewrite He in H.
Qed.

(** The loop body raises at the first ingredient that has no amount
    ([KeyError]), whose amount is not a number ([TypeError]) or that has no
    unit ([KeyError]): [scale_recipe] raises that exception, returns no
    recipe and prints nothing. *)
Theorem scale_recipe_missing_field σ lr (servings : val F) (new_servings : Z)
    (scale_factor : F) (pre post : list loc) (l : loc) d (e : exn) :
  recipe_at (heap σ) lr servings (pre ++ l :: post) →
  0 < new_servings →
  true_divide new_servings servings = Ok scale_factor →
  Forall (λ i, ∃ a u x r, ingredient_at (heap σ) i a u
                          ∧ times a scale_factor = Ok x ∧ handle_unit u x = Ok r) pre →
  heap σ !! l = Some (ODict d) →
  (d !! "amount" = None ∧ e = KeyError)
  ∨ (∃ a, d !! "amount" = Some a ∧ ¬ numeric a ∧ e = TypeError)
  ∨ (∃ a x, d !! "amount" = Some a ∧ times a scale_factor = Ok x
            ∧ d !! "unit" = None ∧ e = KeyError) →
  Forall (λ i, ∃ di, heap σ !! i = Some (ODict di)) post →
  ∃ σ', scale_recipe (VRef lr) new_servings σ = (Raise e, σ')
        ∧ stdout σ' = stdout σ.
Proof.
  intros (d0 & li & Hr & Hs & Hi & Hli) Hn Hsf Hpre Hl Hbad Hpost.
  assert (scaled_dict scale_factor d = Raise e) as Hd.
  { unfold scaled_dict.
    destruct Hbad as [[-> ->]|[(a & -> & Hna & ->)|(a & x & -> & Hx & -> & ->)]].
    - reflexivity.
    - by rewrite (times_not_numeric _ _ Hna).
    - by rewrite Hx. }
  assert (∃ ds_pre, Forall2 (λ i di, heap σ !! i = Some (ODict di)
                                     ∧ ∃ y, scaled_dict scale_factor di = Ok y) pre ds_pre)
    as [ds_pre Hds_pre].
  { apply Forall_exists_Forall2_l. eapply Forall_impl; [exact Hpre|].
    intros i (a & u & x & r & (di & Hdi & Ha & Hu) & Hx & Hhr).
    exists di. split; [done|]. eexists. eapply scaled_dict_fields; eauto. }
  apply Forall_exists_Forall2_l in Hpost as [ds_post Hds_post].
  pose proof (scale_recipe_outcome σ lr d0 servings new_servings li (pre ++ l :: post)
                (ds_pre ++ d :: ds_post) Hr Hs Hi Hli) as H.
  rewrite Hsf in H.
  rewrite (result_mapM_raises (scaled_dict scale_factor) ds_pre ds_post d e) in H.
  - apply H; [|done]. apply Forall2_app.
    + eapply Forall2_impl; [exact Hds_pre|]. by intros ? ? [? _].
    + by constructor.
  - eapply Forall2_Forall_r; [exact Hds_pre|]. apply Forall_forall. by intros ? _ ? [_ ?].
  - exact Hd.
Qed.

Lemma scaled_dict_other_keys (sf : F) d d' (k : string) :
  scaled_dict sf d = Ok d' → k ≠ "amount" → k ≠ "unit" → d' !! k = d !! k.
Proof.
  unfold scaled_dict. intros H Hka Hku.
  destruct (d !! "amount") as [a|]; [|discriminate].
  destruct (times a sf) as [x|]; [|discriminate]. cbn [mbind result_bind] in H.
  destruct (d !! "unit") as [u|]; [|discriminate].
  destruct (handle_unit u x) as [[amt [u'|]]|]; [| |discriminate];
    cbn [mbind result_bind fst snd] in H; injection H as <-.
  - rewrite lookup_insert_ne by done. by rewrite lookup_insert_ne.
  - by rewrite lookup_insert_ne.
Qed.

(** The copy is shallow.  The recipe returned has, under every key other
    than "servings" and "ingredients", the value the original has under it
    (the same number or string, the same object for a list or a
    dictionary), and each of its ingredients has, under every key other
    than "amount" and "unit", the value the original ingredient has: the
    names are kept. *)
Theorem scale_recipe_keeps_other_fields σ lr (servings : val F) (new_servings : Z)
    (locs : list loc) (ds : list (gmap string (val F))) (lr' : loc) σ' :
  recipe_at (heap σ) lr servings locs →
  Forall2 (λ l di, heap σ !! l = Some (ODict di)) locs ds →
  scale_recipe (VRef lr) new_servings σ = (Ok (VRef lr'), σ') →
  ∃ d d' locs' ds',
    heap σ !! lr = Some (ODict d)
    ∧ heap σ' !! lr' = Some (ODict d')
    ∧ (∀ k, k ≠ "servings" → k ≠ "ingredients" → d' !! k = d !! k)
    ∧ recipe_at (heap σ') lr' (VInt new_servings) locs'
    ∧ Forall2 (λ l' di', heap σ' !! l' = Some (ODict di')) locs' ds'
    ∧ Forall2 (λ di di', ∀ k, k ≠ "amount" → k ≠ "unit" → di' !! k = di !! k) ds ds'.
Proof.
  intros (d & li & Hr & Hs & Hi & Hli) Hds Hrun.
  destruct (decide (0 < new_servings)) as [Hn|Hn].
  2:{ rewrite (scale_recipe_nonpositive σ lr d new_servings Hr) in Hrun by lia.
      discriminate. }
  pose proof (scale_recipe_outcome σ lr d servings new_servings li locs ds
                Hr Hs Hi Hli Hds Hn) as H.
  destruct (true_divide new_servings servings) as [sf|e].
  2:{ destruct H as (σ0 & H & _). congruence. }
  destruct (mapM (scaled_dict sf) ds) as [ds'|e] eqn:Hm.
  2:{ destruct H as (σ0 & H & _). congruence. }
  destruct H as (ls & lf & locs' & σ0 & H & _ & _ & Hls & Hlf & Hnew).
  rewrite H in Hrun. injection Hrun as -> ->.
  exists d, (<["servings" := VInt new_servings]> (<["ingredients" := VRef lf]> d)), locs', ds'.
  split; [done|]. split; [done|]. split; [|split; [|split; [done|]]].
  - intros k Hk1 Hk2. rewrite lookup_insert_ne by done. by rewrite lookup_insert_ne.
  - eexists _, lf. split; [exact Hls|]. split; [apply lookup_insert_eq|]. split; [|done].
    rewrite lookup_insert_ne by done. apply lookup_insert_eq.
  - eapply Forall2_impl; [exact (result_mapM_Ok _ _ _ Hm)|].
    intros di di' Hdi k Hk1 Hk2. by apply (scaled_dict_other_keys sf).
Qed.

End Failures.
(** ** Recipes that are well formed *)

Section Arithmetic.

Context {F : Type} {A : PyFloat F}.
Implicit Types (σ : state F) (v : val F) (d : gmap string (val F)).

(** The arithmetic raises only for numbers out of range. *)
Hypothesis float_of_int_error :
  ∀ z e, float_of_int z = Raise e → arithmetic_error e.
Hypothesis int_truediv_error :
  ∀ a b e, b ≠ 0 → int_truediv a b = Raise e → arithmetic_error e.
Hypothesis round_int_error :
  ∀ (x : F) e, round_int x = Raise e → arithmetic_error e.

Lemma handle_unit_numeric (u : val F) (x : F) :
  match handle_unit u x with
  | Ok r => numeric r.1
  | Raise e => arithmetic_error e
  end.
Proof.
  unfold handle_unit.
  destruct (is_str u "piece").
  { destruct (round_int _) as [k|e] eqn:Ek; cbn [mbind result_bind];
      [|by eapply round_int_error].
    destruct (int_truediv k 4) as [y|e] eqn:Ey; cbn [mbind result_bind];
      [right; eauto|by eapply (int_truediv_error k 4)]. }
  destruct (is_str u "cup" || is_str u "tbsp" || is_str u "tsp").
  { destruct (is_str u "cup" && flt x (of_Q 0.25)).
    { destruct (fle (of_Q 1) _); right; eauto. }
    destruct (is_str u "tbsp" && flt x (of_Q 0.5)); right; eauto. }
  destruct (is_str u "g" || is_str u "ml").
  - destruct (round_int x) as [k|e] eqn:Ek; cbn [mbind result_bind];
      [left; eauto|by eapply round_int_error].
  - right. eauto.
Qed.

Lemma scaled_dict_numeric (sf : F) d a u :
  d !! "amount" = Some a → numeric a → d !! "unit" = Some u →
  match scaled_dict sf d with
  | Ok d' => ∃ a' u', d' !! "amount" = Some a' ∧ d' !! "unit" = Some u' ∧ numeric a'
  | Raise e => arithmetic_error e
  end.
Proof.
  intros Ha Hnum Hu. unfold scaled_dict. rewrite Ha.
  assert (match times a sf with
          | Ok _ => True
          | Raise e => arithmetic_error e
          end) as Ht.
  { destruct Hnum as [[z ->]|[y ->]]; [|done]. simpl.
    destruct (float_of_int z) eqn:Ez; [done|]. by eapply float_of_int_error. }
  destruct (times a sf) as [x|e]; [|done]. cbn [mbind result_bind]. rewrite Hu.
  pose proof (handle_unit_numeric u x) as Hh.
  destruct (handle_unit u x) as [[amt [u'|]]|e]; [| |done]; cbn [mbind result_bind fst snd] in *.
  - exists amt, (VStr u'). rewrite lookup_insert_eq.
    rewrite lookup_insert_ne by done. by rewrite lookup_insert_eq.
  - exists amt, u. rewrite lookup_insert_eq. by rewrite lookup_insert_ne.
Qed.

Lemma scale_recipe_well_formed_run σ lr (servings n : Z) (locs : list loc) :
  well_formed (heap σ) lr servings locs →
  0 < n →
  match scale_recipe (VRef lr) n σ with
  | (Ok v, σ') =>
      ∃ lr' locs',
        v = VRef lr'
        ∧ well_formed (heap σ') lr' n locs'
        ∧ length locs' = length locs
  | (Raise e, _) => arithmetic_error e
  end.
Proof.
  intros ((d & li & Hr & Hs & Hi & Hli) & Hs0 & Hall) Hn.
  assert (∃ ds, Forall2 (λ i di, heap σ !! i = Some (ODict di)
                                 ∧ ∃ a u, di !! "amount" = Some a
                                          ∧ di !! "unit" = Some u ∧ numeric a) locs ds)
    as [ds Hds].
  { apply Forall_exists_Forall2_l. eapply Forall_impl; [exact Hall|].
    intros i (a & u & (di & Hdi & Ha & Hu) & Hnum). exists di. eauto 10. }
  pose proof (scale_recipe_outcome σ lr d (VInt servings) n li locs ds Hr Hs Hi Hli) as H.
  cbn [true_divide] in H.
  destruct (int_truediv n servings) as [sf|e] eqn:Hsf.
  2:{ destruct H as (σ0 & -> & _); [|done|by eapply (int_truediv_error n servings)].
      eapply Forall2_impl; [exact Hds|]. by intros ? ? [? _]. }
  pose proof (result_mapM_Forall (scaled_dict sf)
                (λ d', ∃ a' u', d' !! "amount" = Some a' ∧ d' !! "unit" = Some u' ∧ numeric a')
                arithmetic_error ds) as Hm.
  destruct (mapM (scaled_dict sf) ds) as [ds'|e] eqn:Hmap.
  - destruct H as (ls & lf & locs' & σ0 & -> & _ & _ & Hls & Hlf & Hnew); [|done|].
    { eapply Forall2_impl; [exact Hds|]. by intros ? ? [? _]. }
    exists ls, locs'. split; [done|]. split; [split; [|split]|].
    + eexists _, lf. split; [exact Hls|]. split; [apply lookup_insert_eq|].
      split; [|done]. rewrite lookup_insert_ne by done. apply lookup_insert_eq.
    + lia.
    + eapply Forall2_Forall_l; [exact Hnew|].
      eapply Forall_impl; [apply Hm|].
      * eapply Forall2_Forall_r; [exact Hds|]. apply Forall_forall.
        intros i _ di (_ & a & u & Ha & Hu & Hnum).
        by apply (scaled_dict_numeric sf di a u).
      * intros d' (a' & u' & Ha' & Hu' & Hnum') l' Hl'. exists a', u'.
        split; [|done]. exists d'. done.
    + rewrite (Forall2_length _ _ _ Hds), (Forall2_length _ _ _ (result_mapM_Ok _ _ _ Hmap)).
      apply (Forall2_length _ _ _ Hnew).
  - destruct H as (σ0 & -> & _); [|done|].
    { eapply Forall2_impl; [exact Hds|]. by intros ? ? [? _]. }
    apply Hm. eapply Forall2_Forall_r; [exact Hds|]. apply Forall_forall.
    intros i _ di (_ & a & u & Ha & Hu & Hnum).
    by apply (scaled_dict_numeric sf di a u).
Qed.

End Arithmetic.

Lemma binary64_float_of_int_error (z : Z) (e : exn) :
  Binary64.float_of_int z = Raise e → arithmetic_error e.
Proof.
  unfold Binary64.float_of_int. cbv zeta.
  destruct (Binary64.is_infinite _); [|discriminate]. intros [= <-]. by left.
Qed.

Lemma binary64_int_truediv_error (a b : Z) (e : exn) :
  b ≠ 0 → Binary64.int_truediv a b = Raise e → arithmetic_error e.
Proof.
  intros Hb. unfold Binary64.int_truediv. rewrite decide_False by done. cbv zeta.
  destruct (Binary64.is_infinite _); [|discriminate]. intros [= <-]. by left.
Qed.

Lemma binary64_round_int_error (x : float) (e : exn) :
  Binary64.round_int x = Raise e → arithmetic_error e.
Proof.
  unfold Binary64.round_int.
  destruct (Prim2SF x); try discriminate; intros [= <-]; [by left|by right].
Qed.

(** In binary64, a well-formed recipe is scaled to a well-formed recipe
    with as many ingredients, for every positive number of servings, unless
    a number leaves the range of the floats: the only exceptions are
    [OverflowError] and [ValueError] (the rounding of a nan), never a
    [KeyError], a [TypeError] or a [ZeroDivisionError].  So a recipe that
    [scale_recipe] returned can be scaled again. *)
Theorem scale_recipe_scales_well_formed (σ : state float) (lr : loc)
    (servings new_servings : Z) (locs : list loc) :
  well_formed (heap σ) lr servings locs →
  0 < new_servings →
  match scale_recipe (A := binary64) (VRef lr) new_servings σ with
  | (Ok v, σ') =>
      ∃ lr' locs',
        v = VRef lr'
        ∧ well_formed (heap σ') lr' new_servings locs'
        ∧ length locs' = length locs
  | (Raise e, _) => e = OverflowError ∨ e = ValueError
  end.
Proof.
  apply (scale_recipe_well_formed_run (A := binary64)).
  - exact binary64_float_of_int_error.
  - exact binary64_int_truediv_error.
  - exact binary64_round_int_error.
Qed.

(** In binary64, a recipe for 0 servings, or whose servings are not a
    number, is not refused with a message: the division
    [new_servings / recipe['servings']] raises [ZeroDivisionError] or
    [TypeError], after the copies are made.  Nothing is printed and no
    recipe is returned. *)
Theorem scale_recipe_bad_servings (σ : state float) (lr : loc) (servings : val float)
    (new_servings : Z) (locs : list loc) (ds : list (gmap string (val float))) (e : exn) :
  recipe_at (heap σ) lr servings locs →
  Forall2 (λ l di, heap σ !! l = Some (ODict di)) locs ds →
  0 < new_servings →
  (servings = VInt 0 ∧ e = ZeroDivisionError)
  ∨ (¬ numeric servings ∧ e = TypeError) →
  ∃ σ', scale_recipe (A := binary64) (VRef lr) new_servings σ = (Raise e, σ')
        ∧ stdout σ' = stdout σ.
Proof.
  intros Hrec Hds Hn Hbad.
  apply (scale_recipe_division_raises σ lr servings new_servings locs ds e Hrec Hds Hn).
  destruct Hbad as [[-> ->]|[Hna ->]]; [reflexivity|].
  by apply true_divide_not_numeric.
Qed.

(** ** The stored amounts in exact arithmetic *)








(** * Further properties of convert_units *)

Lemma table_get_elem {V : Type} (k : string) (d : list (string * V)) (v : V) :
  table_get k d = Some v → (k, v) ∈ d.
Proof.
  induction d as [|[k' v'] d IH]; simpl; [done|].
  case_bool_decide as Hk; [intros [= <-]; subst; left|right; auto].
Qed.

Ltac each_unit H :=
  repeat first
    [ apply elem_of_cons in H as [->|H]
    | apply elem_of_nil in H; destruct H ].

Ltac each_item H :=
  repeat first
    [ apply elem_of_cons in H as [[= -> ->]|H]
    | apply elem_of_nil in H; destruct H ].

(** Between two units of one family the table has a factor exactly when
    the units differ. *)
Lemma conversion_defined (ua ub : string) :
  (ua ∈ volume_units ∧ ub ∈ volume_units) ∨ (ua ∈ weight_units ∧ ub ∈ weight_units) →
  is_Some (conversion ua ub) ↔ ua ≠ ub.
Proof.
  unfold volume_units, weight_units.
  intros [[Ha Hb]|[Ha Hb]]; each_unit Ha; each_unit Hb;
    (split; [intros [c Hc]; vm_compute in Hc; first [discriminate Hc|discriminate]
            |intros Hne; first [by destruct Hne|vm_compute; eauto]]).
Qed.

Section Conversions.

Context {F : Type} {A : PyFloat F}.

(** [convert_units] returns a pair of an amount and a unit in two cases
    only: the two names are the same, or their lowercase forms are two
    different units of one family, both volumes or both weights.  It never
    converts between a volume and a weight, and it has no result for one
    unit written in two ways.  The unit returned is the target as it was
    passed in the first case and its lowercase form in the second. *)
Theorem convert_units_defined (x : F) (a b : string) :
  (is_Some (convert_units x a b)
   ↔ a = b
     ∨ (lower a ≠ lower b
        ∧ ((lower a ∈ volume_units ∧ lower b ∈ volume_units)
           ∨ (lower a ∈ weight_units ∧ lower b ∈ weight_units))))
  ∧ ∀ y u, convert_units x a b = Some (y, u) →
           u = if decide (a = b) then b else lower b.
Proof.
  unfold convert_units, str_in. destruct (decide (a = b)) as [->|Hab].
  { rewrite bool_decide_eq_true_2 by done. split; [|by intros y u [= _ <-]].
    split; [by left|by eexists]. }
  rewrite bool_decide_eq_false_2 by done.
  destruct (bool_decide (lower a ∈ volume_units) && bool_decide (lower b ∈ volume_units)
            || bool_decide (lower a ∈ weight_units) && bool_decide (lower b ∈ weight_units))
    eqn:Efam.
  - assert ((lower a ∈ volume_units ∧ lower b ∈ volume_units)
            ∨ (lower a ∈ weight_units ∧ lower b ∈ weight_units)) as Hfam.
    { apply orb_true_iff in Efam as [E|E]; apply andb_true_iff in E as [E1 E2];
        apply bool_decide_eq_true in E1, E2; [by left|by right]. }
    pose proof (conversion_defined (lower a) (lower b) Hfam) as Hdef.
    destruct (conversion (lower a) (lower b)) as [c|].
    + split; [|by intros y u [= _ <-]].
      split; [intros _; right; split; [apply Hdef; eauto|done]|by eexists].
    + split; [|by intros y u [=]].
      split; [by intros [? [=]]|].
      intros [?|[Hne _]]; [done|]. apply Hdef in Hne. by destruct Hne.
  - split; [|by intros y u [=]].
    split; [by intros [? [=]]|].
    intros [?|[_ Hfam]]; [done|]. exfalso.
    apply orb_false_iff in Efam as [E1 E2].
    destruct Hfam as [[H1 H2]|[H1 H2]].
    + rewrite !bool_decide_eq_true_2 in E1 by done. discriminate.
    + rewrite !bool_decide_eq_true_2 in E2 by done. discriminate.
Qed.

End Conversions.

(** The table [CONVERSIONS] is coherent up to the digits it is written
    with.  For every factor from a unit to another there is a factor back,
    and the product of the two is 1 within 1/400000; and a factor from [a] to
    [b] times a factor from [b] to [c] is the factor from [a] to [c],
    within 1/200000 of it. *)
Theorem conversion_table_is_coherent :
  (∀ a b f,
     conversion a b = Some f →
     ∃ g, conversion b a = Some g
          ∧ (Qabs (lit_value f * lit_value g - 1) <= 1 # 400000)%Q)
  ∧ (∀ a b c f g,
       conversion a b = Some f →
       conversion b c = Some g →
       a ≠ c →
       ∃ h, conversion a c = Some h
            ∧ (Qabs (lit_value f * lit_value g - lit_value h)
               <= (1 # 200000) * lit_value h)%Q).
Proof.
  split.
  - intros a b f H. unfold conversion in H.
    destruct (table_get a CONVERSIONS) as [row|] eqn:Ea; [|discriminate].
    cbn [mbind option_bind] in H.
    apply table_get_elem in Ea. apply table_get_elem in H.
    unfold CONVERSIONS in Ea. each_item Ea; each_item H;
      (eexists; split; [vm_compute; reflexivity|vm_compute; discriminate]).
  - intros a b c f g Hf Hg Hac. unfold conversion in Hf, Hg.
    destruct (table_get a CONVERSIONS) as [row|] eqn:Ea; [|discriminate].
    cbn [mbind option_bind] in Hf.
    destruct (table_get b CONVERSIONS) as [row'|] eqn:Eb; [|discriminate].
    cbn [mbind option_bind] in Hg.
    apply table_get_elem in Ea. apply table_get_elem in Hf.
    unfold CONVERSIONS in Ea. each_item Ea; each_item Hf;
      vm_compute in Eb; injection Eb as <-;
      apply table_get_elem in Hg; each_item Hg;
      first [by destruct Hac
            |eexists; split; [vm_compute; reflexivity|vm_compute; discriminate]].
Qed.

(** * Further properties of get_best_unit and of the density table *)

Section BestUnit.

Context {F : Type} {A : PyFloat F}.

Lemma appropriate_volume_unit_result (amount : F) (current_unit : string) :
  appropriate_volume_unit amount current_unit = (amount, current_unit)
  ∨ (current_unit = "cup"
     ∧ appropriate_volume_unit amount current_unit
       = (round_nd 1 (fmul amount (of_Q 16)), "tbsp"))
  ∨ (current_unit = "tbsp"
     ∧ appropriate_volume_unit amount current_unit
       = (round_nd 1 (fmul amount (of_Q 3)), "tsp")).
Proof.
  unfold appropriate_volume_unit.
  destruct (bool_decide (current_unit = "cup")) eqn:Ec.
  { apply bool_decide_eq_true in Ec. subst current_unit.
    rewrite (bool_decide_eq_false_2 ("cup" = "tbsp")) by done. cbn [andb].
    destruct (flt amount (of_Q 0.25)); [|by left].
    destruct (fle (of_Q 1) (fmul amount (of_Q 16))); [right; left; done|by left]. }
  cbn [andb].
  destruct (bool_decide (current_unit = "tbsp")) eqn:Et; [|by left].
  apply bool_decide_eq_true in Et. subst current_unit. cbn [andb].
  destruct (flt amount (of_Q 1)); [|by left].
  destruct (fle (of_Q 1) (fmul amount (of_Q 3))); [right; right; done|by left].
Qed.

(** [get_best_unit] returns the amount and the unit as they came, or one
    of three conversions: grams, for a volume unit and a name that has a
    density and is not skipped, and then at least 1 gram; tablespoons (16
    to the cup) for a cup; teaspoons (3 to the tablespoon) for a tablespoon.
    It never moves to a larger unit, and a unit that is not one of the
    seven volume units, written in lowercase, is returned as it came. *)
Theorem get_best_unit_result (ingredient_name : string) (amount : F)
    (current_unit : string) :
  let r := get_best_unit ingredient_name amount current_unit in
  r = (amount, current_unit)
  ∨ (r.2 = "g"
     ∧ fle (of_Q 1) r.1 = true
     ∧ current_unit ∈ ["cup"; "tbsp"; "tsp"; "pint"; "quart"; "liter"; "ml"]
     ∧ skipped (lower ingredient_name) = false
     ∧ is_Some (density_match (lower ingredient_name)))
  ∨ (current_unit = "cup" ∧ r = (round_nd 1 (fmul amount (of_Q 16)), "tbsp"))
  ∨ (current_unit = "tbsp" ∧ r = (round_nd 1 (fmul amount (of_Q 3)), "tsp")).
Proof.
  cbv zeta. unfold get_best_unit.
  pose proof (appropriate_volume_unit_result amount current_unit) as Hv.
  assert (appropriate_volume_unit amount current_unit = (amount, current_unit)
          ∨ (current_unit = "cup"
             ∧ appropriate_volume_unit amount current_unit
               = (round_nd 1 (fmul amount (of_Q 16)), "tbsp"))
          ∨ (current_unit = "tbsp"
             ∧ appropriate_volume_unit amount current_unit
               = (round_nd 1 (fmul amount (of_Q 3)), "tsp")) →
          ∀ P : Prop,
            appropriate_volume_unit amount current_unit = (amount, current_unit)
            ∨ P
            ∨ (current_unit = "cup"
               ∧ appropriate_volume_unit amount current_unit
                 = (round_nd 1 (fmul amount (of_Q 16)), "tbsp"))
            ∨ (current_unit = "tbsp"
               ∧ appropriate_volume_unit amount current_unit
                 = (round_nd 1 (fmul amount (of_Q 3)), "tsp"))) as Hint by tauto.
  destruct (skipped (lower ingredient_name)) eqn:Es; [by left|].
  unfold str_in.
  destruct (bool_decide (current_unit ∈ _)) eqn:Eu; [|by apply Hint].
  apply bool_decide_eq_true in Eu.
  destruct (density_match (lower ingredient_name)) as [density|] eqn:Ed; [|by apply Hint].
  destruct (fle (of_Q 1) _) eqn:Eg; [|by apply Hint].
  right. left. cbn [fst snd]. eauto.
Qed.

(** The names of the ingredients are compared in lowercase: two names that
    differ only in the case of their letters get the same result from
    [get_best_unit] and from [convert_cups_to_grams]. *)
Theorem ingredient_names_ignore_case (name name' : string) :
  lower name = lower name' →
  (∀ (amount : F) (current_unit : string),
     get_best_unit name amount current_unit = get_best_unit name' amount current_unit)
  ∧ (∀ amount : Display.number,
       Display.convert_cups_to_grams name amount
       = Display.convert_cups_to_grams name' amount).
Proof.
  intros Hl. split.
  - intros amount current_unit. unfold get_best_unit. by rewrite Hl.
  - intros amount. unfold Display.convert_cups_to_grams. by rewrite Hl.
Qed.

End BestUnit.

Lemma starts_with_contains (p q s : string) :
  starts_with (p +:+ q) s = true → contains q s = true.
Proof.
  revert s. induction p as [|a p IH]; intros s.
  - change ("" +:+ q) with q. intros H. destruct s; simpl; by rewrite H.
  - change (String a p +:+ q) with (String a (p +:+ q)).
    destruct s as [|b s]; [done|]. simpl.
    case_decide as Hab; [|done]. intros H. rewrite (IH s H). apply orb_true_r.
Qed.

Lemma contains_suffix (p q s : string) :
  contains (p +:+ q) s = true → contains q s = true.
Proof.
  induction s as [|b s IH].
  - simpl. rewrite orb_false_r. apply starts_with_contains.
  - intros H. simpl in H. apply orb_true_iff in H as [H|H].
    + by apply (starts_with_contains p).
    + simpl. rewrite (IH H). apply orb_true_r.
Qed.

(** The density of an ingredient is the one of the first key of
    [INGREDIENT_DENSITY], in the order of the table, that occurs in its
    name.  The key "sugar" comes before "brown sugar": a name that contains
    "brown sugar" gets the density of sugar, 200, or the one of flour, 125,
    when it contains "flour" too, and never the 220 of the key
    "brown sugar". *)
Theorem density_match_takes_first_key (ingredient_name : string) (cups : Z) :
  contains "brown sugar" (lower ingredient_name) = true →
  density_match (lower ingredient_name)
  = Some (LInt (if contains "flour" (lower ingredient_name) then 125 else 200))
  ∧ Display.convert_cups_to_grams ingredient_name (Display.NInt cups)
    = Ok (cups * (if contains "flour" (lower ingredient_name) then 125 else 200)).
Proof.
  intros Hb.
  assert (contains "sugar" (lower ingredient_name) = true) as Hs
    by (by apply (contains_suffix "brown ")).
  assert (density_match (lower ingredient_name)
          = Some (LInt (if contains "flour" (lower ingredient_name) then 125 else 200)))
    as Hd.
  { unfold density_match, INGREDIENT_DENSITY. cbn [List.find fst].
    destruct (contains "flour" (lower ingredient_name)); [reflexivity|].
    by rewrite Hs. }
  split; [exact Hd|].
  unfold Display.convert_cups_to_grams. rewrite Hd.
  by destruct (contains "flour" (lower ingredient_name)).
Qed.

(** * Further properties of display_recipe *)

Lemma append_assoc (s t u : string) : (s +:+ t) +:+ u = s +:+ t +:+ u.
Proof.
  induction s as [|a s IH]; [reflexivity|].
  change (String a s +:+ t) with (String a (s +:+ t)).
  change (String a (s +:+ t) +:+ u) with (String a ((s +:+ t) +:+ u)).
  by rewrite IH.
Qed.

(** The fraction found for an amount whose quarters round to [k], from 0
    to 4: the text of [k / 4] is "0.0", "0.25", "0.5", "0.75" or "1.0". *)
Lemma fraction_text_quarters (amount : Display.number) (k : Z) :
  Display.number_times amount (LInt 4) ≫= Display.number_round = Ok k →
  0 ≤ k ≤ 4 →
  Display.fraction_text amount
  = Ok (match k with
        | 1 => Some "1/4"
        | 2 => Some "1/2"
        | 3 => Some "3/4"
        | _ => None
        end).
Proof.
  intros Hk Hr. unfold Display.fraction_text.
  destruct (Display.number_times amount (LInt 4)) as [q|e]; [|discriminate].
  cbn [mbind result_bind] in *. rewrite Hk. cbn [mbind result_bind].
  assert (k = 0 ∨ k = 1 ∨ k = 2 ∨ k = 3 ∨ k = 4) as [->|[->|[->|[->| ->]]]] by lia;
    vm_compute; reflexivity.
Qed.

(** An amount below 1 whose quarters [round(amount * 4)] are [k], from 0
    to 4, is shown in teaspoons as the fraction [k / 4]: "1/4", "1/2" or
    "3/4".  When the amount rounds to no quarter or to four (an amount up
    to 0.125, or from 0.875), [display_recipe] prints no line for the
    ingredient.  In pieces the fractions are the same, and the ingredient
    that rounds to 0 or to 1 is printed with its amount as it is. *)
Theorem display_quarters_below_one (name : string) (amount : Display.number) (k : Z) :
  Display.number_lt amount (LInt 1) = true →
  Display.number_times amount (LInt 4) ≫= Display.number_round = Ok k →
  0 ≤ k ≤ 4 →
  Display.display_ingredient (Display.Ingredient name amount "tsp")
  = Ok (match k with
        | 1 => Some ("- " +:+ "1/4" +:+ " tsp " +:+ name)
        | 2 => Some ("- " +:+ "1/2" +:+ " tsp " +:+ name)
        | 3 => Some ("- " +:+ "3/4" +:+ " tsp " +:+ name)
        | _ => None
        end)
  ∧ Display.display_ingredient (Display.Ingredient name amount "piece")
    = match k with
      | 1 => Ok (Some ("- " +:+ "1/4" +:+ " " +:+ name))
      | 2 => Ok (Some ("- " +:+ "1/2" +:+ " " +:+ name))
      | 3 => Ok (Some ("- " +:+ "3/4" +:+ " " +:+ name))
      | _ => shown ← Display.whole_or_float amount;
             Ok (Some ("- " +:+ shown +:+ " " +:+ name))
      end.
Proof.
  intros Hlt Hk Hr.
  pose proof (fraction_text_quarters amount k Hk Hr) as Hf.
  unfold Display.display_ingredient.
  cbn [Display.ing_amount Display.ing_unit Display.ing_name].
  split.
  - rewrite (bool_decide_eq_false_2 ("tsp" = "piece")) by done.
    rewrite (bool_decide_eq_false_2 ("tsp" = "cup")) by done.
    rewrite (bool_decide_eq_false_2 ("tsp" = "tbsp")) by done.
    rewrite (bool_decide_eq_true_2 ("tsp" = "tsp")) by done.
    replace (str_in "tsp" ["tsp"; "tbsp"]) with true by reflexivity.
    cbn [andb]. rewrite Hlt, Hf. cbn [mbind result_bind].
    assert (k = 0 ∨ k = 1 ∨ k = 2 ∨ k = 3 ∨ k = 4) as [->|[->|[->|[->| ->]]]] by lia;
      reflexivity.
  - rewrite (bool_decide_eq_true_2 ("piece" = "piece")) by done.
    rewrite Hlt, Hf. cbn [mbind result_bind].
    assert (k = 0 ∨ k = 1 ∨ k = 2 ∨ k = 3 ∨ k = 4) as [->|[->|[->|[->| ->]]]] by lia;
      reflexivity.
Qed.

(** A line that [display_recipe] prints for an ingredient starts with
    "- " and ends with the name of the ingredient. *)
Lemma display_ingredient_line (i : Display.ingredient) (line : string) :
  Display.display_ingredient i = Ok (Some line) →
  ∃ text, line = "- " +:+ text +:+ Display.ing_name i.
Proof.
  destruct i as [name amount unit]. unfold Display.display_ingredient.
  cbn [Display.ing_amount Display.ing_unit Display.ing_name].
  assert (∀ t u : string, t +:+ " " +:+ u +:+ " " +:+ name
                          = (t +:+ " " +:+ u +:+ " ") +:+ name) as Hunit
    by (intros t u; by rewrite !append_assoc).
  assert (∀ t u : string, t +:+ u +:+ name = (t +:+ u) +:+ name) as Htwo
    by (intros t u; by rewrite append_assoc).
  destruct (bool_decide (unit = "piece")).
  { destruct (if Display.number_lt amount (LInt 1) then _ else _) as [[frac|]|];
      cbn [mbind result_bind]; [| |discriminate].
    - intros [= <-]. exists (frac +:+ " "). by rewrite Htwo.
    - destruct (Display.whole_or_float amount) as [t|]; cbn [mbind result_bind];
        [|discriminate].
      intros [= <-]. exists (t +:+ " "). by rewrite Htwo. }
  destruct (bool_decide (unit = "cup")).
  { destruct (Display.convert_cups_to_grams name amount) as [g|]; cbn [mbind result_bind];
      [|discriminate].
    intros [= <-]. exists (pretty g +:+ "g "). by rewrite Htwo. }
  destruct (str_in unit ["tsp"; "tbsp"]).
  - destruct (bool_decide (unit = "tbsp") && Display.number_lt amount (LFloat 0.5)).
    { destruct (Display.number_times amount (LInt 3)) as [t|]; cbn [mbind result_bind];
        [|discriminate].
      intros [= <-]. eexists (_ +:+ " tsp "). by rewrite Htwo. }
    destruct (bool_decide (unit = "tsp") && Display.number_lt amount (LInt 1)).
    { destruct (Display.fraction_text amount) as [[frac|]|]; cbn [mbind result_bind];
        try discriminate.
      intros [= <-]. exists (frac +:+ " tsp "). by rewrite Htwo. }
    destruct (Display.one_decimal amount) as [t|]; cbn [mbind result_bind];
      [|discriminate].
    intros [= <-]. eexists. apply f_equal. apply Hunit.
  - destruct (Display.whole_or_float amount) as [t|]; cbn [mbind result_bind];
      [|discriminate].
    intros [= <-]. eexists. apply f_equal. apply Hunit.
Qed.

Lemma display_ingredients_lines (l : list Display.ingredient) :
  ∃ shown,
    shown `sublist_of` l
    ∧ Forall2 (λ i line, Display.display_ingredient i = Ok (Some line))
        shown (Display.display_ingredients l).1.
Proof.
  induction l as [|i l (shown & Hsub & Hall)].
  - exists []. split; constructor.
  - simpl. destruct (Display.display_ingredient i) as [[line|]|e] eqn:Ei.
    + destruct (Display.display_ingredients l) as [lines e']. simpl in *.
      exists (i :: shown). split; [by constructor|by constructor].
    + destruct (Display.display_ingredients l) as [lines e']. simpl in *.
      exists shown. split; [by constructor|done].
    + exists []. split; [apply sublist_nil_l|constructor].
Qed.

(** [display_recipe] prints nothing for [None].  For a recipe it prints
    the name with the servings, a rule of 40 dashes, and then one line for
    each ingredient of a sublist of the ingredients, in their order: the
    ingredients before the first one at which the run raises, without those
    for which no line is printed.  Each of these lines starts with "- " and
    ends with the name of its ingredient. *)
Theorem display_recipe_lines (r : Display.recipe) :
  Display.display_recipe None = ([], None)
  ∧ ∃ shown body,
      (Display.display_recipe (Some r)).1
      = (Display.newline +:+ Display.rec_name r +:+ " (Serves "
         +:+ Display.str_number (Display.rec_servings r) +:+ ")")
        :: "----------------------------------------" :: body
      ∧ shown `sublist_of` Display.rec_ingredients r
      ∧ Forall2 (λ i line, Display.display_ingredient i = Ok (Some line)
                           ∧ ∃ text, line = "- " +:+ text +:+ Display.ing_name i)
          shown body.
Proof.
  split; [reflexivity|].
  destruct (display_ingredients_lines (Display.rec_ingredients r)) as (shown & Hsub & Hall).
  exists shown, (Display.display_ingredients (Display.rec_ingredients r)).1.
  split; [|split; [done|]].
  - unfold Display.display_recipe.
    destruct (Display.display_ingredients (Display.rec_ingredients r)). reflexivity.
  - eapply Forall2_impl; [exact Hall|]. intros i line Hi. split; [done|].
    by apply display_ingredient_line.
Qed.

(** * Amounts in grams and millilitres *)

(** In binary64, the amount stored for an ingredient in "g" or "ml" is an
    [int], one nearest to the exact value of the scaled amount, and the
    unit is kept.  The branch raises only for an infinite scaled amount
    ([OverflowError]) or a nan ([ValueError]). *)
Theorem metric_amounts_are_whole (unit : val float) (scaled_amount : float) :
  unit = VStr "g" ∨ unit = VStr "ml" →
  match handle_unit (A := binary64) unit scaled_amount with
  | Ok r =>
      r.2 = None
      ∧ ∃ (k : Z) (q : Q),
          r.1 = VInt k
          ∧ exact_value scaled_amount = Some q
          ∧ (Qabs (inject_Z k - q) <= 1 # 2)%Q
  | Raise e =>
      (e = OverflowError ∧ ∃ s, Prim2SF scaled_amount = S754_infinity s)
      ∨ (e = ValueError ∧ Prim2SF scaled_amount = S754_nan)
  end.
Proof.
  intros Hu.
  assert (handle_unit (A := binary64) unit scaled_amount
          = (k ← Binary64.round_int scaled_amount; Ok (VInt k, None))) as ->.
  { destruct Hu as [->| ->]; reflexivity. }
  destruct (Binary64.round_int scaled_amount) as [k|e] eqn:Ek; cbn [mbind result_bind].
  - split; [reflexivity|].
    destruct (binary64_round_int_nearest _ _ Ek) as (q & Hq & Hle).
    exists k, q. done.
  - unfold Binary64.round_int in Ek.
    destruct (Prim2SF scaled_amount) as [s|s| |s m e']; try discriminate;
      injection Ek as <-; [left; eauto|right; done].
Qed.

(** * Scaling twice, in exact arithmetic *)















(** * The console *)

Section ConsoleFacts.

Import Console.

Lemma io_bind_run {T U} (m : IO T) (f : T → IO U) (w : world) :
  (m ≫= f) w = match m w with
               | (Done a, w') => f a w'
               | (Raised e, w') => (Raised e, w')
               | (EOFError, w') => (EOFError, w')
               | (Unmodelled, w') => (Unmodelled, w')
               end.
Proof. reflexivity. Qed.

(** A statement that only reads the heap leaves the world as it is. *)
Lemma run_reads {T} (m : M T) (w : world) (r : result T) :
  m (State (objects w) []) = (r, State (objects w) []) →
  run m w = (match r with Ok a => Done a | Raise e => Raised e end, w).
Proof.
  intros H. unfold run. rewrite H. cbn [heap stdout fmap list_fmap].
  rewrite app_nil_r. by destruct w.
Qed.

Lemma run_truthy_reads (v : val float) (w : world) :
  run (truthy v) w
  = (match (truthy v (State (objects w) [])).1 with
     | Ok a => Done a
     | Raise e => Raised e
     end, w).
Proof.
  apply run_reads. pose proof (truthy_reads v (State (objects w) [])) as H.
  by destruct (truthy v _) as [r σ]; simpl in *; subst.
Qed.

Lemma run_getitem_reads (v : val float) (k : string) (w : world) :
  run (getitem v k) w
  = (match (getitem v k (State (objects w) [])).1 with
     | Ok a => Done a
     | Raise e => Raised e
     end, w).
Proof.
  apply run_reads. pose proof (getitem_reads v k (State (objects w) [])) as H.
  by destruct (getitem v k _) as [r σ]; simpl in *; subst.
Qed.

Lemma run_iterate_reads (v : val float) (w : world) :
  run (iterate v) w
  = (match (iterate v (State (objects w) [])).1 with
     | Ok a => Done a
     | Raise e => Raised e
     end, w).
Proof.
  apply run_reads. pose proof (iterate_reads v (State (objects w) [])) as H.
  by destruct (iterate v _) as [r σ]; simpl in *; subst.
Qed.

Lemma run_getitem_dict (w : world) (l : loc) (d : gmap string (val float)) (k : string) :
  objects w !! l = Some (ODict d) →
  run (getitem (VRef l) k) w
  = (match d !! k with Some x => Done x | None => Raised KeyError end, w).
Proof.
  intros H. rewrite run_getitem_reads.
  rewrite (getitem_dict (State (objects w) []) l d k H). by destruct (d !! k).
Qed.

Lemma prints_refl (w : world) : prints w w.
Proof. split; [done|]. exists []. by rewrite app_nil_r. Qed.

Lemma prints_trans (w1 w2 w3 : world) : prints w1 w2 → prints w2 w3 → prints w1 w3.
Proof.
  intros [H1 [l1 Hl1]] [H2 [l2 Hl2]]. split; [congruence|].
  exists (l1 ++ l2). by rewrite Hl2, Hl1, fmap_app, app_assoc.
Qed.

Lemma prints_say (line : string) (w : world) : prints w (say line w).2.
Proof. split; [done|]. by exists [line]. Qed.

Lemma prints_bind {T U} (m : IO T) (f : T → IO U) (w : world) :
  prints w (m w).2 →
  (∀ a w', prints w' (f a w').2) →
  prints w ((m ≫= f) w).2.
Proof.
  intros Hm Hf. rewrite io_bind_run. destruct (m w) as [[a|e| |] w']; simpl in *; try done.
  eapply prints_trans; [exact Hm|apply Hf].
Qed.

Lemma prints_stop {T} (o : outcome T) (w : world) : prints w (stop o w).2.
Proof. apply prints_refl. Qed.

Lemma prints_pure {T} (r : result T) (w : world) : prints w (pure r w).2.
Proof. apply prints_refl. Qed.

Lemma prints_ret {T} (a : T) (w : world) : prints w (mret (M := IO) a w).2.
Proof. apply prints_refl. Qed.

Lemma prints_str_of (v : val float) (w : world) : prints w (str_of v w).2.
Proof. destruct v; apply prints_refl. Qed.

Lemma prints_whole_or_value (v : val float) (w : world) :
  prints w (whole_or_value v w).2.
Proof.
  destruct v; try apply prints_refl. simpl. destruct (int_of_text s); apply prints_refl.
Qed.

Lemma prints_run_getitem (v : val float) (k : string) (w : world) :
  prints w (run (getitem v k) w).2.
Proof. rewrite run_getitem_reads. apply prints_refl. Qed.

Ltac prints_steps :=
  repeat first
    [ apply prints_refl
    | apply prints_say
    | apply prints_stop
    | apply prints_pure
    | apply prints_ret
    | apply prints_str_of
    | apply prints_whole_or_value
    | apply prints_run_getitem
    | apply prints_bind; [|intros ? ?]
    | match goal with
      | |- prints _ ((if ?b then _ else _) _).2 => destruct b
      | |- prints _ ((match ?o with Some _ => _ | None => _ end) _).2 => destruct o
      end ].

Lemma prints_display_ingredient (ingredient : val float) (w : world) :
  prints w (display_ingredient ingredient w).2.
Proof. unfold display_ingredient. prints_steps. Qed.

Lemma prints_each (items : list (val float)) (w : world) :
  prints w (each display_ingredient items w).2.
Proof.
  revert w. induction items as [|x items IH]; intros w; [apply prints_refl|].
  simpl. apply prints_bind; [apply prints_display_ingredient|]. intros _ w'. apply IH.
Qed.

(** [display_recipe] only reads the recipe and prints: for every value
    and in every world, also when it raises, the objects are left as they
    are and the screen has what it had, followed by the lines printed.  It
    prints nothing for a value that is false ([None], an empty dictionary),
    and it raises [KeyError] before printing anything for a dictionary
    without name or without servings. *)
Theorem display_recipe_only_prints (recipe : val float) (w : world) :
  (objects (display_recipe recipe w).2 = objects w
   ∧ ∃ lines, screen (display_recipe recipe w).2 = screen w ++ (Printed <$> lines))
  ∧ (recipe = VNone → display_recipe recipe w = (Done (), w))
  ∧ (∀ l d, recipe = VRef l → objects w !! l = Some (ODict d) →
       (d = ∅ → display_recipe recipe w = (Done (), w))
       ∧ (d ≠ ∅ → d !! "name" = None ∨ d !! "servings" = None →
          (∀ l', d !! "name" ≠ Some (VRef l')) →
          display_recipe recipe w = (Raised KeyError, w))).
Proof.
  split; [|split].
  - change (prints w (display_recipe recipe w).2). unfold display_recipe.
    apply prints_bind; [rewrite run_truthy_reads; apply prints_refl|].
    intros t w1. destruct (negb t); [apply prints_refl|].
    apply prints_bind; [apply prints_run_getitem|]. intros name w2.
    apply prints_bind; [apply prints_str_of|]. intros name_text w3.
    apply prints_bind; [apply prints_run_getitem|]. intros servings w4.
    apply prints_bind; [apply prints_str_of|]. intros servings_text w5.
    apply prints_bind; [apply prints_say|]. intros _ w6.
    apply prints_bind; [apply prints_say|]. intros _ w7.
    apply prints_bind; [apply prints_run_getitem|]. intros ingredients w8.
    apply prints_bind; [rewrite run_iterate_reads; apply prints_refl|]. intros items w9.
    apply prints_each.
  - intros ->. unfold display_recipe. rewrite io_bind_run, run_truthy_reads. reflexivity.
  - intros l d -> Hl. split.
    + intros ->. unfold display_recipe. rewrite io_bind_run, run_truthy_reads.
      simpl truthy. rewrite bind_run. unfold load. cbn [heap]. rewrite Hl. reflexivity.
    + intros Hne Hmiss Hname. unfold display_recipe. rewrite io_bind_run, run_truthy_reads.
      simpl truthy. rewrite bind_run. unfold load. cbn [heap]. rewrite Hl.
      cbn [mret M_ret fst].
      rewrite bool_decide_eq_false_2 by (by intros ?%map_size_empty_inv).
      cbn [negb]. rewrite io_bind_run, (run_getitem_dict w l d "name" Hl).
      destruct (d !! "name") as [name|] eqn:En; [|reflexivity].
      destruct Hmiss as [?|Hs]; [done|].
      rewrite io_bind_run.
      destruct name as [| | | |l']; [| | | |by destruct (Hname l')];
        unfold str_of; cbn [text_of mret IO_ret];
        rewrite io_bind_run, (run_getitem_dict _ l d "servings" Hl), Hs; reflexivity.
Qed.

End ConsoleFacts.

(** * display_recipe on the heap and on records *)

Section ConsoleDisplay.

Import Console.

Lemma say_run (line : string) (w : world) :
  say line w = (Done (), World (objects w) (screen w ++ [Printed line])).
Proof. reflexivity. Qed.








Lemma holds_ingredient_prints (w w' : world) (v : val float) (i : Display.ingredient) :
  objects w' = objects w → holds_ingredient (objects w) v i →
  holds_ingredient (objects w') v i.
Proof. by intros ->. Qed.




End ConsoleDisplay.

(** * The loops of main *)

Section ConsoleMain.

Import Console.










End ConsoleMain.

(** * Sessions of main *)

Section ConsoleSession.

Import Console.


Lemma run_alloc (o : obj float) (w : world) :
  run (alloc o) w
  = (Done (fresh (dom (objects w))), World (<[fresh (dom (objects w)) := o]> (objects w)) (screen w)).
Proof.
  unfold run, alloc. cbn [heap stdout fmap list_fmap]. by rewrite app_nil_r.
Qed.

(** Without recipes [main] ends at once, whatever is typed: no line is
    read and nothing is raised.  When recipes.json is missing or is not
    JSON, [load_recipes] prints its error and returns a new empty list, and
    [main] prints "No recipes found."; for a document that is false (an
    empty list or dictionary, [null], 0, an empty string) [main] prints only
    that. *)
Theorem main_without_recipes (typed : list string) (w : world) :
  let nothing := Printed "No recipes found. Please check your recipes.json file." in
  let added := <[fresh (dom (objects w)) := OList []]> (objects w) in
  main Missing typed w
  = (Done (), World added (screen w ++ [Printed "Error: recipes.json file not found.";
                                         nothing]))
  ∧ main Malformed typed w
    = (Done (), World added (screen w ++ [Printed "Error: Invalid JSON format in recipes.json.";
                                           nothing]))
  ∧ ∀ document : val float,
      truthy document (State (objects w) []) = (Ok false, State (objects w) []) →
      main (Document document) typed w = (Done (), World (objects w) (screen w ++ [nothing])).
Proof.
  assert (∀ s, truthy (VRef (fresh (dom (objects w))))
                 (State (<[fresh (dom (objects w)) := OList []]> (objects w)) s)
               = (Ok false, State (<[fresh (dom (objects w)) := OList []]> (objects w)) s))
    as Hnew.
  { intros s. simpl truthy. rewrite bind_run. unfold load. cbn [heap].
    by rewrite lookup_insert_eq. }
  cbv zeta. split; [|split].
  - unfold main, load_recipes.
    rewrite io_bind_run, io_bind_run, say_run, io_bind_run, run_alloc.
    cbn [objects screen mret IO_ret].
    rewrite io_bind_run, (run_reads _ (World _ _) (Ok false) (Hnew [])). cbn [negb].
    rewrite say_run. cbn [objects screen]. by rewrite <- app_assoc.
  - unfold main, load_recipes.
    rewrite io_bind_run, io_bind_run, say_run, io_bind_run, run_alloc.
    cbn [objects screen mret IO_ret].
    rewrite io_bind_run, (run_reads _ (World _ _) (Ok false) (Hnew [])). cbn [negb].
    rewrite say_run. cbn [objects screen]. by rewrite <- app_assoc.
  - intros document Hfalse. unfold main, load_recipes.
    rewrite io_bind_run. cbn [mret IO_ret].
    rewrite io_bind_run, (run_reads _ w (Ok false) Hfalse). reflexivity.
Qed.








End ConsoleSession.

Section ConsoleRun.

Import Console.


End ConsoleRun.

Section ConsoleDocument.

Import Console.

Lemma menu_of_text (i : Z) (s : string) (rest : list (val float)) (w : world) :
  menu i (VStr s :: rest) w = (Raised TypeError, w).
Proof.
  cbn [menu]. rewrite io_bind_run, run_getitem_reads. reflexivity.
Qed.

(** A document that is true and is no list, such as a single recipe in
    place of the list of the recipes, a string or a number: [main] prints
    the title and "Available recipes:" and raises [TypeError] in the loop
    of the menu, before anything is asked (the keys of a dictionary and the
    characters of a string are strings, which have no item 'name'; a
    number cannot be run through). *)
Theorem main_document_not_a_list (document : val float) (typed : list string) (w : world) :
  truthy document (State (objects w) []) = (Ok true, State (objects w) []) →
  (∀ l items, document = VRef l → objects w !! l ≠ Some (OList items)) →
  main (Document document) typed w
  = (Raised TypeError,
     World (objects w)
       (screen w ++ [Printed (Display.newline +:+ "=== Recipe Scaling Utility ==="
                              +:+ Display.newline);
                     Printed "Available recipes:"])).
Proof.
  intros Htrue Hlist. unfold main, load_recipes. rewrite io_bind_run. cbn [mret IO_ret].
  rewrite io_bind_run, (run_reads _ w (Ok true) Htrue). cbn [negb].
  rewrite io_bind_run, say_run, io_bind_run, say_run. cbn [objects screen].
  rewrite <- app_assoc. cbn [app].
  rewrite io_bind_run, run_iterate_reads. cbn [objects].
  destruct document as [|z|x|s|l]; try discriminate Htrue; try reflexivity.
  - simpl iterate. cbn [mret M_ret fst]. destruct s as [|c s].
    + simpl in Htrue. discriminate Htrue.
    + cbn [chars]. rewrite io_bind_run, menu_of_text. reflexivity.
  - simpl in Htrue. rewrite bind_run in Htrue. simpl iterate. rewrite bind_run.
    unfold load in *. cbn [heap] in *.
    destruct (objects w !! l) as [[d|items]|] eqn:Hl; [| |discriminate Htrue].
    + cbn [mret M_ret fst] in *.
      destruct (map_to_list d) as [|[k v] kvs] eqn:Hkeys.
      * apply map_to_list_empty_iff in Hkeys. subst d.
        rewrite map_size_empty in Htrue. discriminate Htrue.
      * cbn [fmap list_fmap fst]. rewrite io_bind_run, menu_of_text. reflexivity.
    + by destruct (Hlist l items eq_refl).
Qed.

End ConsoleDocument.

(** * Properties of format_measurement *)

(** The text of a fraction of quarters [k / 4], for [k] from -3 to 4: the
    whole part "0" is left out, and "-0" is read as the int 0, so that the
    sign of an amount between -1 and 0 is lost. *)
Lemma format_fraction_quarters (amount : float) (k : Z) :
  Display.number_times (Display.NFloat amount) (LInt 4) ≫= Display.number_round = Ok k →
  -3 ≤ k ≤ 4 →
  Format.fraction_text amount
  = Ok (match k with
        | 1 => Some "1/4"
        | 2 => Some "1/2"
        | 3 => Some "3/4"
        | -1 => Some "0 1/4"
        | -2 => Some "0 1/2"
        | -3 => Some "0 3/4"
        | _ => None
        end).
Proof.
  intros Hk Hr. unfold Format.fraction_text.
  destruct (Display.number_times (Display.NFloat amount) (LInt 4)) as [q|e]; [|discriminate].
  cbn [mbind result_bind] in *. rewrite Hk. cbn [mbind result_bind].
  assert (k = -3 ∨ k = -2 ∨ k = -1 ∨ k = 0 ∨ k = 1 ∨ k = 2 ∨ k = 3 ∨ k = 4)
    as [->|[->|[->|[->|[->|[->|[->| ->]]]]]]] by lia;
    vm_compute; reflexivity.
Qed.

(** [format_measurement] on a float below 1 whose quarters
    [round(amount * 4)] are [k], from -3 to 4.  In pieces, and in teaspoons
    when the amount is no whole number, the result is the fraction "1/4",
    "1/2" or "3/4" for [k] from 1 to 3; for [k] from -3 to -1, an amount
    between -1 and 0, it is "0 1/4", "0 1/2" or "0 3/4", without the sign;
    for 0 and 4 it is the amount with one decimal. *)
Theorem format_measurement_quarters (amount : float) (name : string) (k : Z) :
  Display.number_lt (Display.NFloat amount) (LInt 1) = true →
  Display.number_times (Display.NFloat amount) (LInt 4) ≫= Display.number_round = Ok k →
  -3 ≤ k ≤ 4 →
  let text := match k with
              | 1 => Ok "1/4"
              | 2 => Ok "1/2"
              | 3 => Ok "3/4"
              | -1 => Ok "0 1/4"
              | -2 => Ok "0 1/2"
              | -3 => Ok "0 3/4"
              | _ => Format.one_decimal amount
              end in
  Format.format_measurement amount "piece" name = text
  ∧ (Format.is_integer amount = false →
     Format.format_measurement amount "tsp" name = text).
Proof.
  intros Hlt Hk Hr text.
  pose proof (format_fraction_quarters amount k Hk Hr) as Hf.
  unfold Format.format_measurement. split.
  - rewrite (bool_decide_eq_true_2 ("piece" = "piece")) by done.
    rewrite Hlt, Hf. cbn [mbind result_bind]. subst text.
    assert (k = -3 ∨ k = -2 ∨ k = -1 ∨ k = 0 ∨ k = 1 ∨ k = 2 ∨ k = 3 ∨ k = 4)
      as [->|[->|[->|[->|[->|[->|[->| ->]]]]]]] by lia; reflexivity.
  - intros Hint.
    rewrite (bool_decide_eq_false_2 ("tsp" = "piece")) by done.
    replace (str_in "tsp" ["g"; "ml"]) with false by reflexivity.
    rewrite (bool_decide_eq_true_2 ("tsp" = "tsp")) by done.
    rewrite Hlt, Hint, Hf. cbn [andb negb mbind result_bind]. subst text.
    assert (k = -3 ∨ k = -2 ∨ k = -1 ∨ k = 0 ∨ k = 1 ∨ k = 2 ∨ k = 3 ∨ k = 4)
      as [->|[->|[->|[->|[->|[->|[->| ->]]]]]]] by lia; reflexivity.
Qed.

(** * The further properties on sample inputs *)

Section MoreSamples.

Import Examples.
Local Open Scope float_scope.

(** A text that holds both words passes the two tests of the format and
    has no method [copy]. *)
Lemma scale_recipe_needs_a_dictionary_text :
  (scale_recipe (A := binary64) (VStr "servings, ingredients") 2 (State ∅ [])).1 = Ok VNone
  ∨ ((0 < 2)%Z
     ∧ ((scale_recipe (A := binary64) (VStr "servings, ingredients") 2 (State ∅ [])).1
        = Raise TypeError
        ∧ ((∃ z, (VStr "servings, ingredients" : val float) = VInt z)
           ∨ (∃ x, (VStr "servings, ingredients" : val float) = VFloat x)
           ∨ (∃ l, (VStr "servings, ingredients" : val float) = VRef l))
        ∨ (scale_recipe (A := binary64) (VStr "servings, ingredients") 2 (State ∅ [])).1
          = Raise AttributeError
          ∧ ∃ s, (VStr "servings, ingredients" : val float) = VStr s
                 ∧ contains "servings" s = true
                 ∧ contains "ingredients" s = true)).
Proof.
  apply (scale_recipe_needs_a_dictionary (A := binary64)
           (VStr "servings, ingredients") 2 (State ∅ [])).
  intros l Hl. discriminate Hl.
Defined.

(** The flour without amount of [no_amount_state]. *)
Lemma scale_recipe_missing_field_flour :
  ∃ σ', scale_recipe (VRef 1%positive) 6 no_amount_state = (Raise KeyError, σ')
        ∧ stdout σ' = stdout no_amount_state.
Proof.
  apply (scale_recipe_missing_field (A := binary64) no_amount_state 1%positive (VInt 12) 6
           0.5 [] [] 3%positive
           (<["name" := VStr "flour"]> (<["unit" := VStr "cup"]> ∅)) KeyError).
  - exists (recipe "Cookies" (VInt 12) 2%positive), 2%positive. repeat split.
  - lia.
  - vm_compute. reflexivity.
  - constructor.
  - reflexivity.
  - left. split; reflexivity.
  - constructor.
Defined.

(** The cookies scaled to 6 servings keep their name, and so does each
    of their ingredients. *)
Lemma scale_recipe_keeps_other_fields_cookies :
  ∃ d d' locs' ds',
    heap cookies_state !! 1%positive = Some (ODict d)
    ∧ heap (scale_recipe (VRef 1%positive) 6 cookies_state).2 !! 7%positive
      = Some (ODict d')
    ∧ (∀ k, k ≠ "servings" → k ≠ "ingredients" → d' !! k = d !! k)
    ∧ recipe_at (heap (scale_recipe (VRef 1%positive) 6 cookies_state).2) 7%positive
        (VInt 6) locs'
    ∧ Forall2 (λ l' di',
                 heap (scale_recipe (VRef 1%positive) 6 cookies_state).2 !! l'
                 = Some (ODict di')) locs' ds'
    ∧ Forall2 (λ di di', ∀ k, k ≠ "amount" → k ≠ "unit" → di' !! k = di !! k)
        [flour; salt; eggs; oil] ds'.
Proof.
  apply (scale_recipe_keeps_other_fields (A := binary64) cookies_state 1%positive
           (VInt 12) 6 [3%positive; 4%positive; 5%positive; 6%positive]
           [flour; salt; eggs; oil] 7%positive
           (scale_recipe (VRef 1%positive) 6 cookies_state).2).
  - exists cookies, 2%positive. repeat split.
  - repeat constructor.
  - vm_compute. reflexivity.
Defined.

Lemma scale_recipe_scales_well_formed_cookies :
  match scale_recipe (A := binary64) (VRef 1%positive) 6 cookies_state with
  | (Ok v, σ') =>
      ∃ lr' locs',
        v = VRef lr'
        ∧ well_formed (heap σ') lr' 6 locs'
        ∧ length locs' = length [3%positive; 4%positive; 5%positive; 6%positive]
  | (Raise e, _) => e = OverflowError ∨ e = ValueError
  end.
Proof.
  apply (scale_recipe_scales_well_formed cookies_state 1%positive 12 6
           [3%positive; 4%positive; 5%positive; 6%positive]).
  - split; [exists cookies, 2%positive; repeat split|]. split; [lia|].
    repeat constructor.
    + exists (VInt 2), (VStr "cup"). split; [exists flour; repeat split|left; eauto].
    + exists (VFloat 0.5), (VStr "tsp"). split; [exists salt; repeat split|right; eauto].
    + exists (VInt 2), (VStr "piece"). split; [exists eggs; repeat split|left; eauto].
    + exists (VFloat 0.4), (VStr "cup"). split; [exists oil; repeat split|right; eauto].
  - lia.
Defined.

(** The recipe for 0 servings of [no_serving_state]. *)
Lemma scale_recipe_bad_servings_zero :
  ∃ σ', scale_recipe (A := binary64) (VRef 1%positive) 6 no_serving_state
        = (Raise ZeroDivisionError, σ')
        ∧ stdout σ' = stdout no_serving_state.
Proof.
  apply (scale_recipe_bad_servings no_serving_state 1%positive (VInt 0) 6 [3%positive]
           [flour] ZeroDivisionError).
  - exists (recipe "Cookies" (VInt 0) 2%positive), 2%positive. repeat split.
  - repeat constructor.
  - lia.
  - left. split; reflexivity.
Defined.


Lemma ingredient_names_ignore_case_flour :
  (∀ (amount : float) (current_unit : string),
     get_best_unit (A := binary64) "Flour" amount current_unit
     = get_best_unit "FLOUR" amount current_unit)
  ∧ (∀ amount : Display.number,
       Display.convert_cups_to_grams "Flour" amount
       = Display.convert_cups_to_grams "FLOUR" amount).
Proof.
  apply (ingredient_names_ignore_case (A := binary64) "Flour" "FLOUR"). reflexivity.
Defined.

(** Two cups of "Brown Sugar" are shown as 400 g. *)
Lemma density_match_takes_first_key_brown_sugar :
  density_match (lower "Brown Sugar")
  = Some (LInt (if contains "flour" (lower "Brown Sugar") then 125 else 200))
  ∧ Display.convert_cups_to_grams "Brown Sugar" (Display.NInt 2)
    = Ok (2 * (if contains "flour" (lower "Brown Sugar") then 125 else 200))%Z.
Proof.
  apply (density_match_takes_first_key "Brown Sugar" 2). reflexivity.
Defined.

(** 0.9 tsp of salt rounds to four quarters: no line is printed, and 0.9
    pieces are printed as 0.9. *)
Lemma display_quarters_below_one_salt :
  Display.display_ingredient (Display.Ingredient "salt" (Display.NFloat 0.9) "tsp")
  = Ok None
  ∧ Display.display_ingredient (Display.Ingredient "salt" (Display.NFloat 0.9) "piece")
    = (shown ← Display.whole_or_float (Display.NFloat 0.9);
       Ok (Some ("- " +:+ shown +:+ " " +:+ "salt"))).
Proof.
  apply (display_quarters_below_one "salt" (Display.NFloat 0.9) 4).
  - vm_compute. reflexivity.
  - vm_compute. reflexivity.
  - lia.
Defined.

(** 2.5 g are stored as 2, the even one of the two nearest ints. *)
Lemma metric_amounts_are_whole_two_and_a_half :
  match handle_unit (A := binary64) (VStr "g") 2.5 with
  | Ok r =>
      r.2 = None
      ∧ ∃ (k : Z) (q : Q),
          r.1 = VInt k
          ∧ exact_value 2.5 = Some q
          ∧ (Qabs (inject_Z k - q) <= 1 # 2)%Q
  | Raise e =>
      (e = OverflowError ∧ ∃ s, Prim2SF 2.5 = S754_infinity s)
      ∨ (e = ValueError ∧ Prim2SF 2.5 = S754_nan)
  end.
Proof.
  apply (metric_amounts_are_whole (VStr "g") 2.5). by left.
Defined.


End MoreSamples.

Section ConsoleSamples.

Import Examples ConsoleExamples.


Ltac sample_recipe l d li items :=
  exists l, d, li, items; repeat split; repeat constructor.





(** The cookies alone in place of the book. *)
Lemma main_document_not_a_list_cookies :
  Console.main (Console.Document (VRef 1%positive)) ["1"; "6"] kitchen
  = (Console.Raised TypeError,
     Console.World (Console.objects kitchen)
       (Console.screen kitchen
        ++ [Console.Printed (Display.newline +:+ "=== Recipe Scaling Utility ==="
                             +:+ Display.newline);
            Console.Printed "Available recipes:"])).
Proof.
  apply (main_document_not_a_list (VRef 1%positive) ["1"; "6"] kitchen).
  - reflexivity.
  - intros l items [= <-]. vm_compute. discriminate.
Defined.

(** A quarter less than nothing: the sign is lost. *)
Lemma format_measurement_quarters_minus_a_quarter :
  Format.format_measurement (-0.25)%float "piece" "eggs" = Ok "0 1/4"
  ∧ (Format.is_integer (-0.25)%float = false →
     Format.format_measurement (-0.25)%float "tsp" "eggs" = Ok "0 1/4").
Proof.
  apply (format_measurement_quarters (-0.25)%float "eggs" (-1)).
  - vm_compute. reflexivity.
  - vm_compute. reflexivity.
  - lia.
Defined.

End ConsoleSamples.
